(** * Fitness tracker: record parsing and calorie metrics

    A shallow embedding of the two Go packages of the tracker,
    [spentcalories] (parseTraining, distance, meanSpeed, TrainingInfo,
    RunningSpentCalories, WalkingSpentCalories) and [daysteps]
    (parsePackage, DayActionInfo), together with the parts of the Go
    standard library they call.

    Conventions.
    - Go [int] and [time.Duration] are 64-bit signed integers; they are
      carried by [Z], and every place where the library relies on
      unsigned wrap-around writes the reduction modulo [2^64] out.
    - Go [float64] is IEEE 754 binary64 with round-to-nearest-even, which
      is exactly Rocq's primitive [float]; no operation of the program is
      a multiply-add, so no fused operation can change a result.
    - Go [string] is a byte sequence: [string] of [ascii] (8-bit) here;
      the Cyrillic literals are their UTF-8 bytes.
    - A Go function returning [(T, error)] returns a pair whose second
      component is [option error], [None] being [nil]. *)

From Stdlib Require Import ZArith NArith Bool List Lia.
From Stdlib Require Import Ascii String DecimalString.
From Stdlib Require Import Floats.
From Stdlib Require Uint63 DecimalPos.
Import ListNotations.

Set Warnings "-inexact-float".

Local Open Scope string_scope.
Local Open Scope Z_scope.

(** ** Go values shared by the packages *)

Definition float64 := float.
Definition int := Z.

Bind Scope float_scope with float64.
Bind Scope Z_scope with int.

(** The error values the program can build: [errors.New], [fmt.Errorf]
    with a single [%w] verb, and [*strconv.NumError]. *)
Inductive error : Type :=
| errorString (s : string)
| wrapError (format : string) (err : error)
| NumError (Func Num : string) (Err : error).

(** [errors.Unwrap]. *)
Definition Unwrap (e : error) : option error :=
  match e with
  | errorString _ => None
  | wrapError _ err => Some err
  | NumError _ _ err => Some err
  end.

Module errors.
Definition New (text : string) : error := errorString text.
End errors.

(** [float64(n)] for an integer [n]: the nearest binary64, ties to even. *)
Definition float64_of_int (n : Z) : float64 :=
  SF2Prim (binary_normalize prec emax n 0 false).

(** [uint64(f)] for a non-negative finite [f]: truncation. *)
Definition uint64_of_float64 (f : float64) : Z :=
  match Prim2SF f with
  | S754_finite false m e =>
      if 0 <=? e then Z.pos m * 2 ^ e else Z.pos m / 2 ^ (- e)
  | _ => 0
  end.

Definition isDigit (c : ascii) : bool :=
  ((48 <=? N_of_ascii c) && (N_of_ascii c <=? 57))%N.

Definition digitVal (c : ascii) : Z := Z.of_N (N_of_ascii c) - 48.

Definition nonEmpty (s : string) : bool :=
  match s with EmptyString => false | String _ _ => true end.

(** ** package strings *)

Module strings.

(** [strings.Split(s, sep)] for a one-byte separator: the fields
    between the separators, one more than there are separators. *)
Fixpoint Split (s : string) (sep : ascii) : list string :=
  match s with
  | EmptyString => [EmptyString]
  | String c rest =>
      if Ascii.eqb c sep then EmptyString :: Split rest sep
      else match Split rest sep with
           | [] => [String c EmptyString]
           | field :: fields => String c field :: fields
           end
  end.

End strings.

(** ** package strconv *)

Module strconv.

Definition ErrSyntax : error := errors.New "invalid syntax".
Definition ErrRange : error := errors.New "value out of range".

Definition syntaxError (fn str : string) : error := NumError fn str ErrSyntax.
Definition rangeError (fn str : string) : error := NumError fn str ErrRange.

Definition maxUint64 : Z := 2 ^ 64 - 1.

(** The digit loop of [ParseUint(s, 10, 64)]: [inl] is the error kind
    met first ([true] for a range error), [inr] the value. *)
Fixpoint parseUintLoop (s : string) (n : Z) : bool + Z :=
  match s with
  | EmptyString => inr n
  | String c rest =>
      if negb (isDigit c) then inl false
      else if maxUint64 / 10 + 1 <=? n then inl true
      else
        let n1 := n * 10 + digitVal c in
        if maxUint64 <? n1 then inl true else parseUintLoop rest n1
  end.

(** [ParseInt(s, 10, 0)] with the error's [Func] set by [Atoi]. *)
Definition ParseInt (s : string) : int * option error :=
  match s with
  | EmptyString => (0, Some (syntaxError "Atoi" s))
  | String c rest =>
      let neg := Ascii.eqb c "-" in
      let body := if Ascii.eqb c "+" || neg then rest else s in
      let cutoff := 2 ^ 63 in
      let range := if neg then (- cutoff, Some (rangeError "Atoi" s))
                   else (cutoff - 1, Some (rangeError "Atoi" s)) in
      match body with
      | EmptyString => (0, Some (syntaxError "Atoi" s))
      | _ =>
          match parseUintLoop body 0 with
          | inl false => (0, Some (syntaxError "Atoi" s))
          | inl true => range
          | inr un =>
              if negb neg && (cutoff <=? un) then range
              else if neg && (cutoff <? un) then range
              else (if neg then - un else un, None)
          end
      end
  end.

(** The fast path of [Atoi]: fewer than 19 bytes cannot overflow. *)
Fixpoint atoiLoop (s : string) (n : Z) : option Z :=
  match s with
  | EmptyString => Some n
  | String c rest =>
      if isDigit c then atoiLoop rest (n * 10 + digitVal c) else None
  end.

Definition Atoi (s : string) : int * option error :=
  let sLen := String.length s in
  if (Nat.ltb 0 sLen && Nat.ltb sLen 19)%bool then
    match s with
    | EmptyString => (0, Some (syntaxError "Atoi" s))
    | String c rest =>
        let signed := Ascii.eqb c "-" || Ascii.eqb c "+" in
        let body := if signed then rest else s in
        if signed && negb (nonEmpty body) then (0, Some (syntaxError "Atoi" s))
        else
          match atoiLoop body 0 with
          | None => (0, Some (syntaxError "Atoi" s))
          | Some n => (if Ascii.eqb c "-" then - n else n, None)
          end
    end
  else ParseInt s.

End strconv.

(** ** package time *)

Module time.

(** [time.Duration]: a signed 64-bit count of nanoseconds. *)
Definition Duration := Z.

Bind Scope Z_scope with Duration.

Definition Nanosecond : Duration := 1.
Definition Microsecond : Duration := 1000 * Nanosecond.
Definition Millisecond : Duration := 1000 * Microsecond.
Definition Second : Duration := 1000 * Millisecond.
Definition Minute : Duration := 60 * Second.
Definition Hour : Duration := 60 * Minute.

(** [d.Hours()]: whole hours plus the remaining nanoseconds as a
    fraction; Go's integer [/] and [%] truncate toward zero. *)
Definition Hours (d : Duration) : float64 :=
  let hour := Z.quot d Hour in
  let nsec := Z.rem d Hour in
  (float64_of_int hour + float64_of_int nsec / 3600000000000)%float.

(** [d.Minutes()]. *)
Definition Minutes (d : Duration) : float64 :=
  let min := Z.quot d Minute in
  let nsec := Z.rem d Minute in
  (float64_of_int min + float64_of_int nsec / 60000000000)%float.

Definition lowerhex (n : N) : ascii :=
  ascii_of_N (if (n <? 10)%N then 48 + n else 87 + n)%N.

(** [quote]: the string between double quotes, a quote or backslash
    escaped, every byte outside printable ASCII as [\xhh]. *)
Fixpoint quoteBody (s : string) : string :=
  match s with
  | EmptyString => EmptyString
  | String c rest =>
      let n := N_of_ascii c in
      if ((128 <=? n) || (n <? 32))%N then
        String "\" (String "x" (String (lowerhex (n / 16))
          (String (lowerhex (n mod 16)) (quoteBody rest))))
      else if ((n =? 34) || (n =? 92))%N then
        String "\" (String c (quoteBody rest))
      else String c (quoteBody rest)
  end.

Definition quote (s : string) : string :=
  String (ascii_of_N 34) (quoteBody s ++ String (ascii_of_N 34) EmptyString).

(** [leadingInt]: the leading decimal digits as a number no larger
    than [2^63]; [None] is [errLeadingInt]. *)
Fixpoint leadingIntLoop (s : string) (x : Z) : option (Z * string) :=
  match s with
  | EmptyString => Some (x, s)
  | String c rest =>
      if negb (isDigit c) then Some (x, s)
      else if 2 ^ 63 / 10 <? x then None
      else
        let x' := x * 10 + digitVal c in
        if 2 ^ 63 <? x' then None else leadingIntLoop rest x'
  end.

Definition leadingInt (s : string) : option (Z * string) := leadingIntLoop s 0.

(** [leadingFraction]: the leading digits as numerator [x] and power of
    ten [scale]; digits past the capacity of [x] are skipped. *)
Fixpoint leadingFractionLoop (s : string) (x : Z) (scale : float64)
    (overflow : bool) : Z * float64 * string :=
  match s with
  | EmptyString => (x, scale, s)
  | String c rest =>
      if negb (isDigit c) then (x, scale, s)
      else if overflow then leadingFractionLoop rest x scale true
      else if (2 ^ 63 - 1) / 10 <? x then leadingFractionLoop rest x scale true
      else
        let y := x * 10 + digitVal c in
        if 2 ^ 63 <? y then leadingFractionLoop rest x scale true
        else leadingFractionLoop rest y (scale * 10)%float false
  end.

Definition leadingFraction (s : string) : Z * float64 * string :=
  leadingFractionLoop s 0 1%float false.

(** The bytes of a unit: everything up to the next digit or period. *)
Fixpoint unitSpan (s : string) : string * string :=
  match s with
  | EmptyString => (EmptyString, s)
  | String c rest =>
      if Ascii.eqb c "." || isDigit c then (EmptyString, s)
      else let '(u, s') := unitSpan rest in (String c u, s')
  end.

Definition unitMap (u : string) : option Z :=
  if String.eqb u "ns" then Some Nanosecond
  else if String.eqb u "us" then Some Microsecond
  else if String.eqb u "µs" then Some Microsecond
  else if String.eqb u "μs" then Some Microsecond
  else if String.eqb u "ms" then Some Millisecond
  else if String.eqb u "s" then Some Second
  else if String.eqb u "m" then Some Minute
  else if String.eqb u "h" then Some Hour
  else None.

Definition invalidDuration (orig : string) : error :=
  errors.New ("time: invalid duration " ++ quote orig).

(** The optional fraction of a group, a period and digits: numerator,
    scale, the rest, and whether a digit was consumed. *)
Definition fractionPart (s1 : string) : Z * float64 * string * bool :=
  match s1 with
  | EmptyString => (0, 1%float, s1, false)
  | String c s1' =>
      if Ascii.eqb c "." then
        let '(f, scale, s2) := leadingFraction s1' in
        (f, scale, s2, negb (Nat.eqb (String.length s1') (String.length s2)))
      else (0, 1%float, s1, false)
  end.

(** One round of the loop of [ParseDuration]: a number with its unit,
    as unsigned 64-bit nanoseconds, and the rest of the string. *)
Definition durationGroup (orig s : string) : error + Z * string :=
  match s with
  | EmptyString => inl (invalidDuration orig)
  | String c0 _ =>
      if negb (Ascii.eqb c0 "." || isDigit c0) then inl (invalidDuration orig)
      else
        match leadingInt s with
        | None => inl (invalidDuration orig)
        | Some (v, s1) =>
            let pre := negb (Nat.eqb (String.length s) (String.length s1)) in
            let '(f, scale, s2, post) := fractionPart s1 in
            if negb pre && negb post then inl (invalidDuration orig)
            else
              let '(u, s3) := unitSpan s2 in
              if negb (nonEmpty u) then
                inl (errors.New ("time: missing unit in duration " ++ quote orig))
              else
                match unitMap u with
                | None =>
                    inl (errors.New ("time: unknown unit " ++ quote u
                                     ++ " in duration " ++ quote orig))
                | Some unit =>
                    if 2 ^ 63 / unit <? v then inl (invalidDuration orig)
                    else
                      let v1 := v * unit in
                      if 0 <? f then
                        let v2 :=
                          (v1 + uint64_of_float64
                                  (float64_of_int f
                                   * (float64_of_int unit / scale))%float)
                          mod 2 ^ 64 in
                        if 2 ^ 63 <? v2 then inl (invalidDuration orig)
                        else inr (v2, s3)
                      else inr (v1, s3)
                end
        end
  end.

Inductive loopResult : Type :=
| Total (d : Z)
| Failed (e : error)
| OutOfFuel.

(** The loop [for s != ""] of [ParseDuration], [d] the unsigned 64-bit
    running total. Every round consumes at least one byte, so
    [String.length s] rounds of fuel are enough (lemma
    [durationLoop_fuel]). *)
Fixpoint durationLoop (fuel : nat) (orig s : string) (d : Z) : loopResult :=
  match s with
  | EmptyString => Total d
  | String _ _ =>
      match fuel with
      | O => OutOfFuel
      | S fuel' =>
          match durationGroup orig s with
          | inl e => Failed e
          | inr (v, rest) =>
              let d' := (d + v) mod 2 ^ 64 in
              if 2 ^ 63 <? d' then Failed (invalidDuration orig)
              else durationLoop fuel' orig rest d'
          end
      end
  end.

(** The string after its optional sign, [[-+]?]. *)
Definition afterSign (orig : string) : string :=
  match orig with
  | String c rest => if Ascii.eqb c "-" || Ascii.eqb c "+" then rest else orig
  | EmptyString => orig
  end.

(** [time.ParseDuration]. *)
Definition ParseDuration (orig : string) : Duration * option error :=
  let neg := match orig with String c _ => Ascii.eqb c "-" | EmptyString => false end in
  let s := afterSign orig in
  if String.eqb s "0" then (0, None)
  else if negb (nonEmpty s) then (0, Some (invalidDuration orig))
  else
    match durationLoop (String.length s) orig s 0 with
    | OutOfFuel => (0, Some (invalidDuration orig))
    | Failed e => (0, Some e)
    | Total d =>
        if neg then (- d, None)
        else if 2 ^ 63 - 1 <? d then (0, Some (invalidDuration orig))
        else (d, None)
    end.

End time.

(** ** package fmt and package log *)

Module fmt.

(** [fmt.Errorf(format, err)] for a format whose only verb is [%w]. *)
Definition Errorf (format : string) (err : error) : error := wrapError format err.

(** The verb [%d]. *)
Definition verb_d (n : int) : string := NilZero.string_of_int (Z.to_int n).

(** [num / den] rounded to the nearest integer, ties to even
    ([0 <= num], [0 < den]). *)
Definition roundHalfEven (num den : Z) : Z :=
  let q := num / den in
  match 2 * (num mod den) ?= den with
  | Lt => q
  | Gt => q + 1
  | Eq => if Z.even q then q else q + 1
  end.

Definition twoDigits (n : Z) : string :=
  (if n <? 10 then "0" else "") ++ verb_d n.

(** The verb [%.2f]: the exact decimal value of the float rounded to
    two places, ties to even; a sign only when the sign bit is set. *)
Definition verb_2f (f : float64) : string :=
  match Prim2SF f with
  | S754_nan => "NaN"
  | S754_infinity s => if s then "-Inf" else "+Inf"
  | S754_zero s => (if s then "-" else "") ++ "0.00"
  | S754_finite s m e =>
      let hundredths :=
        if 0 <=? e then Z.pos m * 2 ^ e * 100
        else roundHalfEven (Z.pos m * 100) (2 ^ (- e)) in
      (if s then "-" else "")
      ++ verb_d (hundredths / 100) ++ "." ++ twoDigits (hundredths mod 100)
  end.

End fmt.

Module log.

(** A line written by [log.Printf(format, err)]: the format and the
    error it was given. The log is the only effect of the program. *)
Record entry : Type := Printf { format : string; arg : error }.

End log.

(** ** package spentcalories *)

Module spentcalories.

Import time.

Definition lenStep : float64 := 0.65%float.
Definition mInKm : float64 := 1000%float.
Definition minInH : float64 := 60%float.
Definition stepLengthCoefficient : float64 := 0.45%float.
Definition walkingCaloriesCoefficient : float64 := 0.5%float.

Definition parseTraining (data : string) : int * string * Duration * option error :=
  match strings.Split data "," with
  | [p0; p1; p2] =>
      match strconv.Atoi p0 with
      | (_, Some err) => (0, "", 0, Some (fmt.Errorf "failed to extract steps: %w" err))
      | (steps, None) =>
          if steps <=? 0 then (0, "", 0, Some (errors.New "steps is not positive"))
          else
            let activity := p1 in
            match ParseDuration p2 with
            | (_, Some err) =>
                (0, "", 0, Some (fmt.Errorf "failed to extract duration: %w" err))
            | (d, None) =>
                if d <=? 0 then (0, "", 0, Some (errors.New "duration is not positive"))
                else (steps, activity, d, None)
            end
      end
  | _ => (0, "", 0, Some (errors.New "bad data format"))
  end.

Definition distance (steps : int) (height : float64) : float64 :=
  let length := (height * stepLengthCoefficient)%float in
  (float64_of_int steps * length / mInKm)%float.

Definition meanSpeed (steps : int) (height : float64) (duration : Duration) : float64 :=
  if duration <=? 0 then 0%float
  else
    let dist := distance steps height in
    (dist / Hours duration)%float.

Definition RunningSpentCalories (steps : int) (weight height : float64)
    (duration : Duration) : float64 * option error :=
  if steps <=? 0 then (0%float, Some (errors.New "steps is not positive"))
  else if (weight <=? 0)%float then (0%float, Some (errors.New "weight is not positive"))
  else if duration <=? 0 then (0%float, Some (errors.New "duration is not positive"))
  else
    let ms := meanSpeed steps height duration in
    ((weight * ms * Minutes duration) / minInH, None)%float.

Definition WalkingSpentCalories (steps : int) (weight height : float64)
    (duration : Duration) : float64 * option error :=
  if steps <=? 0 then (0%float, Some (errors.New "steps is not positive"))
  else if (weight <=? 0)%float then (0%float, Some (errors.New "weight is not positive"))
  else if (height <=? 0)%float then (0%float, Some (errors.New "height is not positive"))
  else
    let ms := meanSpeed steps height duration in
    let calories := (weight * ms * Minutes duration)%float in
    let caloriesSpent := (calories / minInH)%float in
    ((caloriesSpent * walkingCaloriesCoefficient)%float, None).

Definition running : string := "Бег".
Definition walking : string := "Ходьба".

(** The five-line report of [TrainingInfo]: its [fmt.Sprintf] call. *)
Definition trainingText (activity : string) (hours dist speed calories : float64)
    : string :=
  "Тип тренировки: " ++ activity ++ "
Длительность: " ++ fmt.verb_2f hours ++ " ч.
Дистанция: " ++ fmt.verb_2f dist ++ " км.
Скорость: " ++ fmt.verb_2f speed ++ " км/ч
Сожгли калорий: " ++ fmt.verb_2f calories ++ "
".

Definition TrainingInfo (data : string) (weight height : float64)
    : string * option error :=
  match parseTraining data with
  | (_, _, _, Some err) => ("", Some (fmt.Errorf "parseTraining: %w" err))
  | (steps, activity, d, None) =>
      let finish (calories : float64) :=
        let speed := meanSpeed steps height d in
        let dist := distance steps height in
        (trainingText activity (Hours d) dist speed calories, None) in
      if String.eqb activity running then
        match RunningSpentCalories steps weight height d with
        | (_, Some err) => ("", Some (fmt.Errorf "RunningSpentCalories: %w" err))
        | (calories, None) => finish calories
        end
      else if String.eqb activity walking then
        match WalkingSpentCalories steps weight height d with
        | (_, Some err) => ("", Some (fmt.Errorf "WalkingSpentCalories: %w" err))
        | (calories, None) => finish calories
        end
      else ("", Some (errors.New "неизвестный тип тренировки"))
  end.

End spentcalories.

(** ** package daysteps *)

Module daysteps.

Import time.

Definition stepLength : float64 := 0.65%float.
Definition mInKm : float64 := 1000%float.

Definition parsePackage (data : string) : int * Duration * option error :=
  match strings.Split data "," with
  | [p0; p1] =>
      match strconv.Atoi p0 with
      | (_, Some err) => (0, 0, Some (fmt.Errorf "failed to extract steps: %w" err))
      | (steps, None) =>
          if steps <=? 0 then (0, 0, Some (errors.New "steps must be positive"))
          else
            match ParseDuration p1 with
            | (_, Some err) =>
                (0, 0, Some (fmt.Errorf "failed to extract duration: %w" err))
            | (d, None) =>
                if d <=? 0 then (0, 0, Some (errors.New "duration is not positive"))
                else (steps, d, None)
            end
      end
  | _ => (0, 0, Some (errors.New "bad data format"))
  end.

(** The three-line report of [DayActionInfo]: its [fmt.Sprintf] call. *)
Definition dayText (steps : int) (kilometers calories : float64) : string :=
  "Количество шагов: " ++ fmt.verb_d steps ++ ".
Дистанция составила " ++ fmt.verb_2f kilometers ++ " км.
Вы сожгли " ++ fmt.verb_2f calories ++ " ккал.
".

(** [DayActionInfo] returns its string and the lines it logged. *)
Definition DayActionInfo (data : string) (weight height : float64)
    : string * list log.entry :=
  match parsePackage data with
  | (_, _, Some err) => ("", [log.Printf "parsePackage: %v" err])
  | (steps, d, None) =>
      if steps <=? 0 then ("", [])
      else
        let meters := (float64_of_int steps * stepLength)%float in
        let kilometers := (meters / mInKm)%float in
        match spentcalories.WalkingSpentCalories steps weight height d with
        | (_, Some err) => ("", [log.Printf "WalkingSpentCalories: %v" err])
        | (calories, None) => (dayText steps kilometers calories, [])
        end
  end.

End daysteps.

(** ** Definitions used by the proofs *)

(** A binary64 value that is zero, or finite with at most [K] bits above
    the binary point: [|x| < 2^K]. *)
Definition sf_bounded (K : Z) (x : spec_float) : Prop :=
  match x with
  | S754_zero _ => True
  | S754_finite _ m e => e <= 971 /\ Z.pos (digits2_pos m) + e <= K
  | _ => False
  end.

(** A string of ASCII digits, and the number such a string denotes after
    the digits already read as [acc]. *)
Fixpoint allDigits (s : string) : bool :=
  match s with
  | EmptyString => true
  | String c rest => isDigit c && allDigits rest
  end.

Fixpoint decimalValue (s : string) (acc : Z) : Z :=
  match s with
  | EmptyString => acc
  | String c rest => decimalValue rest (acc * 10 + digitVal c)
  end.

(** A field: a string without a comma. *)
Fixpoint commaFree (s : string) : bool :=
  match s with
  | EmptyString => true
  | String c rest => negb (Ascii.eqb c ",") && commaFree rest
  end.

(** Binary64 values with a clear sign bit: zero, finite or infinite
    ([sf_nonneg]), and among them the finite ones that are not zero
    ([sf_positive]). *)
Definition sf_nonneg (x : spec_float) : Prop :=
  match x with
  | S754_zero false | S754_infinity false | S754_finite false _ _ => True
  | _ => False
  end.

Definition sf_positive (x : spec_float) : Prop :=
  match x with
  | S754_finite false _ _ => True
  | _ => False
  end.

(** A positive finite binary64 whose magnitude lies in
    [[2^(L-1), 2^K)]. *)
Definition sf_between (L K : Z) (x : spec_float) : Prop :=
  match x with
  | S754_finite false m e =>
      e <= 971 /\ L <= Z.pos (digits2_pos m) + e <= K
  | _ => False
  end.

(** ** The record grammar in the words of the specification

    The specification speaks of an integer field and of a duration
    literal, a sequence of pairs of an integer and a unit, the unit an
    hour or a minute marker. These two definitions follow its words and
    not the code; the parsers are compared with them. *)

(** An integer: an optional sign and decimal digits, of any size. *)
Definition specInteger (s : string) : option Z :=
  match s with
  | EmptyString => None
  | String c rest =>
      if Ascii.eqb c "-" then
        if nonEmpty rest && allDigits rest then Some (- decimalValue rest 0) else None
      else if Ascii.eqb c "+" then
        if nonEmpty rest && allDigits rest then Some (decimalValue rest 0) else None
      else if allDigits s then Some (decimalValue s 0) else None
  end.

(** The pairs of a duration literal and the nanoseconds they add up to:
    [number] holds the digits read since the last unit, [total] the pairs
    before them. No sign and no fraction. *)
Fixpoint specDurationPairs (s : string) (number : option Z) (total : Z) : option Z :=
  match s with
  | EmptyString =>
      match number with
      | None => Some total
      | Some _ => None
      end
  | String c rest =>
      if isDigit c then
        specDurationPairs rest
          (Some (match number with Some v => v | None => 0 end * 10 + digitVal c))
          total
      else
        match number with
        | None => None
        | Some v =>
            if Ascii.eqb c "h" then specDurationPairs rest None (total + v * time.Hour)
            else if Ascii.eqb c "m" then
              specDurationPairs rest None (total + v * time.Minute)
            else None
        end
  end.

(** A duration literal: one pair or more. *)
Definition specDurationLiteral (s : string) : option Z :=
  if nonEmpty s then specDurationPairs s None 0 else None.

(** Whether a rendered number begins with a minus sign. *)
Definition minusShown (text : string) : bool :=
  match text with
  | String c _ => Ascii.eqb c "-"
  | EmptyString => false
  end.

(** A value that a report shows as a number without a minus sign: it is
    [>= 0], so not NaN, and its [%.2f] rendering has no sign, so it is not
    the negative zero either. *)
Definition shownNonNegative (v : float64) : Prop :=
  (0 <=? v)%float = true /\ minusShown (fmt.verb_2f v) = false.

Import time spentcalories daysteps.

(** * Properties *)

(** Case analysis on the outermost conditional of a hypothesis or of
    the goal. *)
Ltac split_if_in H :=
  match type of H with
  | context [if ?b then _ else _] => destruct b eqn:?
  end.

Ltac split_if :=
  match goal with
  | |- context [if ?b then _ else _] => destruct b eqn:?
  end.

(** ** The duration parser never runs out of fuel *)

Lemma leadingIntLoop_length s : forall x v s1,
  leadingIntLoop s x = Some (v, s1) -> (String.length s1 <= String.length s)%nat.
Proof.
  induction s as [|c rest IH]; simpl; intros x v s1 H.
  - injection H as E1 E2; subst. simpl. lia.
  - destruct (isDigit c); cbn [negb] in H.
    + split_if_in H; [discriminate|].
      split_if_in H; [discriminate|].
      apply IH in H. lia.
    + injection H as E1 E2; subst. simpl. lia.
Qed.

Lemma leadingInt_digit c rest v s1 :
  isDigit c = true -> leadingInt (String c rest) = Some (v, s1) ->
  (String.length s1 <= String.length rest)%nat.
Proof.
  unfold leadingInt. cbn [leadingIntLoop]. intros ->. cbn [negb].
  intros H. split_if_in H; [discriminate|].
  split_if_in H; [discriminate|].
  revert H. apply leadingIntLoop_length.
Qed.

Lemma leadingFractionLoop_length s : forall x scale overflow,
  (String.length (snd (leadingFractionLoop s x scale overflow)) <= String.length s)%nat.
Proof.
  induction s as [|c rest IH]; intros x scale overflow; [simpl; lia|].
  cbn [leadingFractionLoop].
  destruct (isDigit c); cbn [negb]; [|simpl; lia].
  destruct overflow; [specialize (IH x scale true); simpl; lia|].
  split_if; [specialize (IH x scale true); simpl; lia|].
  split_if.
  - specialize (IH x scale true); simpl; lia.
  - specialize (IH (x * 10 + digitVal c) (scale * 10)%float false). simpl; lia.
Qed.

Lemma fractionPart_length s1 f scale s2 post :
  fractionPart s1 = (f, scale, s2, post) ->
  (String.length s2 <= String.length s1)%nat /\
  (post = true -> (String.length s2 < String.length s1)%nat).
Proof.
  unfold fractionPart. destruct s1 as [|c s1'].
  - intros H. inversion H; subst. split; [simpl; lia | discriminate].
  - destruct (Ascii.eqb c ".").
    + unfold leadingFraction.
      pose proof (leadingFractionLoop_length s1' 0 1%float false) as L.
      destruct (leadingFractionLoop s1' 0 1%float false) as [[f' scale'] s2'].
      simpl in L. intros H. inversion H; subst. simpl. split; lia.
    + intros H. inversion H; subst. split; [lia | discriminate].
Qed.

Lemma unitSpan_length s : forall u s3,
  unitSpan s = (u, s3) ->
  (String.length s3 + String.length u = String.length s)%nat.
Proof.
  induction s as [|c rest IH]; simpl; intros u s3 H.
  - injection H as E1 E2; subst. reflexivity.
  - destruct (Ascii.eqb c "." || isDigit c).
    + injection H as E1 E2; subst. simpl. lia.
    + destruct (unitSpan rest) as [u' s'] eqn:E.
      injection H as E1 E2; subst. specialize (IH _ _ eq_refl). simpl. lia.
Qed.

(** A round that succeeds consumes at least one byte. *)
Lemma durationGroup_shorter orig s v rest :
  durationGroup orig s = inr (v, rest) ->
  (String.length rest < String.length s)%nat.
Proof.
  unfold durationGroup. destruct s as [|c0 s']; [discriminate|].
  destruct (negb (Ascii.eqb c0 "." || isDigit c0)); [discriminate|].
  destruct (leadingInt (String c0 s')) as [[v0 s1]|] eqn:EI; [|discriminate].
  destruct (fractionPart s1) as [[[f scale] s2] post] eqn:EF.
  destruct (fractionPart_length _ _ _ _ _ EF) as [L2 Lpost].
  pose proof (leadingIntLoop_length _ _ _ _ EI) as L1.
  destruct (Nat.eqb (String.length (String c0 s')) (String.length s1)) eqn:Epre;
    simpl negb; cbv beta iota.
  - (* nothing before the period: a fraction digit was consumed *)
    destruct post; simpl andb; cbv iota; [|discriminate].
    specialize (Lpost eq_refl).
    destruct (unitSpan s2) as [u s3] eqn:EU.
    pose proof (unitSpan_length _ _ _ EU) as L3.
    destruct (negb (nonEmpty u)); [discriminate|].
    destruct (unitMap u) as [unit|]; [|discriminate].
    destruct (2 ^ 63 / unit <? v0); [discriminate|].
    destruct (0 <? f).
    + match goal with |- context [if ?b then inl _ else _] => destruct b end;
        [discriminate|].
      intros H. injection H as E1 E2; subst. lia.
    + intros H. injection H as E1 E2; subst. lia.
  - apply Nat.eqb_neq in Epre. simpl andb. cbv iota.
    destruct (unitSpan s2) as [u s3] eqn:EU.
    pose proof (unitSpan_length _ _ _ EU) as L3.
    destruct (negb (nonEmpty u)); [discriminate|].
    destruct (unitMap u) as [unit|]; [|discriminate].
    destruct (2 ^ 63 / unit <? v0); [discriminate|].
    destruct (0 <? f).
    + match goal with |- context [if ?b then inl _ else _] => destruct b end;
        [discriminate|].
      intros H. injection H as E1 E2; subst. lia.
    + intros H. injection H as E1 E2; subst. lia.
Qed.

Lemma durationLoop_fuel fuel : forall orig s d,
  (String.length s <= fuel)%nat -> durationLoop fuel orig s d <> OutOfFuel.
Proof.
  induction fuel as [|fuel IH]; intros orig s d L.
  - destruct s; [discriminate | simpl in L; lia].
  - destruct s as [|c s']; [discriminate|].
    cbn [durationLoop].
    destruct (durationGroup orig (String c s')) as [e|[v rest]] eqn:EG; [discriminate|].
    apply durationGroup_shorter in EG.
    destruct (2 ^ 63 <? (d + v) mod 2 ^ 64); [discriminate|].
    apply IH. lia.
Qed.

(** [ParseDuration] gives its loop enough fuel: every result is one of
    the library's own. *)
Lemma ParseDuration_fuel orig :
  durationLoop (String.length (afterSign orig)) orig (afterSign orig) 0 <> OutOfFuel.
Proof. apply durationLoop_fuel. lia. Qed.

(** ** Binary64 arithmetic: magnitudes and finiteness

    The operations of [float] are specified by those of [spec_float]
    (FloatAxioms). The lemmas below bound the magnitude of a rounded
    result, which is what keeps a computation away from the infinities. *)

Lemma digits2_pos_log2 (p : positive) :
  Z.pos (digits2_pos p) = Z.log2 (Z.pos p) + 1.
Proof.
  assert (S : forall q, digits2_pos q = Pos.size q)
    by (induction q; simpl; congruence).
  destruct p; simpl; rewrite ?S; lia.
Qed.

Lemma Zdigits2_nonneg m : 0 <= Zdigits2 m.
Proof. destruct m; simpl; lia. Qed.

Lemma Zdigits2_le m k : 0 <= m -> 0 <= k -> m < 2 ^ k -> Zdigits2 m <= k.
Proof.
  intros Hm Hk Hlt. destruct m as [|p|p]; cbn [Zdigits2]; [lia| |lia].
  rewrite digits2_pos_log2.
  assert (Z.log2 (Z.pos p) < k) by (apply Z.log2_lt_pow2; lia). lia.
Qed.

Lemma Zdigits2_gt m : 0 <= m -> m < 2 ^ Zdigits2 m.
Proof.
  intros Hm. destruct m as [|p|p]; cbn [Zdigits2]; [lia| |lia].
  rewrite digits2_pos_log2.
  destruct (Z.log2_spec (Z.pos p)) as [_ H]; [lia|].
  replace (Z.log2 (Z.pos p) + 1) with (Z.succ (Z.log2 (Z.pos p))) by lia. exact H.
Qed.

Lemma Zdigits2_mono m n : 0 <= m <= n -> Zdigits2 m <= Zdigits2 n.
Proof.
  intros H. apply Zdigits2_le; [lia | apply Zdigits2_nonneg |].
  pose proof (Zdigits2_gt n). lia.
Qed.

Lemma Zdigits2_div_pow2 m n :
  0 <= m -> 0 <= n -> Zdigits2 (m / 2 ^ n) <= Z.max (Zdigits2 m - n) 0.
Proof.
  intros Hm Hn.
  assert (Hq : 0 <= m / 2 ^ n) by (apply Z.div_pos; lia).
  destruct (Z.le_gt_cases (Zdigits2 m) n) as [Hs|Hs].
  - rewrite Z.div_small; [simpl; lia|].
    split; [lia|]. pose proof (Zdigits2_gt m Hm).
    assert (2 ^ Zdigits2 m <= 2 ^ n) by (apply Z.pow_le_mono_r; lia). lia.
  - rewrite Z.max_l by lia.
    apply Zdigits2_le; [lia | lia |].
    apply Z.div_lt_upper_bound; [lia|].
    rewrite <- Z.pow_add_r by lia.
    replace (n + (Zdigits2 m - n)) with (Zdigits2 m) by lia.
    apply Zdigits2_gt; lia.
Qed.

Lemma Zdigits2_succ m : 0 <= m -> Zdigits2 (m + 1) <= Zdigits2 m + 1.
Proof.
  intros Hm. pose proof (Zdigits2_nonneg m).
  apply Zdigits2_le; [lia | lia |].
  pose proof (Zdigits2_gt m Hm).
  rewrite Z.pow_add_r by lia. change (2 ^ 1) with 2. lia.
Qed.

Lemma Zdigits2_add a b k :
  0 <= a -> 0 <= b -> Zdigits2 a <= k -> Zdigits2 b <= k ->
  forall z, Z.abs z <= a + b -> Zdigits2 (Z.abs z) <= k + 1.
Proof.
  intros Ha Hb Hak Hbk z Hz.
  pose proof (Zdigits2_nonneg a).
  apply Zdigits2_le; [lia | lia |].
  pose proof (Zdigits2_gt a Ha). pose proof (Zdigits2_gt b Hb).
  assert (2 ^ Zdigits2 a <= 2 ^ k) by (apply Z.pow_le_mono_r; lia).
  assert (2 ^ Zdigits2 b <= 2 ^ k) by (apply Z.pow_le_mono_r; lia).
  rewrite Z.pow_add_r by lia. change (2 ^ 1) with 2. lia.
Qed.

Lemma Zdigits2_shiftl m s : 0 < m -> 0 <= s -> Zdigits2 (Z.shiftl m s) = Zdigits2 m + s.
Proof.
  intros Hm Hs. rewrite Z.shiftl_mul_pow2 by lia.
  assert (0 < m * 2 ^ s) by (apply Z.mul_pos_pos; lia).
  destruct m as [|p|p]; try lia.
  destruct (Z.pos p * 2 ^ s) as [|q|q] eqn:E; try lia.
  cbn [Zdigits2]. rewrite !digits2_pos_log2. rewrite <- E.
  rewrite Z.log2_mul_pow2 by lia. lia.
Qed.

Lemma digits2_pos_iter_xO m d :
  Z.pos (digits2_pos (Pos.iter xO m d)) = Z.pos (digits2_pos m) + Z.pos d.
Proof.
  induction d using Pos.peano_ind.
  - simpl. lia.
  - rewrite Pos.iter_succ. simpl digits2_pos. lia.
Qed.

Lemma sf_bounded_weaken K K' x : K <= K' -> sf_bounded K x -> sf_bounded K' x.
Proof. destruct x; simpl; intuition lia. Qed.

Lemma shr_1_m mrs : 0 <= shr_m mrs -> shr_m (shr_1 mrs) = shr_m mrs / 2.
Proof.
  destruct mrs as [m r s]. cbn [shr_m]. intros Hm.
  rewrite <- Z.div2_div.
  destruct m as [|[p|p|]|p]; try lia; reflexivity.
Qed.

Lemma iter_shr_1_m p : forall mrs,
  0 <= shr_m mrs ->
  shr_m (iter_pos shr_1 p mrs) = shr_m mrs / 2 ^ Z.pos p.
Proof.
  induction p as [p IH|p IH|]; intros mrs Hm; cbn [iter_pos].
  - assert (H1 : 0 <= shr_m (shr_1 mrs))
      by (rewrite shr_1_m by lia; apply Z.div_pos; lia).
    assert (H2 : 0 <= shr_m (iter_pos shr_1 p (shr_1 mrs)))
      by (rewrite IH by lia; apply Z.div_pos; lia).
    rewrite IH, IH, shr_1_m by lia.
    rewrite !Z.div_div by lia. f_equal.
    replace (Z.pos p~1) with (Z.pos p + Z.pos p + 1) by lia.
    rewrite !Z.pow_add_r by lia. change (2 ^ 1) with 2. ring.
  - assert (H2 : 0 <= shr_m (iter_pos shr_1 p mrs))
      by (rewrite IH by lia; apply Z.div_pos; lia).
    rewrite IH, IH by lia.
    rewrite !Z.div_div by lia. f_equal.
    replace (Z.pos p~0) with (Z.pos p + Z.pos p) by lia.
    rewrite !Z.pow_add_r by lia. ring.
  - rewrite shr_1_m by lia. reflexivity.
Qed.

Lemma fexp_binary64 k : fexp prec emax k = Z.max (k - 53) (-1074).
Proof. reflexivity. Qed.

(** The shift of [shr_fexp] keeps a mantissa non-negative and never
    raises the magnitude past [K]. *)
Lemma shr_fexp_bounded m e l K :
  0 <= m -> e <= 971 -> Zdigits2 m + e <= K -> -1074 <= K <= 1024 ->
  let '(mrs, e') := shr_fexp prec emax m e l in
  0 <= shr_m mrs /\ e' <= 971 /\ Zdigits2 (shr_m mrs) + e' <= K.
Proof.
  intros Hm He HK HKr. unfold shr_fexp, shr.
  assert (Hr : shr_m (shr_record_of_loc m l) = m)
    by (destruct l as [|[]]; reflexivity).
  rewrite fexp_binary64.
  destruct (Z.max (Zdigits2 m + e - 53) (-1074) - e) as [|n|n] eqn:En.
  - rewrite Hr. lia.
  - rewrite iter_shr_1_m by lia. rewrite Hr.
    split; [apply Z.div_pos; lia|]. split; [lia|].
    pose proof (Zdigits2_div_pow2 m (Z.pos n) Hm ltac:(lia)).
    pose proof (Zdigits2_nonneg m). lia.
  - rewrite Hr. lia.
Qed.

Lemma round_nearest_even_cases m l :
  round_nearest_even m l = m \/ round_nearest_even m l = m + 1.
Proof.
  destruct l as [|[]]; cbn [round_nearest_even]; auto.
  destruct (Z.even m); auto.
Qed.

Lemma binary_round_aux_bounded sx mx ex lx K :
  0 <= mx -> ex <= 971 -> Zdigits2 mx + ex <= K -> -1074 <= K <= 1023 ->
  sf_bounded (K + 1) (binary_round_aux prec emax sx mx ex lx).
Proof.
  intros Hm He HK HKr. unfold binary_round_aux.
  pose proof (shr_fexp_bounded mx ex lx K Hm He HK ltac:(lia)) as H1.
  destruct (shr_fexp prec emax mx ex lx) as [mrs1 e1].
  destruct H1 as (Hm1 & He1 & HK1).
  set (m1 := round_nearest_even (shr_m mrs1) (loc_of_shr_record mrs1)).
  assert (Hm1' : 0 <= m1 /\ Zdigits2 m1 <= Zdigits2 (shr_m mrs1) + 1).
  { subst m1. destruct (round_nearest_even_cases (shr_m mrs1) (loc_of_shr_record mrs1))
      as [->| ->]; [lia|].
    split; [lia | apply Zdigits2_succ; lia]. }
  pose proof (shr_fexp_bounded m1 e1 loc_Exact (K + 1) ltac:(lia) He1 ltac:(lia) ltac:(lia))
    as H2.
  destruct (shr_fexp prec emax m1 e1 loc_Exact) as [mrs2 e2].
  destruct H2 as (Hm2 & He2 & HK2).
  destruct (shr_m mrs2) as [|p|p] eqn:Ep; cbn [sf_bounded]; [exact I| |lia].
  replace (e2 <=? emax - prec) with true by (symmetry; apply Z.leb_le; exact He2).
  cbn [sf_bounded]. cbn [Zdigits2] in HK2. lia.
Qed.

Lemma shl_align_spec mx ex ex' :
  let '(mz, ez) := shl_align mx ex ex' in
  ez <= ex /\ Z.pos (digits2_pos mz) + ez = Z.pos (digits2_pos mx) + ex.
Proof.
  unfold shl_align. destruct (ex' - ex) as [|d|d] eqn:E; [lia|lia|].
  rewrite digits2_pos_iter_xO. lia.
Qed.

Lemma binary_round_bounded sx mx ex K :
  ex <= 971 -> Z.pos (digits2_pos mx) + ex <= K -> -1074 <= K <= 1023 ->
  sf_bounded (K + 1) (binary_round prec emax sx mx ex).
Proof.
  intros He HK HKr. unfold binary_round.
  pose proof (shl_align_spec mx ex (fexp prec emax (Z.pos (digits2_pos mx) + ex))) as H.
  destruct (shl_align mx ex (fexp prec emax (Z.pos (digits2_pos mx) + ex))) as [mz ez].
  apply binary_round_aux_bounded; cbn [Zdigits2]; lia.
Qed.

Lemma binary_normalize_bounded m e K :
  e <= 971 -> Zdigits2 m + e <= K -> -1074 <= K <= 1023 ->
  sf_bounded (K + 1) (binary_normalize prec emax m e false).
Proof.
  intros He HK HKr. destruct m as [|p|p]; cbn [binary_normalize Zdigits2] in *.
  - exact I.
  - apply binary_round_bounded; lia.
  - apply binary_round_bounded; lia.
Qed.

Lemma Zdigits2_abs z : Zdigits2 (Z.abs z) = Zdigits2 z.
Proof. destruct z; reflexivity. Qed.

Lemma SFadd_bounded x y K :
  sf_bounded K x -> sf_bounded K y -> -1074 <= K <= 1022 ->
  sf_bounded (K + 2) (SFadd prec emax x y).
Proof.
  intros Hx Hy HKr.
  destruct x as [sx|sx| |sx mx ex], y as [sy|sy| |sy my ey];
    cbn [sf_bounded] in Hx, Hy; try contradiction.
  - destruct sx, sy; exact I.
  - cbn [SFadd sf_bounded]. lia.
  - cbn [SFadd sf_bounded]. lia.
  - cbn [SFadd].
    pose proof (shl_align_spec mx ex (Z.min ex ey)) as Ha.
    pose proof (shl_align_spec my ey (Z.min ex ey)) as Hb.
    unfold shl_align in *.
    set (a := Z.pos (fst (match Z.min ex ey - ex with
                          | Z.neg d => (Pos.iter xO mx d, Z.min ex ey)
                          | _ => (mx, ex) end))).
    set (b := Z.pos (fst (match Z.min ex ey - ey with
                          | Z.neg d => (Pos.iter xO my d, Z.min ex ey)
                          | _ => (my, ey) end))).
    assert (Da : Zdigits2 a + Z.min ex ey = Z.pos (digits2_pos mx) + ex).
    { subst a. destruct (Z.min ex ey - ex) eqn:E; cbn [fst Zdigits2] in *; lia. }
    assert (Db : Zdigits2 b + Z.min ex ey = Z.pos (digits2_pos my) + ey).
    { subst b. destruct (Z.min ex ey - ey) eqn:E; cbn [fst Zdigits2] in *; lia. }
    assert (Pa : 0 < a) by (subst a; lia).
    assert (Pb : 0 < b) by (subst b; lia).
    clear Ha Hb.
    set (z := cond_Zopp sx a + cond_Zopp sy b).
    assert (Hz : Z.abs z <= a + b)
      by (subst z; destruct sx, sy; cbn [cond_Zopp]; lia).
    pose proof (Zdigits2_add a b (K - Z.min ex ey) ltac:(lia) ltac:(lia)
                  ltac:(lia) ltac:(lia) z Hz) as Dz.
    rewrite Zdigits2_abs in Dz.
    replace (K + 2) with ((K + 1) + 1) by lia.
    apply binary_normalize_bounded; lia.
Qed.

Lemma SFdiv_bounded x sy my ey K :
  sf_bounded K x ->
  K - (Z.pos (digits2_pos my) + ey) <= 1024 ->
  -1074 <= K - ey <= 1023 ->
  sf_bounded (K - ey + 1) (SFdiv prec emax x (S754_finite sy my ey)).
Proof.
  intros Hx Hd HKr.
  destruct x as [sx|sx| |sx mx ex]; cbn [sf_bounded] in Hx; try contradiction.
  - exact I.
  - cbn [SFdiv]. unfold SFdiv_core_binary. cbn [Zdigits2].
    set (d1 := Z.pos (digits2_pos mx)) in *.
    set (d2 := Z.pos (digits2_pos my)) in *.
    rewrite fexp_binary64.
    set (e' := Z.min (Z.max (d1 + ex - (d2 + ey) - 53) (-1074)) (ex - ey)).
    set (m' := match ex - ey - e' with
               | 0 => Z.pos mx
               | Z.pos _ => Z.shiftl (Z.pos mx) (ex - ey - e')
               | Z.neg _ => 0
               end).
    assert (Hs : 0 <= ex - ey - e') by (subst e'; lia).
    assert (Hm' : 0 <= m' /\ Zdigits2 m' <= d1 + (ex - ey - e')).
    { subst m'. destruct (ex - ey - e') as [|s|s] eqn:Es.
      - cbn [Zdigits2]. lia.
      - rewrite Zdigits2_shiftl by lia. cbn [Zdigits2].
        split; [apply Z.shiftl_nonneg|]; lia.
      - lia. }
    destruct (Z.div_eucl m' (Z.pos my)) as [q r] eqn:Ed.
    assert (Hq : q = m' / Z.pos my) by (unfold Z.div; rewrite Ed; reflexivity).
    assert (Hq0 : 0 <= q) by (subst q; apply Z.div_pos; lia).
    assert (Hqm : q <= m').
    { subst q. apply Z.div_le_upper_bound; [lia|]. nia. }
    pose proof (Zdigits2_mono q m' ltac:(lia)) as Dq.
    apply binary_round_aux_bounded; subst e'; lia.
Qed.

Lemma binary_round_aux_opp mx ex lx :
  binary_round_aux prec emax true mx ex lx
  = SFopp (binary_round_aux prec emax false mx ex lx).
Proof.
  unfold binary_round_aux.
  destruct (shr_fexp prec emax mx ex lx) as [mrs1 e1].
  destruct (shr_fexp prec emax _ e1 loc_Exact) as [mrs2 e2].
  destruct (shr_m mrs2); try reflexivity.
  destruct (e2 <=? emax - prec); reflexivity.
Qed.

Lemma binary_normalize_pos_prim p :
  Z.pos p < 2 ^ 63 ->
  binary_normalize prec emax (Z.pos p) 0 false
  = Prim2SF (of_uint63 (Uint63.of_Z (Z.pos p))).
Proof.
  intros Hp. rewrite of_uint63_spec, Uint63.of_Z_spec.
  rewrite Z.mod_small; [reflexivity|].
  change Uint63.wB with (2 ^ 63). lia.
Qed.

Lemma float64_of_int_spec n :
  - 2 ^ 63 < n < 2 ^ 63 ->
  Prim2SF (float64_of_int n) = binary_normalize prec emax n 0 false.
Proof.
  intros Hn. unfold float64_of_int. destruct n as [|p|p].
  - reflexivity.
  - rewrite binary_normalize_pos_prim by lia. rewrite SF2Prim_Prim2SF. reflexivity.
  - cbn [binary_normalize]. unfold binary_round.
    destruct (shl_align p 0 _) as [mz ez] eqn:E.
    rewrite binary_round_aux_opp.
    assert (H : binary_round_aux prec emax false (Z.pos mz) ez loc_Exact
                = binary_normalize prec emax (Z.pos p) 0 false)
      by (cbn [binary_normalize]; unfold binary_round; rewrite E; reflexivity).
    rewrite H, binary_normalize_pos_prim by lia.
    rewrite <- FloatAxioms.opp_spec, SF2Prim_Prim2SF. reflexivity.
Qed.

Lemma float64_of_int_bounded n :
  - 2 ^ 63 < n < 2 ^ 63 -> sf_bounded 64 (Prim2SF (float64_of_int n)).
Proof.
  intros Hn. rewrite float64_of_int_spec by exact Hn.
  apply (binary_normalize_bounded n 0 63); [lia| |lia].
  rewrite <- Zdigits2_abs.
  pose proof (Zdigits2_le (Z.abs n) 63 ltac:(lia) ltac:(lia) ltac:(lia)). lia.
Qed.

(** *** The minutes of a duration are finite *)

Lemma Minutes_bounded d :
  - 2 ^ 63 <= d < 2 ^ 63 -> sf_bounded 84 (Prim2SF (Minutes d)).
Proof.
  intros Hd. unfold Minutes.
  rewrite add_spec, div_spec.
  change (Prim2SF 60000000000) with (S754_finite false 7864320000000000 (-17)).
  change Minute with 60000000000.
  pose proof (Z.quot_rem' d 60000000000) as Hqr.
  pose proof (Z.rem_bound_abs d 60000000000 ltac:(lia)) as Hrem.
  assert (Hr : - 2 ^ 63 < Z.rem d 60000000000 < 2 ^ 63) by lia.
  assert (Hq : - 2 ^ 63 < Z.quot d 60000000000 < 2 ^ 63) by lia.
  apply (SFadd_bounded _ _ 82); [| |lia].
  - apply (sf_bounded_weaken 64); [lia|]. apply float64_of_int_bounded. exact Hq.
  - apply (SFdiv_bounded _ false 7864320000000000 (-17) 64).
    + apply float64_of_int_bounded. exact Hr.
    + vm_compute. discriminate.
    + lia.
Qed.

(** *** Signs and zeros *)

Lemma positive_finite_shape (x : float64) :
  (0 <? x)%float = true -> (x <? infinity)%float = true ->
  exists m e, Prim2SF x = S754_finite false m e.
Proof.
  rewrite !ltb_spec.
  change (Prim2SF 0) with (S754_zero false).
  change (Prim2SF infinity) with (S754_infinity false).
  destruct (Prim2SF x) as [s|s| |s m e]; try discriminate.
  - destruct s; discriminate.
  - destruct s; [discriminate|]. intros _ _. exists m, e. reflexivity.
Qed.

Lemma positive_not_le_zero (x : float64) :
  (0 <? x)%float = true -> (x <=? 0)%float = false.
Proof.
  rewrite ltb_spec, leb_spec. change (Prim2SF 0) with (S754_zero false).
  destruct (Prim2SF x) as [s|s| |s m e]; try discriminate.
  - destruct s; [discriminate | reflexivity].
  - destruct s; [discriminate | reflexivity].
Qed.

(** A zero stays a zero through a product with, or a quotient by, a
    finite value. *)
Lemma mul_zero_bounded (z y : float64) s K :
  Prim2SF z = S754_zero s -> sf_bounded K (Prim2SF y) ->
  exists s', Prim2SF (z * y) = S754_zero s'.
Proof.
  intros Hz Hy. rewrite mul_spec, Hz. unfold SF64mul.
  destruct (Prim2SF y) as [sy|sy| |sy my ey]; cbn [sf_bounded] in Hy;
    try contradiction; eexists; reflexivity.
Qed.

(** *** Halving and doubling in the normal range *)

(** Rounding is exact on a 53-bit mantissa followed by 52 zero bits. *)
Lemma binary_round_aux_exact52 s m e :
  Z.pos (digits2_pos m) = 53 -> -1074 <= e + 52 <= 971 ->
  binary_round_aux prec emax s (Z.pos (4503599627370496 * m)) e loc_Exact
  = S754_finite s m (e + 52).
Proof.
  intros Hm He. unfold binary_round_aux, shr_fexp.
  assert (D : Zdigits2 (Z.pos (4503599627370496 * m)) = 105).
  { cbn [Pos.mul Zdigits2 digits2_pos]. 
    repeat rewrite Pos2Z.inj_succ. rewrite Hm. reflexivity. }
  rewrite D, fexp_binary64.
  replace (Z.max (105 + e - 53) (-1074) - e) with 52 by lia.
  cbn [shr shr_record_of_loc].
  assert (I : iter_pos shr_1 52 {| shr_m := Z.pos (4503599627370496 * m);
                                   shr_r := false; shr_s := false |}
              = {| shr_m := Z.pos m; shr_r := false; shr_s := false |})
    by reflexivity.
  rewrite I. cbn [shr_m loc_of_shr_record round_nearest_even Zdigits2].
  rewrite Hm, fexp_binary64.
  replace (Z.max (53 + (e + 52) - 53) (-1074) - (e + 52)) with 0 by lia.
  cbn [shr shr_m].
  replace (e + 52 <=? emax - prec) with true
    by (symmetry; apply Z.leb_le; change (emax - prec) with 971; lia).
  reflexivity.
Qed.

(** A value of at least [2^-1021] is an infinity or a normal number
    that stays normal when halved. *)
Lemma halvable_shape (r : float64) :
  (0x1p-1021 <=? r)%float = true ->
  Prim2SF r = S754_infinity false \/
  exists m e, Prim2SF r = S754_finite false m e /\
              Z.pos (digits2_pos m) = 53 /\ -1073 <= e <= 971.
Proof.
  intros H. rewrite leb_spec in H. pose proof (Prim2SF_valid r) as V.
  change (Prim2SF 0x1p-1021) with (S754_finite false 4503599627370496 (-1073)) in H.
  destruct (Prim2SF r) as [s|s| |s m e]; try discriminate.
  - destruct s; [discriminate | left; reflexivity].
  - right. destruct s; [discriminate|]. exists m, e. split; [reflexivity|].
    cbn [valid_binary] in V. unfold bounded, canonical_mantissa in V.
    apply andb_true_iff in V. destruct V as [Vc Ve].
    apply Z.eqb_eq in Vc. apply Z.leb_le in Ve.
    rewrite fexp_binary64 in Vc. change (emax - prec) with 971 in Ve.
    unfold SFleb, SFcompare in H.
    destruct (Z.compare_spec (-1073) e) as [E|E|E]; [lia | lia | discriminate].
Qed.

Lemma double_half (r : float64) :
  (r =? 0)%float = true \/ (0x1p-1021 <=? r)%float = true ->
  (2 * (r * 0.5))%float = r.
Proof.
  intros H. apply Prim2SF_inj. rewrite !mul_spec.
  change (Prim2SF 2) with (S754_finite false 4503599627370496 (-51)).
  change (Prim2SF 0.5) with (S754_finite false 4503599627370496 (-53)).
  destruct H as [H|H].
  - rewrite FloatAxioms.eqb_spec in H. change (Prim2SF 0) with (S754_zero false) in H.
    destruct (Prim2SF r) as [s|s| |s m e]; try discriminate;
      destruct s; try discriminate; reflexivity.
  - destruct (halvable_shape r H) as [Hi | (m & e & Hs & Hm & He)].
    + rewrite Hi. reflexivity.
    + rewrite Hs. unfold SF64mul. cbn [SFmul xorb].
      rewrite (Pos.mul_comm m), binary_round_aux_exact52 by lia.
      cbn [SFmul xorb]. rewrite binary_round_aux_exact52 by lia.
      f_equal. lia.
Qed.

(** ** The calculator *)

(** C7. meanSpeed returns exactly 0 when the duration is not positive,
    whatever the steps and height, and otherwise the distance divided by the
    duration in hours. *)
Theorem meanSpeed_guard_and_quotient :
  forall (steps : int) (height : float64) (duration : Duration),
    (duration <= 0 -> meanSpeed steps height duration = 0%float) /\
    (0 < duration ->
       meanSpeed steps height duration
       = (distance steps height / Hours duration)%float).
Proof.
  intros steps height duration. unfold meanSpeed.
  destruct (duration <=? 0) eqn:E;
    [apply Z.leb_le in E | apply Z.leb_gt in E]; split; intros; try lia; reflexivity.
Qed.

Lemma meanSpeed_guard_and_quotient_witness :
  meanSpeed 1000 1.75%float (-5) = 0%float /\
  meanSpeed 1000 1.75%float (10 * Minute)
  = (distance 1000 1.75 / Hours (10 * Minute))%float.
Proof.
  destruct (meanSpeed_guard_and_quotient 1000 1.75%float (-5)) as [H0 _].
  destruct (meanSpeed_guard_and_quotient 1000 1.75%float (10 * Minute)) as [_ H1].
  split; [apply H0 | apply H1]; vm_compute; [discriminate | reflexivity].
Defined.

(** C9. For 1000 steps, 70 kg, 1.75 m and ten minutes the walking
    calories are computed without error; the distance is the binary64
    nearest to 0.7875, the mean speed and the calories are one unit in the last
    place above 4.725 and 27.5625. *)
Theorem walking_calories_example :
  distance 1000 1.75 = 0.7875%float /\
  meanSpeed 1000 1.75 (10 * Minute) = 4.7250000000000005%float /\
  WalkingSpentCalories 1000 70 1.75 (10 * Minute) = (27.562500000000004%float, None) /\
  next_up 4.725 = 4.7250000000000005%float /\
  next_up 27.5625 = 27.562500000000004%float /\
  (abs (27.562500000000004 - 70 * 4.725 * 10 / 60 * 0.5) <? 1e-14)%float = true /\
  fmt.verb_2f 27.562500000000004 = "27.56".
Proof. vm_compute. repeat split. Qed.

(** C8 (amended). For steps > 0, weight > 0, height > 0 and
    duration > 0 both calorie functions succeed and the walking calories are
    exactly the running calories times the coefficient 0.5; the running
    calories are exactly twice the walking calories whenever they are zero
    or at least 2^-1021, where halving them does not round. *)
Theorem running_calories_twice_walking :
  forall (steps : int) (weight height : float64) (duration : Duration),
    0 < steps ->
    (0 <? weight)%float = true -> (0 <? height)%float = true ->
    0 < duration ->
    let run := RunningSpentCalories steps weight height duration in
    let walk := WalkingSpentCalories steps weight height duration in
    snd run = None /\ snd walk = None /\
    fst walk = (fst run * 0.5)%float /\
    ((fst run =? 0)%float = true \/ (0x1p-1021 <=? fst run)%float = true ->
     fst run = (2 * fst walk)%float).
Proof.
  intros steps weight height duration Hs Hw Hh Hd run walk.
  subst run walk. unfold RunningSpentCalories, WalkingSpentCalories.
  replace (steps <=? 0) with false by (symmetry; apply Z.leb_gt; lia).
  replace (duration <=? 0) with false by (symmetry; apply Z.leb_gt; lia).
  rewrite (positive_not_le_zero weight Hw), (positive_not_le_zero height Hh).
  cbn [fst snd]. repeat split.
  intros Hr. symmetry. apply double_half. exact Hr.
Qed.

Lemma running_calories_twice_walking_witness :
  fst (WalkingSpentCalories 1000 70 1.75 (10 * Minute))
  = (fst (RunningSpentCalories 1000 70 1.75 (10 * Minute)) * 0.5)%float /\
  fst (RunningSpentCalories 1000 70 1.75 (10 * Minute))
  = (2 * fst (WalkingSpentCalories 1000 70 1.75 (10 * Minute)))%float.
Proof.
  destruct (running_calories_twice_walking 1000 70 1.75 (10 * Minute))
    as (_ & _ & Hhalf & Htwice); try (vm_compute; reflexivity).
  split; [exact Hhalf | apply Htwice; right; vm_compute; reflexivity].
Defined.

(** C8 as stated fails where halving rounds: with a weight of 1e-320
    the running calories are the smallest positive binary64 and the walking
    calories are zero. *)
Lemma running_calories_not_twice_walking :
  (0 <? 1e-320)%float = true /\
  RunningSpentCalories 1 1e-320 1 Hour = (0x1p-1074%float, None) /\
  WalkingSpentCalories 1 1e-320 1 Hour = (0%float, None) /\
  (fst (RunningSpentCalories 1 1e-320 1 Hour)
   =? 2 * fst (WalkingSpentCalories 1 1e-320 1 Hour))%float = false /\
  fst (RunningSpentCalories 1 1e-320 1 Hour)
  <> (2 * fst (WalkingSpentCalories 1 1e-320 1 Hour))%float.
Proof.
  split; [vm_compute; reflexivity|].
  split; [vm_compute; reflexivity|].
  split; [vm_compute; reflexivity|].
  split; [vm_compute; reflexivity|].
  intros H. apply (f_equal Prim2SF) in H. vm_compute in H. discriminate H.
Qed.

(** C10 (amended). For steps > 0, a finite weight > 0, a height > 0
    and a duration <= 0, WalkingSpentCalories returns no error and calories
    equal to zero: the duration is not validated, meanSpeed answers 0 and
    the product with it is a zero. *)
Theorem WalkingSpentCalories_nonpositive_duration :
  forall (steps : int) (weight height : float64) (duration : Duration),
    0 < steps ->
    (0 <? weight)%float = true -> (weight <? infinity)%float = true ->
    (0 <? height)%float = true ->
    - 2 ^ 63 <= duration <= 0 ->
    meanSpeed steps height duration = 0%float /\
    exists calories,
      WalkingSpentCalories steps weight height duration = (calories, None) /\
      (calories =? 0)%float = true.
Proof.
  intros steps weight height duration Hs Hw Hwfin Hh Hd.
  assert (Hms : meanSpeed steps height duration = 0%float).
  { unfold meanSpeed. replace (duration <=? 0) with true; [reflexivity|].
    symmetry. apply Z.leb_le. lia. }
  split; [exact Hms|].
  unfold WalkingSpentCalories.
  replace (steps <=? 0) with false by (symmetry; apply Z.leb_gt; lia).
  rewrite (positive_not_le_zero weight Hw), (positive_not_le_zero height Hh), Hms.
  eexists. split; [reflexivity|].
  destruct (positive_finite_shape weight Hw Hwfin) as (m & e & Hshape).
  assert (H1 : Prim2SF (weight * 0) = S754_zero false).
  { rewrite mul_spec, Hshape. reflexivity. }
  destruct (mul_zero_bounded (weight * 0) (Minutes duration) false 84 H1
              (Minutes_bounded duration ltac:(lia))) as [s2 H2].
  assert (H3 : Prim2SF (weight * 0 * Minutes duration / minInH) = S754_zero s2).
  { rewrite div_spec, H2. destruct s2; reflexivity. }
  rewrite FloatAxioms.eqb_spec, mul_spec, H3.
  destruct s2; reflexivity.
Qed.

Lemma WalkingSpentCalories_nonpositive_duration_witness :
  meanSpeed 1000 1.75 (- (10 * Minute)) = 0%float /\
  exists calories,
    WalkingSpentCalories 1000 70 1.75 (- (10 * Minute)) = (calories, None) /\
    (calories =? 0)%float = true.
Proof.
  apply WalkingSpentCalories_nonpositive_duration;
    vm_compute; first [reflexivity | split; discriminate].
Defined.

(** C10 as stated fails for an infinite weight: the product of the
    weight with the zero mean speed is not a number. *)
Lemma WalkingSpentCalories_infinite_weight :
  (0 <? infinity)%float = true /\
  WalkingSpentCalories 1 infinity 1 0 = (nan, None) /\
  (nan =? 0)%float = false.
Proof. vm_compute. repeat split. Qed.

(** ** The multi-activity entry point *)

(** C5. On a record that parses, TrainingInfo dispatches on the activity
    label: the running token selects RunningSpentCalories, the walking token
    selects WalkingSpentCalories (a failure of either is returned wrapped, a
    success goes into the report), and any other label fails with the
    unknown-activity error. *)
Theorem TrainingInfo_dispatch :
  forall (data : string) (weight height : float64)
         (steps : int) (activity : string) (d : Duration),
    parseTraining data = (steps, activity, d, None) ->
    (activity = running ->
       TrainingInfo data weight height =
         match RunningSpentCalories steps weight height d with
         | (_, Some err) => ("", Some (fmt.Errorf "RunningSpentCalories: %w" err))
         | (calories, None) =>
             (trainingText activity (Hours d) (distance steps height)
                (meanSpeed steps height d) calories, None)
         end) /\
    (activity = walking ->
       TrainingInfo data weight height =
         match WalkingSpentCalories steps weight height d with
         | (_, Some err) => ("", Some (fmt.Errorf "WalkingSpentCalories: %w" err))
         | (calories, None) =>
             (trainingText activity (Hours d) (distance steps height)
                (meanSpeed steps height d) calories, None)
         end) /\
    (activity <> running -> activity <> walking ->
       TrainingInfo data weight height
       = ("", Some (errors.New "неизвестный тип тренировки"))).
Proof.
  intros data weight height steps activity d Hparse.
  unfold TrainingInfo. rewrite Hparse.
  repeat split.
  - intros ->. reflexivity.
  - intros ->. reflexivity.
  - intros Hr Hw.
    apply String.eqb_neq in Hr. apply String.eqb_neq in Hw.
    rewrite Hr, Hw. reflexivity.
Qed.

Lemma TrainingInfo_dispatch_witness :
  TrainingInfo "3456,Бег,3h00m" 75 1.8
  = (trainingText running (Hours (3 * Hour)) (distance 3456 1.8)
       (meanSpeed 3456 1.8 (3 * Hour))
       (fst (RunningSpentCalories 3456 75 1.8 (3 * Hour))), None) /\
  TrainingInfo "3456,Плавание,3h00m" 75 1.8
  = ("", Some (errors.New "неизвестный тип тренировки")).
Proof.
  split.
  - destruct (TrainingInfo_dispatch "3456,Бег,3h00m" 75 1.8 3456 running (3 * Hour))
      as (H & _ & _); [vm_compute; reflexivity|].
    rewrite (H eq_refl). vm_compute. reflexivity.
  - destruct (TrainingInfo_dispatch "3456,Плавание,3h00m" 75 1.8 3456
                "Плавание" (3 * Hour)) as (_ & _ & H); [vm_compute; reflexivity|].
    apply H; vm_compute; discriminate.
Defined.

(** C3 (amended). When TrainingInfo fails it returns the empty string and
    a non-nil error. A failure of parseTraining, RunningSpentCalories or
    WalkingSpentCalories is returned wrapped under that function's name with
    the original error as its cause; an unknown activity label is reported
    by a fresh error that wraps nothing. *)
Theorem TrainingInfo_failure_wrapped_or_unknown :
  forall (data : string) (weight height : float64) (report : string) (err : error),
    TrainingInfo data weight height = (report, Some err) ->
    report = "" /\
    ((exists cause,
        snd (parseTraining data) = Some cause /\
        err = wrapError "parseTraining: %w" cause /\ Unwrap err = Some cause)
     \/ exists steps activity d,
          parseTraining data = (steps, activity, d, None) /\
          ((activity = running /\ exists cause,
              snd (RunningSpentCalories steps weight height d) = Some cause /\
              err = wrapError "RunningSpentCalories: %w" cause /\
              Unwrap err = Some cause)
           \/ (activity = walking /\ exists cause,
                 snd (WalkingSpentCalories steps weight height d) = Some cause /\
                 err = wrapError "WalkingSpentCalories: %w" cause /\
                 Unwrap err = Some cause)
           \/ (activity <> running /\ activity <> walking /\
               err = errors.New "неизвестный тип тренировки" /\
               Unwrap err = None))).
Proof.
  intros data weight height report err. unfold TrainingInfo.
  destruct (parseTraining data) as [[[steps activity] d] [cause|]] eqn:Hparse.
  - intros H. injection H as <- <-. split; [reflexivity|].
    left. exists cause. repeat split.
  - destruct (String.eqb_spec activity running) as [->|Hr].
    + destruct (RunningSpentCalories steps weight height d) as [c [cause|]] eqn:Hc;
        intros H; [|discriminate].
      injection H as <- <-. split; [reflexivity|].
      right. exists steps, running, d. split; [reflexivity|].
      left. split; [reflexivity|]. exists cause. rewrite Hc. repeat split.
    + destruct (String.eqb_spec activity walking) as [->|Hw].
      * destruct (WalkingSpentCalories steps weight height d) as [c [cause|]] eqn:Hc;
          intros H; [|discriminate].
        injection H as <- <-. split; [reflexivity|].
        right. exists steps, walking, d. split; [reflexivity|].
        right; left. split; [reflexivity|]. exists cause. rewrite Hc. repeat split.
      * intros H. injection H as <- <-. split; [reflexivity|].
        right. exists steps, activity, d. split; [reflexivity|].
        right; right. repeat split; assumption.
Qed.

Lemma TrainingInfo_failure_wrapped_or_unknown_witness :
  TrainingInfo "3456,Бег,3h00m" 0 1.8
  = ("", Some (wrapError "RunningSpentCalories: %w" (errors.New "weight is not positive")))
  /\ Unwrap (wrapError "RunningSpentCalories: %w" (errors.New "weight is not positive"))
     = Some (errors.New "weight is not positive").
Proof.
  assert (H : TrainingInfo "3456,Бег,3h00m" 0 1.8
              = ("", Some (wrapError "RunningSpentCalories: %w"
                             (errors.New "weight is not positive"))))
    by (vm_compute; reflexivity).
  split; [exact H|].
  destruct (TrainingInfo_failure_wrapped_or_unknown _ _ _ _ _ H)
    as [_ [(cause & Hc & _) | (steps & activity & d & Hp & Hcases)]].
  - vm_compute in Hc. discriminate Hc.
  - vm_compute in Hp. inversion Hp; subst steps activity d.
    destruct Hcases as [(_ & cause & Hc & _ & Hu)
                       |[(Ha & _) | (Hr & _)]].
    + vm_compute in Hc. inversion Hc; subst cause. exact Hu.
    + vm_compute in Ha. discriminate Ha.
    + exfalso. apply Hr. vm_compute. reflexivity.
Defined.

(** C3 as stated fails on an unknown activity label: the error returned
    names no stage and has no cause. *)
Lemma TrainingInfo_unknown_activity_not_wrapped :
  TrainingInfo "3456,Плавание,3h00m" 75 1.8
  = ("", Some (errorString "неизвестный тип тренировки")) /\
  Unwrap (errorString "неизвестный тип тренировки") = None /\
  ~ (exists stage cause,
       snd (TrainingInfo "3456,Плавание,3h00m" 75 1.8)
       = Some (wrapError stage cause)).
Proof.
  split; [vm_compute; reflexivity|]. split; [reflexivity|].
  intros (stage & cause & H). vm_compute in H. discriminate.
Qed.

(** RunningSpentCalories succeeds whatever the height is;
    WalkingSpentCalories rejects a height that is not positive. *)
Lemma RunningSpentCalories_ignores_height steps weight height d :
  snd (RunningSpentCalories steps weight height d) = None <->
  0 < steps /\ (weight <=? 0)%float = false /\ 0 < d.
Proof.
  unfold RunningSpentCalories.
  destruct (steps <=? 0) eqn:Es; [apply Z.leb_le in Es | apply Z.leb_gt in Es];
    cbn [snd]; [split; [discriminate | lia]|].
  destruct (weight <=? 0)%float; cbn [snd];
    [split; [discriminate | intros (_ & H & _); discriminate H]|].
  destruct (d <=? 0) eqn:Ed; [apply Z.leb_le in Ed | apply Z.leb_gt in Ed];
    cbn [snd]; [split; [discriminate | lia]|].
  split; [intros _; repeat split; assumption | reflexivity].
Qed.

Lemma WalkingSpentCalories_rejects_height steps weight height d :
  0 < steps -> (weight <=? 0)%float = false -> (height <=? 0)%float = true ->
  WalkingSpentCalories steps weight height d
  = (0%float, Some (errors.New "height is not positive")).
Proof.
  intros Hs Hw Hh. unfold WalkingSpentCalories.
  replace (steps <=? 0) with false by (symmetry; apply Z.leb_gt; lia).
  rewrite Hw, Hh. reflexivity.
Qed.

(** C2 fails for running with a negative height: RunningSpentCalories
    does not validate the height, TrainingInfo succeeds, and the distance,
    the mean speed and the calories are all negative. *)
Theorem TrainingInfo_running_negative_height :
  TrainingInfo "3456,Бег,3h00m" 75 (-1.8) =
  ("Тип тренировки: Бег
Длительность: 3.00 ч.
Дистанция: -2.80 км.
Скорость: -0.93 км/ч
Сожгли калорий: -209.95
", None) /\
  parseTraining "3456,Бег,3h00m" = (3456, running, 3 * Hour, None) /\
  snd (RunningSpentCalories 3456 75 (-1.8) (3 * Hour)) = None /\
  (distance 3456 (-1.8) <? 0)%float = true /\
  (meanSpeed 3456 (-1.8) (3 * Hour) <? 0)%float = true /\
  (fst (RunningSpentCalories 3456 75 (-1.8) (3 * Hour)) <? 0)%float = true /\
  snd (WalkingSpentCalories 3456 75 (-1.8) (3 * Hour))
  = Some (errors.New "height is not positive").
Proof. vm_compute. repeat split. Qed.

(** ** The walking-only entry point *)

Lemma parsePackage_ok data steps d :
  parsePackage data = (steps, d, None) -> 0 < steps /\ 0 < d.
Proof.
  unfold parsePackage.
  destruct (strings.Split data ",") as [|p0 [|p1 [|p2 rest]]]; try discriminate.
  destruct (strconv.Atoi p0) as [n [e|]]; [discriminate|].
  destruct (n <=? 0) eqn:En; [discriminate|].
  destruct (ParseDuration p1) as [d' [e|]]; [discriminate|].
  destruct (d' <=? 0) eqn:Ed; [discriminate|].
  intros H. injection H as <- <-. apply Z.leb_gt in En, Ed. lia.
Qed.

Lemma parseTraining_ok data steps activity d :
  parseTraining data = (steps, activity, d, None) -> 0 < steps /\ 0 < d.
Proof.
  unfold parseTraining.
  destruct (strings.Split data ",") as [|p0 [|p1 [|p2 [|p3 rest]]]]; try discriminate.
  destruct (strconv.Atoi p0) as [n [e|]]; [discriminate|].
  destruct (n <=? 0) eqn:En; [discriminate|].
  destruct (ParseDuration p2) as [d' [e|]]; [discriminate|].
  destruct (d' <=? 0) eqn:Ed; [discriminate|].
  intros H. injection H as <- _ <-. apply Z.leb_gt in En, Ed. lia.
Qed.

(** C6. When parsePackage or WalkingSpentCalories fails, DayActionInfo
    returns the empty string; the error goes to the log, in one line, and
    nowhere else: the function has no error result and is total. *)
Theorem DayActionInfo_swallows_errors :
  forall (data : string) (weight height : float64),
    (forall err,
       snd (parsePackage data) = Some err ->
       DayActionInfo data weight height
       = ("", [log.Printf "parsePackage: %v" err])) /\
    (forall steps d err,
       parsePackage data = (steps, d, None) ->
       snd (WalkingSpentCalories steps weight height d) = Some err ->
       DayActionInfo data weight height
       = ("", [log.Printf "WalkingSpentCalories: %v" err])).
Proof.
  intros data weight height. unfold DayActionInfo. split.
  - intros err H.
    destruct (parsePackage data) as [[steps d] e]. simpl in H. subst e. reflexivity.
  - intros steps d err Hparse Hcal. rewrite Hparse.
    destruct (parsePackage_ok _ _ _ Hparse) as [Hs _].
    apply Z.leb_gt in Hs. rewrite Hs.
    destruct (WalkingSpentCalories steps weight height d) as [c e].
    simpl in Hcal. subst e. reflexivity.
Qed.

Lemma DayActionInfo_swallows_errors_witness :
  DayActionInfo "678" 75 1.75
  = ("", [log.Printf "parsePackage: %v" (errors.New "bad data format")]) /\
  DayActionInfo "678,0h50m" 75 0
  = ("", [log.Printf "WalkingSpentCalories: %v" (errors.New "height is not positive")]).
Proof.
  split.
  - apply (DayActionInfo_swallows_errors "678" 75 1.75). vm_compute. reflexivity.
  - apply (proj2 (DayActionInfo_swallows_errors "678,0h50m" 75 0) 678 (50 * Minute));
      vm_compute; reflexivity.
Defined.

(** C1 (amended). When DayActionInfo succeeds, the distance in its
    report is the parsed step count times the fixed step length of 0.65 m,
    divided by 1000; it does not depend on the height, which only enters
    the calories. *)
Theorem DayActionInfo_reports_fixed_step_distance :
  forall (data : string) (weight height : float64) (report : string),
    fst (DayActionInfo data weight height) = report ->
    report <> "" ->
    exists steps d calories,
      parsePackage data = (steps, d, None) /\
      WalkingSpentCalories steps weight height d = (calories, None) /\
      report = dayText steps (float64_of_int steps * 0.65 / 1000)%float calories.
Proof.
  intros data weight height report <- Hne. unfold DayActionInfo in *.
  destruct (parsePackage data) as [[steps d] [e|]]; [exfalso; apply Hne; reflexivity|].
  destruct (steps <=? 0); [exfalso; apply Hne; reflexivity|].
  destruct (WalkingSpentCalories steps weight height d) as [c [e|]] eqn:Hc;
    [exfalso; apply Hne; reflexivity|].
  exists steps, d, c. split; [reflexivity|]. split; [exact Hc | reflexivity].
Qed.

Lemma DayActionInfo_reports_fixed_step_distance_witness :
  exists steps d calories,
    parsePackage "678,0h50m" = (steps, d, None) /\
    WalkingSpentCalories steps 75 1.75 d = (calories, None) /\
    "Количество шагов: 678.
Дистанция составила 0.44 км.
Вы сожгли 20.02 ккал.
" = dayText steps (float64_of_int steps * 0.65 / 1000)%float calories.
Proof.
  apply (DayActionInfo_reports_fixed_step_distance "678,0h50m" 75 1.75).
  - vm_compute. reflexivity.
  - discriminate.
Defined.

(** C1 as stated fails: for 678 steps and a height of 1.75 m the report
    gives 0.44 km, the formula of the calculator 0.53 km. *)
Lemma DayActionInfo_distance_is_not_height_based :
  parsePackage "678,0h50m" = (678, 50 * Minute, None) /\
  fst (DayActionInfo "678,0h50m" 75 1.75) =
  "Количество шагов: 678.
Дистанция составила 0.44 км.
Вы сожгли 20.02 ккал.
" /\
  fmt.verb_2f (distance 678 1.75) = "0.53" /\
  ~ (exists calories,
       fst (DayActionInfo "678,0h50m" 75 1.75)
       = dayText 678 (distance 678 1.75) calories).
Proof.
  split; [vm_compute; reflexivity|].
  split; [vm_compute; reflexivity|].
  split; [vm_compute; reflexivity|].
  intros [calories H]. unfold dayText in H.
  replace (fmt.verb_2f (distance 678 1.75)) with "0.53" in H
    by (vm_compute; reflexivity).
  replace (fst (DayActionInfo "678,0h50m" 75 1.75)) with
    "Количество шагов: 678.
Дистанция составила 0.44 км.
Вы сожгли 20.02 ккал.
" in H by (vm_compute; reflexivity).
  replace (fmt.verb_d 678) with "678" in H by (vm_compute; reflexivity).
  cbn [append] in H. discriminate H.
Qed.

(** * Further properties of the parsers and the entry points *)

(** ** What the parsers accept and return *)

Lemma Atoi_error_shape s n err :
  strconv.Atoi s = (n, Some err) ->
  err = strconv.syntaxError "Atoi" s \/ err = strconv.rangeError "Atoi" s.
Proof.
  unfold strconv.Atoi, strconv.ParseInt. intros H.
  repeat (split_if_in H || match type of H with
          | context [match ?x with _ => _ end] => destruct x eqn:?
          end);
    inversion H; subst; auto.
Qed.

Lemma digitVal_range c : isDigit c = true -> 0 <= digitVal c <= 9.
Proof.
  unfold isDigit, digitVal. intros H. apply andb_true_iff in H.
  destruct H as [H1 H2]. apply N.leb_le in H1, H2. lia.
Qed.

Lemma decimalValue_bounds s : forall acc,
  allDigits s = true -> 0 <= acc ->
  acc * 10 ^ Z.of_nat (String.length s) <= decimalValue s acc
  < (acc + 1) * 10 ^ Z.of_nat (String.length s).
Proof.
  induction s as [|c rest IH]; intros acc Hd Hacc.
  - cbn [String.length decimalValue]. change (10 ^ Z.of_nat 0) with 1. lia.
  - cbn [allDigits] in Hd. apply andb_true_iff in Hd. destruct Hd as [Hc Hrest].
    pose proof (digitVal_range c Hc) as Hv.
    cbn [String.length decimalValue].
    specialize (IH (acc * 10 + digitVal c) Hrest ltac:(lia)).
    rewrite Nat2Z.inj_succ, Z.pow_succ_r by lia.
    assert (0 < 10 ^ Z.of_nat (String.length rest)) by (apply Z.pow_pos_nonneg; lia).
    nia.
Qed.

Lemma decimalValue_ge s acc :
  allDigits s = true -> 0 <= acc -> acc <= decimalValue s acc.
Proof.
  intros Hd Hacc. pose proof (decimalValue_bounds s acc Hd Hacc) as [H _].
  assert (1 <= 10 ^ Z.of_nat (String.length s))
    by (pose proof (Z.pow_pos_nonneg 10 (Z.of_nat (String.length s))); lia).
  nia.
Qed.

Lemma atoiLoop_value s : forall acc n,
  strconv.atoiLoop s acc = Some n -> allDigits s = true /\ n = decimalValue s acc.
Proof.
  induction s as [|c rest IH]; intros acc n H; cbn [strconv.atoiLoop] in H.
  - inversion H. split; reflexivity.
  - cbn [allDigits decimalValue]. destruct (isDigit c); [|discriminate].
    apply IH in H. exact H.
Qed.

Lemma atoiLoop_digits s : forall acc,
  allDigits s = true -> strconv.atoiLoop s acc = Some (decimalValue s acc).
Proof.
  induction s as [|c rest IH]; intros acc H; cbn [strconv.atoiLoop decimalValue].
  - reflexivity.
  - cbn [allDigits] in H. apply andb_true_iff in H. destruct H as [-> Hr].
    apply IH. exact Hr.
Qed.

Lemma parseUintLoop_value s : forall acc n,
  strconv.parseUintLoop s acc = inr n -> allDigits s = true /\ n = decimalValue s acc.
Proof.
  induction s as [|c rest IH]; intros acc n H; cbn [strconv.parseUintLoop] in H.
  - inversion H. split; reflexivity.
  - cbn [allDigits decimalValue]. destruct (isDigit c); cbn [negb] in H; [|discriminate].
    split_if_in H; [discriminate|]. split_if_in H; [discriminate|].
    apply IH in H. exact H.
Qed.

Lemma parseUintLoop_digits s : forall acc,
  allDigits s = true -> 0 <= acc -> decimalValue s acc <= strconv.maxUint64 ->
  strconv.parseUintLoop s acc = inr (decimalValue s acc).
Proof.
  induction s as [|c rest IH]; intros acc H Hacc Hmax;
    cbn [strconv.parseUintLoop decimalValue] in Hmax |- *.
  - reflexivity.
  - cbn [allDigits] in H. apply andb_true_iff in H. destruct H as [Hc Hr].
    rewrite Hc. cbn [negb].
    pose proof (digitVal_range c Hc) as Hv.
    pose proof (decimalValue_ge rest (acc * 10 + digitVal c) Hr ltac:(lia)) as Hge.
    change strconv.maxUint64 with 18446744073709551615 in *.
    change (18446744073709551615 / 10 + 1) with 1844674407370955162.
    replace (_ <=? acc) with false by (symmetry; apply Z.leb_gt; lia).
    replace (_ <? acc * 10 + digitVal c) with false by (symmetry; apply Z.ltb_ge; lia).
    apply IH; [exact Hr | lia | exact Hmax].
Qed.

(** A field accepted by [Atoi] is an optional sign and at least one
    digit, and the value fits a 64-bit [int]. *)
Lemma Atoi_ok s n :
  strconv.Atoi s = (n, None) ->
  - 2 ^ 63 <= n < 2 ^ 63 /\
  exists body,
    nonEmpty body = true /\ allDigits body = true /\
    ((s = body /\ n = decimalValue body 0)
     \/ (s = String "+" body /\ n = decimalValue body 0)
     \/ (s = String "-" body /\ n = - decimalValue body 0)).
Proof.
  unfold strconv.Atoi. destruct s as [|c rest]; [discriminate|].
  destruct (Nat.ltb 0 (String.length (String c rest))
            && Nat.ltb (String.length (String c rest)) 19)%bool eqn:Efast.
  - (* fast path *)
    apply andb_true_iff in Efast. destruct Efast as [_ Elen].
    apply Nat.ltb_lt in Elen. cbn [String.length] in Elen.
    destruct (Ascii.eqb c "-") eqn:Em; [apply Ascii.eqb_eq in Em; subst c|];
      [|destruct (Ascii.eqb c "+") eqn:Ep; [apply Ascii.eqb_eq in Ep; subst c|]];
      cbn [Ascii.eqb Bool.eqb orb andb].
    + destruct (nonEmpty rest) eqn:Ene; cbn [negb]; [|discriminate].
      destruct (strconv.atoiLoop rest 0) as [v|] eqn:Ev; [|discriminate].
      intros H. apply (f_equal fst) in H. cbn [fst] in H. subst n.
      apply atoiLoop_value in Ev. destruct Ev as [Hd ->].
      pose proof (decimalValue_bounds rest 0 Hd ltac:(lia)) as Hb.
      assert (10 ^ Z.of_nat (String.length rest) <= 10 ^ 18)
        by (apply Z.pow_le_mono_r; lia).
      split; [lia|]. exists (rest). split; [first [assumption | reflexivity]|]. split; [assumption|].
      first [left; split; reflexivity | right; left; split; reflexivity
            | right; right; split; reflexivity].
    + destruct (nonEmpty rest) eqn:Ene; cbn [negb]; [|discriminate].
      destruct (strconv.atoiLoop rest 0) as [v|] eqn:Ev; [|discriminate].
      intros H. apply (f_equal fst) in H. cbn [fst] in H. subst n.
      apply atoiLoop_value in Ev. destruct Ev as [Hd ->].
      pose proof (decimalValue_bounds rest 0 Hd ltac:(lia)) as Hb.
      assert (10 ^ Z.of_nat (String.length rest) <= 10 ^ 18)
        by (apply Z.pow_le_mono_r; lia).
      split; [lia|]. exists (rest). split; [first [assumption | reflexivity]|]. split; [assumption|].
      first [left; split; reflexivity | right; left; split; reflexivity
            | right; right; split; reflexivity].
    + destruct (strconv.atoiLoop (String c rest) 0) as [v|] eqn:Ev; [|discriminate].
      intros H. apply (f_equal fst) in H. cbn [fst] in H. subst n.
      apply atoiLoop_value in Ev. destruct Ev as [Hd ->].
      pose proof (decimalValue_bounds (String c rest) 0 Hd ltac:(lia)) as Hb.
      assert (10 ^ Z.of_nat (String.length (String c rest)) <= 10 ^ 18)
        by (apply Z.pow_le_mono_r; cbn [String.length]; lia).
      split; [lia|]. exists (String c rest). split; [first [assumption | reflexivity]|]. split; [assumption|].
      first [left; split; reflexivity | right; left; split; reflexivity
            | right; right; split; reflexivity].
  - (* slow path *)
    unfold strconv.ParseInt. cbv zeta.
    destruct (Ascii.eqb c "-") eqn:Em; [apply Ascii.eqb_eq in Em; subst c|];
      [|destruct (Ascii.eqb c "+") eqn:Ep; [apply Ascii.eqb_eq in Ep; subst c|]];
      cbn [Ascii.eqb Bool.eqb orb andb negb].
    + destruct rest as [|c1 r1]; [discriminate|].
      destruct (strconv.parseUintLoop (String c1 r1) 0) as [[|]|un] eqn:Eu;
        try discriminate.
      apply parseUintLoop_value in Eu. destruct Eu as [Hd ->].
      pose proof (decimalValue_ge _ 0 Hd ltac:(lia)) as Hge.
      match goal with |- context [if ?b then _ else _] => destruct b eqn:Hcut end;
        [discriminate|]. intros H. apply (f_equal fst) in H. cbn [fst] in H. subst n.
      apply Z.ltb_ge in Hcut.
      split; [lia|]. exists (String c1 r1). split; [first [assumption | reflexivity]|]. split; [assumption|].
      first [left; split; reflexivity | right; left; split; reflexivity
            | right; right; split; reflexivity].
    + destruct rest as [|c1 r1]; [discriminate|].
      destruct (strconv.parseUintLoop (String c1 r1) 0) as [[|]|un] eqn:Eu;
        try discriminate.
      apply parseUintLoop_value in Eu. destruct Eu as [Hd ->].
      pose proof (decimalValue_ge _ 0 Hd ltac:(lia)) as Hge.
      match goal with |- context [if ?b then _ else _] => destruct b eqn:Hcut end;
        [discriminate|]. intros H. apply (f_equal fst) in H. cbn [fst] in H. subst n.
      apply Z.leb_gt in Hcut.
      split; [lia|]. exists (String c1 r1). split; [first [assumption | reflexivity]|]. split; [assumption|].
      first [left; split; reflexivity | right; left; split; reflexivity
            | right; right; split; reflexivity].
    + destruct (strconv.parseUintLoop (String c rest) 0) as [[|]|un] eqn:Eu;
        try discriminate.
      apply parseUintLoop_value in Eu. destruct Eu as [Hd ->].
      pose proof (decimalValue_ge _ 0 Hd ltac:(lia)) as Hge.
      match goal with |- context [if ?b then _ else _] => destruct b eqn:Hcut end;
        [discriminate|]. intros H. apply (f_equal fst) in H. cbn [fst] in H. subst n.
      apply Z.leb_gt in Hcut.
      split; [lia|]. exists (String c rest). split; [first [assumption | reflexivity]|]. split; [assumption|].
      first [left; split; reflexivity | right; left; split; reflexivity
            | right; right; split; reflexivity].
Qed.

Lemma durationLoop_range fuel : forall orig s d d',
  0 <= d <= 2 ^ 63 -> durationLoop fuel orig s d = Total d' -> 0 <= d' <= 2 ^ 63.
Proof.
  induction fuel as [|fuel IH]; intros orig s d d' Hd H.
  - destruct s; [|discriminate]. cbn in H. inversion H; subst. exact Hd.
  - destruct s as [|c s']; [cbn in H; inversion H; subst; exact Hd|].
    cbn [durationLoop] in H.
    destruct (durationGroup orig (String c s')) as [e|[v rest]]; [discriminate|].
    destruct (2 ^ 63 <? (d + v) mod 2 ^ 64) eqn:E; [discriminate|].
    apply Z.ltb_ge in E. apply IH in H; [exact H|].
    pose proof (Z.mod_pos_bound (d + v) (2 ^ 64) ltac:(lia)). lia.
Qed.

(** A duration accepted by [ParseDuration] fits 64 bits. *)
Lemma ParseDuration_range s d :
  ParseDuration s = (d, None) -> - 2 ^ 63 <= d < 2 ^ 63.
Proof.
  unfold ParseDuration.
  destruct (String.eqb (afterSign s) "0"); [intros H; inversion H; lia|].
  destruct (negb (nonEmpty (afterSign s))); [discriminate|].
  destruct (durationLoop _ s (afterSign s) 0) as [t|e|] eqn:EL; try discriminate.
  apply durationLoop_range in EL; [|lia].
  destruct (match s with String c _ => Ascii.eqb c "-" | EmptyString => false end).
  - intros H. inversion H. lia.
  - destruct (2 ^ 63 - 1 <? t) eqn:Et; [discriminate|].
    apply Z.ltb_ge in Et. intros H. inversion H. lia.
Qed.

(** X1. A record that parses has a step count and a duration that are
    positive and fit 64 bits, and its first field is an optional plus sign
    followed by decimal digits that denote the step count. *)
Theorem parsed_record_is_positive_and_in_range :
  forall (data : string),
    (forall steps activity d,
       parseTraining data = (steps, activity, d, None) ->
       0 < steps < 2 ^ 63 /\ 0 < d < 2 ^ 63 /\
       exists digits,
         nonEmpty digits = true /\ allDigits digits = true /\
         decimalValue digits 0 = steps /\
         (nth 0 (strings.Split data ",") "" = digits
          \/ nth 0 (strings.Split data ",") "" = String "+" digits)) /\
    (forall steps d,
       parsePackage data = (steps, d, None) ->
       0 < steps < 2 ^ 63 /\ 0 < d < 2 ^ 63 /\
       exists digits,
         nonEmpty digits = true /\ allDigits digits = true /\
         decimalValue digits 0 = steps /\
         (nth 0 (strings.Split data ",") "" = digits
          \/ nth 0 (strings.Split data ",") "" = String "+" digits)).
Proof.
  intros data. split.
  - intros steps activity d. unfold parseTraining.
    destruct (strings.Split data ",") as [|p0 [|p1 [|p2 [|p3 rest]]]]; try discriminate.
    destruct (strconv.Atoi p0) as [n [e|]] eqn:EA; [discriminate|].
    destruct (n <=? 0) eqn:En; [discriminate|]. apply Z.leb_gt in En.
    destruct (ParseDuration p2) as [d' [e|]] eqn:ED; [discriminate|].
    destruct (d' <=? 0) eqn:Ed; [discriminate|]. apply Z.leb_gt in Ed.
    intros H. inversion H; subst n p1 d'. clear H.
    apply Atoi_ok in EA. apply ParseDuration_range in ED.
    destruct EA as [Hr (body & Hne & Hd & Hcases)].
    split; [lia|]. split; [lia|].
    pose proof (decimalValue_ge body 0 Hd ltac:(lia)) as Hge.
    exists body. cbn [nth].
    destruct Hcases as [[-> ->]|[[-> ->]|[_ ->]]]; [auto | auto | lia].
  - intros steps d. unfold parsePackage.
    destruct (strings.Split data ",") as [|p0 [|p1 [|p2 rest]]]; try discriminate.
    destruct (strconv.Atoi p0) as [n [e|]] eqn:EA; [discriminate|].
    destruct (n <=? 0) eqn:En; [discriminate|]. apply Z.leb_gt in En.
    destruct (ParseDuration p1) as [d' [e|]] eqn:ED; [discriminate|].
    destruct (d' <=? 0) eqn:Ed; [discriminate|]. apply Z.leb_gt in Ed.
    intros H. inversion H; subst n d'. clear H.
    apply Atoi_ok in EA. apply ParseDuration_range in ED.
    destruct EA as [Hr (body & Hne & Hd & Hcases)].
    split; [lia|]. split; [lia|].
    pose proof (decimalValue_ge body 0 Hd ltac:(lia)) as Hge.
    exists body. cbn [nth].
    destruct Hcases as [[-> ->]|[[-> ->]|[_ ->]]]; [auto | auto | lia].
Qed.

Lemma parsed_record_is_positive_and_in_range_witness :
  0 < 3456 < 2 ^ 63 /\ 0 < 3 * Hour < 2 ^ 63 /\
  exists digits,
    nonEmpty digits = true /\ allDigits digits = true /\
    decimalValue digits 0 = 3456 /\
    (nth 0 (strings.Split "+3456,Ходьба,3h00m" ",") "" = digits
     \/ nth 0 (strings.Split "+3456,Ходьба,3h00m" ",") "" = String "+" digits).
Proof.
  apply (proj1 (parsed_record_is_positive_and_in_range "+3456,Ходьба,3h00m")
           3456 walking (3 * Hour)).
  vm_compute. reflexivity.
Defined.

(** X2. A parser that fails returns zero values beside its error, and
    the error is one of five: a wrong field count, the strconv syntax or
    range error of the first field wrapped, a count that is not positive,
    the error of time.ParseDuration wrapped, or a duration that is not
    positive. *)
Theorem parser_failure_values :
  forall (data : string),
    (forall err,
       snd (parseTraining data) = Some err ->
       parseTraining data = (0, "", 0, Some err) /\
       (err = errors.New "bad data format"
        \/ (exists field,
              err = fmt.Errorf "failed to extract steps: %w"
                      (strconv.syntaxError "Atoi" field)
              \/ err = fmt.Errorf "failed to extract steps: %w"
                         (strconv.rangeError "Atoi" field))
        \/ err = errors.New "steps is not positive"
        \/ (exists field cause,
              snd (ParseDuration field) = Some cause /\
              err = fmt.Errorf "failed to extract duration: %w" cause)
        \/ err = errors.New "duration is not positive")) /\
    (forall err,
       snd (parsePackage data) = Some err ->
       parsePackage data = (0, 0, Some err) /\
       (err = errors.New "bad data format"
        \/ (exists field,
              err = fmt.Errorf "failed to extract steps: %w"
                      (strconv.syntaxError "Atoi" field)
              \/ err = fmt.Errorf "failed to extract steps: %w"
                         (strconv.rangeError "Atoi" field))
        \/ err = errors.New "steps must be positive"
        \/ (exists field cause,
              snd (ParseDuration field) = Some cause /\
              err = fmt.Errorf "failed to extract duration: %w" cause)
        \/ err = errors.New "duration is not positive")).
Proof.
  intros data. split; intros err.
  - unfold parseTraining.
    destruct (strings.Split data ",") as [|p0 [|p1 [|p2 [|p3 rest]]]];
      try (cbn [snd]; intros H; inversion H; subst; split; [reflexivity | left; reflexivity]).
    destruct (strconv.Atoi p0) as [n [e|]] eqn:EA.
    { cbn [snd]. intros H. inversion H; subst. split; [reflexivity|].
      right; left. exists p0.
      destruct (Atoi_error_shape _ _ _ EA) as [-> | ->]; [left | right]; reflexivity. }
    destruct (n <=? 0).
    { cbn [snd]. intros H. inversion H; subst. split; [reflexivity|].
      right; right; left. reflexivity. }
    destruct (ParseDuration p2) as [d [e|]] eqn:ED.
    { cbn [snd]. intros H. inversion H; subst. split; [reflexivity|].
      right; right; right; left. exists p2, e. rewrite ED. split; reflexivity. }
    destruct (d <=? 0); cbn [snd]; intros H; inversion H; subst.
    split; [reflexivity|]. right; right; right; right. reflexivity.
  - unfold parsePackage.
    destruct (strings.Split data ",") as [|p0 [|p1 [|p2 rest]]];
      try (cbn [snd]; intros H; inversion H; subst; split; [reflexivity | left; reflexivity]).
    destruct (strconv.Atoi p0) as [n [e|]] eqn:EA.
    { cbn [snd]. intros H. inversion H; subst. split; [reflexivity|].
      right; left. exists p0.
      destruct (Atoi_error_shape _ _ _ EA) as [-> | ->]; [left | right]; reflexivity. }
    destruct (n <=? 0).
    { cbn [snd]. intros H. inversion H; subst. split; [reflexivity|].
      right; right; left. reflexivity. }
    destruct (ParseDuration p1) as [d [e|]] eqn:ED.
    { cbn [snd]. intros H. inversion H; subst. split; [reflexivity|].
      right; right; right; left. exists p1, e. rewrite ED. split; reflexivity. }
    destruct (d <=? 0); cbn [snd]; intros H; inversion H; subst.
    split; [reflexivity|]. right; right; right; right. reflexivity.
Qed.

Lemma parser_failure_values_witness :
  parseTraining "12a,Бег,1h"
  = (0, "", 0, Some (fmt.Errorf "failed to extract steps: %w"
                       (strconv.syntaxError "Atoi" "12a"))) /\
  parsePackage "678,50"
  = (0, 0, Some (fmt.Errorf "failed to extract duration: %w"
                   (errors.New ("time: missing unit in duration " ++ time.quote "50")))).
Proof.
  split.
  - apply (proj1 (parser_failure_values "12a,Бег,1h")). vm_compute. reflexivity.
  - apply (proj2 (parser_failure_values "678,50")). vm_compute. reflexivity.
Defined.

(** ** Outcomes of the entry points *)

(** X3. When the first of three fields is not a number, the error of
    TrainingInfo unwraps in three steps to the sentinel of strconv: through
    the parseTraining wrapper, the steps wrapper and the NumError that
    names the field. Weight and height play no part. *)
Theorem TrainingInfo_bad_count_unwraps_to_sentinel :
  forall (data : string) (weight height : float64) (p0 p1 p2 : string),
    strings.Split data "," = [p0; p1; p2] ->
    snd (strconv.Atoi p0) <> None ->
    exists sentinel,
      (sentinel = strconv.ErrSyntax \/ sentinel = strconv.ErrRange) /\
      TrainingInfo data weight height
      = ("", Some (wrapError "parseTraining: %w"
                     (wrapError "failed to extract steps: %w"
                        (NumError "Atoi" p0 sentinel)))).
Proof.
  intros data weight height p0 p1 p2 Hsplit Hbad.
  unfold TrainingInfo, parseTraining. rewrite Hsplit.
  destruct (strconv.Atoi p0) as [n [e|]] eqn:EA; [|exfalso; apply Hbad; reflexivity].
  destruct (Atoi_error_shape _ _ _ EA) as [-> | ->].
  - exists strconv.ErrSyntax. split; [left|]; reflexivity.
  - exists strconv.ErrRange. split; [right|]; reflexivity.
Qed.

Lemma TrainingInfo_bad_count_unwraps_to_sentinel_witness :
  exists sentinel,
    (sentinel = strconv.ErrSyntax \/ sentinel = strconv.ErrRange) /\
    TrainingInfo "99999999999999999999,Бег,1h" 75 1.75
    = ("", Some (wrapError "parseTraining: %w"
                   (wrapError "failed to extract steps: %w"
                      (NumError "Atoi" "99999999999999999999" sentinel)))).
Proof.
  apply (TrainingInfo_bad_count_unwraps_to_sentinel
           "99999999999999999999,Бег,1h" 75 1.75 "99999999999999999999" "Бег" "1h").
  - vm_compute. reflexivity.
  - vm_compute. discriminate.
Defined.

Lemma trainingText_nonempty activity hours dist speed calories :
  trainingText activity hours dist speed calories <> "".
Proof. unfold trainingText. cbn [append]. discriminate. Qed.

Lemma dayText_nonempty steps kilometers calories :
  dayText steps kilometers calories <> "".
Proof. unfold dayText. cbn [append]. discriminate. Qed.

(** X4. TrainingInfo succeeds exactly when the record parses, the
    weight is not <= 0, and the label is the running token, or the walking
    token with a height that is not <= 0: after a successful parse the step
    and duration checks of the calorie functions never fire. On success the
    report is not empty. *)
Theorem TrainingInfo_succeeds_iff :
  forall (data : string) (weight height : float64),
    (snd (TrainingInfo data weight height) = None <->
     exists steps activity d,
       parseTraining data = (steps, activity, d, None) /\
       (weight <=? 0)%float = false /\
       (activity = running
        \/ (activity = walking /\ (height <=? 0)%float = false))) /\
    (snd (TrainingInfo data weight height) = None ->
     fst (TrainingInfo data weight height) <> "").
Proof.
  intros data weight height. unfold TrainingInfo.
  destruct (parseTraining data) as [[[steps activity] d] [e|]] eqn:Hparse.
  { cbn [snd]. split; [split; [discriminate|]|discriminate].
    intros (s & a & d' & H & _). discriminate H. }
  destruct (parseTraining_ok _ _ _ _ Hparse) as [Hs Hd].
  apply Z.leb_gt in Hs, Hd.
  unfold RunningSpentCalories, WalkingSpentCalories. rewrite Hs, Hd.
  destruct (String.eqb_spec activity running) as [->|Hr].
  - destruct (weight <=? 0)%float; cbn [snd fst].
    + split; [split; [discriminate|]|discriminate].
      intros (s & a & d' & H & Hw & _). discriminate Hw.
    + split; [split; [intros _|reflexivity]|intros _; apply trainingText_nonempty].
      exists steps, running, d. auto.
  - destruct (String.eqb_spec activity walking) as [->|Hw'].
    + destruct (weight <=? 0)%float; cbn [snd fst].
      * split; [split; [discriminate|]|discriminate].
        intros (s & a & d' & H & Hw & _). discriminate Hw.
      * destruct (height <=? 0)%float; cbn [snd fst].
        -- split; [split; [discriminate|]|discriminate].
           intros (s & a & d' & H & _ & [Ha|[_ Hh]]);
             [inversion H; subst; unfold running, walking in *; congruence
             | discriminate Hh].
        -- split; [split; [intros _|reflexivity]|intros _; apply trainingText_nonempty].
           exists steps, walking, d. auto.
    + cbn [snd]. split; [split; [discriminate|]|discriminate].
      intros (s & a & d' & H & _ & [Ha|[Ha _]]); inversion H; subst; contradiction.
Qed.

Lemma TrainingInfo_succeeds_iff_witness :
  snd (TrainingInfo "3456,Ходьба,3h00m" 75 1.75) = None /\
  fst (TrainingInfo "3456,Ходьба,3h00m" 75 1.75) <> "".
Proof.
  destruct (TrainingInfo_succeeds_iff "3456,Ходьба,3h00m" 75 1.75) as [[_ H] Hne].
  assert (Hok : snd (TrainingInfo "3456,Ходьба,3h00m" 75 1.75) = None).
  { apply H. exists 3456, walking, (3 * Hour).
    split; [vm_compute; reflexivity|]. split; [vm_compute; reflexivity|].
    right. split; vm_compute; reflexivity. }
  split; [exact Hok | exact (Hne Hok)].
Defined.

(** X5. DayActionInfo returns a report exactly when the record parses
    and neither the weight nor the height is <= 0, and then logs nothing;
    every empty result comes with exactly one log line, so the second check
    of the step count in DayActionInfo is never taken. *)
Theorem DayActionInfo_outcomes :
  forall (data : string) (weight height : float64),
    (fst (DayActionInfo data weight height) <> "" <->
     exists steps d,
       parsePackage data = (steps, d, None) /\
       (weight <=? 0)%float = false /\ (height <=? 0)%float = false) /\
    (fst (DayActionInfo data weight height) <> "" ->
     snd (DayActionInfo data weight height) = []) /\
    (fst (DayActionInfo data weight height) = "" ->
     exists line, snd (DayActionInfo data weight height) = [line]).
Proof.
  intros data weight height. unfold DayActionInfo.
  destruct (parsePackage data) as [[steps d] [e|]] eqn:Hparse.
  { cbn [fst snd]. repeat split.
    - intros H. exfalso. apply H. reflexivity.
    - intros (s & d' & H & _). discriminate H.
    - intros H. exfalso. apply H. reflexivity.
    - intros _. eexists. reflexivity. }
  destruct (parsePackage_ok _ _ _ Hparse) as [Hs Hd].
  apply Z.leb_gt in Hs. rewrite Hs.
  unfold WalkingSpentCalories. rewrite Hs.
  destruct (weight <=? 0)%float; cbn [fst snd].
  { repeat split.
    - intros H. exfalso. apply H. reflexivity.
    - intros (s & d' & _ & H & _). discriminate H.
    - intros H. exfalso. apply H. reflexivity.
    - intros _. eexists. reflexivity. }
  destruct (height <=? 0)%float; cbn [fst snd].
  { repeat split.
    - intros H. exfalso. apply H. reflexivity.
    - intros (s & d' & _ & _ & H). discriminate H.
    - intros H. exfalso. apply H. reflexivity.
    - intros _. eexists. reflexivity. }
  repeat split.
  - intros _. exists steps, d. auto.
  - intros _. apply dayText_nonempty.
  - intros H. exfalso. revert H. apply dayText_nonempty.
Qed.

Lemma DayActionInfo_outcomes_witness :
  snd (DayActionInfo "678,0h50m" 75 1.75) = [] /\
  exists line, snd (DayActionInfo "678,0h50m" 0 1.75) = [line].
Proof.
  split.
  - apply (DayActionInfo_outcomes "678,0h50m" 75 1.75). vm_compute. discriminate.
  - apply (DayActionInfo_outcomes "678,0h50m" 0 1.75). vm_compute. reflexivity.
Defined.

(** ** Values that are not numbers *)

Lemma nan_mul_l (x : float64) : (nan * x)%float = nan.
Proof. apply Prim2SF_inj. rewrite mul_spec. reflexivity. Qed.

(** X6. The guards [weight <= 0] do not reject a weight that is not a
    number: for steps > 0 and, for running, duration > 0, both calorie
    functions accept a NaN weight and return NaN without an error. *)
Theorem calories_accept_nan_weight :
  forall (steps : int) (height : float64) (duration : Duration),
    0 < steps ->
    (0 < duration ->
     RunningSpentCalories steps nan height duration = (nan, None)) /\
    ((height <=? 0)%float = false ->
     WalkingSpentCalories steps nan height duration = (nan, None)).
Proof.
  intros steps height duration Hs. apply Z.leb_gt in Hs.
  unfold RunningSpentCalories, WalkingSpentCalories. rewrite Hs.
  change (nan <=? 0)%float with false. cbv iota. split.
  - intros Hd. apply Z.leb_gt in Hd. rewrite Hd.
    now rewrite !nan_mul_l.
  - intros ->. now rewrite !nan_mul_l.
Qed.

Lemma calories_accept_nan_weight_witness :
  RunningSpentCalories 1000 nan 1.75 (10 * Minute) = (nan, None) /\
  WalkingSpentCalories 1000 nan 1.75 (10 * Minute) = (nan, None).
Proof.
  destruct (calories_accept_nan_weight 1000 1.75 (10 * Minute)) as [Hr Hw];
    [vm_compute; reflexivity|].
  split; [apply Hr | apply Hw]; vm_compute; reflexivity.
Defined.

(** ** The two record forms side by side *)

Lemma Split_commaFree s : commaFree s = true -> strings.Split s "," = [s].
Proof.
  induction s as [|c rest IH]; cbn [commaFree strings.Split]; [reflexivity|].
  intros H. apply andb_true_iff in H. destruct H as [Hc Hr].
  apply negb_true_iff in Hc. rewrite Hc, (IH Hr). reflexivity.
Qed.

Lemma Split_field a b :
  commaFree a = true ->
  strings.Split (a ++ String "," b) "," = a :: strings.Split b ",".
Proof.
  induction a as [|c rest IH]; cbn [commaFree append strings.Split].
  - intros _. reflexivity.
  - intros H. apply andb_true_iff in H. destruct H as [Hc Hr].
    apply negb_true_iff in Hc. rewrite Hc, (IH Hr). reflexivity.
Qed.

Lemma Split_two a b :
  commaFree a = true -> commaFree b = true ->
  strings.Split (a ++ "," ++ b) "," = [a; b].
Proof.
  intros Ha Hb. cbn [append]. rewrite (Split_field a b Ha), (Split_commaFree b Hb).
  reflexivity.
Qed.

Lemma Split_three a l b :
  commaFree a = true -> commaFree l = true -> commaFree b = true ->
  strings.Split (a ++ "," ++ l ++ "," ++ b) "," = [a; l; b].
Proof.
  intros Ha Hl Hb. cbn [append].
  rewrite (Split_field a _ Ha), (Split_field l b Hl), (Split_commaFree b Hb).
  reflexivity.
Qed.

(** X7. The two parsers agree on records built from the same fields:
    for a count field, a label and a duration field without commas,
    parseTraining accepts count,label,duration exactly when parsePackage
    accepts count,duration; both return the same count and duration, and
    the label comes back unchanged. *)
Theorem parsers_agree_on_fields :
  forall (count label span : string),
    commaFree count = true -> commaFree label = true -> commaFree span = true ->
    (snd (parseTraining (count ++ "," ++ label ++ "," ++ span)) = None <->
     snd (parsePackage (count ++ "," ++ span)) = None) /\
    (forall steps d,
       parseTraining (count ++ "," ++ label ++ "," ++ span) = (steps, label, d, None)
       <-> parsePackage (count ++ "," ++ span) = (steps, d, None)) /\
    (forall steps activity d,
       parseTraining (count ++ "," ++ label ++ "," ++ span)
       = (steps, activity, d, None) -> activity = label).
Proof.
  intros count label span Hc Hl Hs.
  unfold parseTraining, parsePackage.
  rewrite (Split_three _ _ _ Hc Hl Hs), (Split_two _ _ Hc Hs).
  destruct (strconv.Atoi count) as [n [e|]].
  { cbn [snd]. repeat split; intros; discriminate. }
  destruct (n <=? 0).
  { cbn [snd]. repeat split; intros; discriminate. }
  destruct (ParseDuration span) as [d [e|]].
  { cbn [snd]. repeat split; intros; discriminate. }
  destruct (d <=? 0); cbn [snd].
  { repeat split; intros; discriminate. }
  repeat split; intros;
    match goal with H : _ = _ |- _ => inversion H; subst; reflexivity end.
Qed.

Lemma parsers_agree_on_fields_witness :
  parseTraining ("3456" ++ "," ++ walking ++ "," ++ "3h00m")
  = (3456, walking, 3 * Hour, None).
Proof.
  apply (parsers_agree_on_fields "3456" walking "3h00m");
    vm_compute; reflexivity.
Defined.

(** X8. The two entry points agree on walking: for comma-free count and
    duration fields, DayActionInfo reports on count,duration exactly when
    TrainingInfo succeeds on the same fields with the walking label, and
    both reports carry the same calories; only the distance differs (fixed
    step length against the height-based one). *)
Theorem entry_points_agree_on_walking :
  forall (count span : string) (weight height : float64),
    commaFree count = true -> commaFree span = true ->
    (fst (DayActionInfo (count ++ "," ++ span) weight height) <> "" <->
     snd (TrainingInfo (count ++ "," ++ walking ++ "," ++ span) weight height) = None) /\
    (forall report,
       fst (DayActionInfo (count ++ "," ++ span) weight height) = report ->
       report <> "" ->
       exists steps d calories,
         report = dayText steps (float64_of_int steps * 0.65 / 1000)%float calories /\
         TrainingInfo (count ++ "," ++ walking ++ "," ++ span) weight height
         = (trainingText walking (Hours d) (distance steps height)
              (meanSpeed steps height d) calories, None)).
Proof.
  intros count span weight height Hc Hs.
  assert (Hl : commaFree walking = true) by (vm_compute; reflexivity).
  unfold DayActionInfo, TrainingInfo, parsePackage, parseTraining.
  rewrite (Split_two _ _ Hc Hs), (Split_three _ _ _ Hc Hl Hs).
  assert (Fail : forall (l : list log.entry) (e : error),
            (fst ("", l) <> "" <-> snd ("", Some e) = None) /\
            (forall report, fst ("", l) = report -> report <> "" ->
               exists steps d calories,
                 report = dayText steps (float64_of_int steps * 0.65 / 1000)%float
                            calories /\
                 ("", Some e)
                 = (trainingText walking (Hours d) (distance steps height)
                      (meanSpeed steps height d) calories, None))).
  { intros l e. cbn [fst snd]. split.
    - split; [intros H; exfalso; apply H; reflexivity | discriminate].
    - intros report <- H. exfalso. apply H. reflexivity. }
  destruct (strconv.Atoi count) as [n [e|]]; [apply Fail|].
  destruct (n <=? 0) eqn:En; [apply Fail|].
  destruct (ParseDuration span) as [d [e|]]; [apply Fail|].
  destruct (d <=? 0); [apply Fail|].
  rewrite En.
  change (String.eqb walking running) with false.
  change (String.eqb walking walking) with true. cbv iota.
  destruct (WalkingSpentCalories n weight height d) as [c [e|]]; [apply Fail|].
  cbn [fst snd]. split.
  - split; [reflexivity | intros _; apply dayText_nonempty].
  - intros report <- _. exists n, d, c. split; reflexivity.
Qed.

Lemma entry_points_agree_on_walking_witness :
  exists steps d calories,
    "Количество шагов: 678.
Дистанция составила 0.44 км.
Вы сожгли 20.02 ккал.
" = dayText steps (float64_of_int steps * 0.65 / 1000)%float calories /\
    TrainingInfo ("678" ++ "," ++ walking ++ "," ++ "0h50m") 75 1.75
    = (trainingText walking (Hours d) (distance steps 1.75)
         (meanSpeed steps 1.75 d) calories, None).
Proof.
  apply (proj2 (entry_points_agree_on_walking "678" "0h50m" 75 1.75
                  eq_refl eq_refl)).
  - vm_compute. reflexivity.
  - discriminate.
Defined.

(** ** The documented record format *)

Lemma isDigit_not_punct c :
  isDigit c = true ->
  Ascii.eqb c "-" = false /\ Ascii.eqb c "+" = false /\
  Ascii.eqb c "." = false /\ Ascii.eqb c "," = false.
Proof.
  destruct c as [[] [] [] [] [] [] [] []]; vm_compute; intros H;
    first [discriminate H | repeat split].
Qed.

Lemma allDigits_commaFree s : allDigits s = true -> commaFree s = true.
Proof.
  induction s as [|c rest IH]; cbn [allDigits commaFree]; [reflexivity|].
  intros H. apply andb_true_iff in H. destruct H as [Hc Hr].
  destruct (isDigit_not_punct c Hc) as (_ & _ & _ & ->). cbn [negb andb]. auto.
Qed.

Lemma Atoi_digits s :
  nonEmpty s = true -> allDigits s = true -> decimalValue s 0 < 2 ^ 63 ->
  strconv.Atoi s = (decimalValue s 0, None).
Proof.
  intros Hne Hd Hv. destruct s as [|c rest]; [discriminate|].
  pose proof Hd as Hd'. cbn [allDigits] in Hd'. apply andb_true_iff in Hd'.
  destruct Hd' as [Hc Hrest].
  destruct (isDigit_not_punct c Hc) as (Em & Ep & _ & _).
  pose proof (decimalValue_ge _ 0 Hd ltac:(lia)) as Hge.
  unfold strconv.Atoi.
  destruct (Nat.ltb 0 (String.length (String c rest))
            && Nat.ltb (String.length (String c rest)) 19)%bool.
  - rewrite Em, Ep. cbn [orb andb].
    rewrite (atoiLoop_digits _ 0 Hd). reflexivity.
  - unfold strconv.ParseInt. cbv zeta. rewrite Em, Ep. cbn [orb andb negb].
    rewrite (parseUintLoop_digits _ 0 Hd ltac:(lia));
      [|change strconv.maxUint64 with 18446744073709551615; lia].
    replace (2 ^ 63 <=? decimalValue (String c rest) 0) with false
      by (symmetry; apply Z.leb_gt; lia).
    reflexivity.
Qed.

Lemma leadingIntLoop_digits s t : forall acc,
  allDigits s = true ->
  match t with String c _ => isDigit c = false | EmptyString => True end ->
  0 <= acc -> decimalValue s acc <= 2 ^ 63 ->
  leadingIntLoop (s ++ t) acc = Some (decimalValue s acc, t).
Proof.
  induction s as [|c rest IH]; intros acc Hd Ht Hacc Hv;
    cbn [append decimalValue] in Hv |- *.
  - destruct t as [|c t']; cbn [leadingIntLoop]; [reflexivity|].
    rewrite Ht. reflexivity.
  - cbn [allDigits] in Hd. apply andb_true_iff in Hd. destruct Hd as [Hc Hr].
    pose proof (digitVal_range c Hc) as Hdv.
    pose proof (decimalValue_ge rest (acc * 10 + digitVal c) Hr ltac:(lia)) as Hge.
    cbn [leadingIntLoop]. rewrite Hc. cbn [negb].
    change (2 ^ 63 / 10) with 922337203685477580.
    replace (922337203685477580 <? acc) with false by (symmetry; apply Z.ltb_ge; lia).
    replace (2 ^ 63 <? acc * 10 + digitVal c) with false
      by (symmetry; apply Z.ltb_ge; lia).
    apply IH; [exact Hr | exact Ht | lia | exact Hv].
Qed.

Lemma length_append (s t : string) :
  String.length (s ++ t) = (String.length s + String.length t)%nat.
Proof. induction s as [|c s IH]; cbn [append String.length]; [reflexivity | now rewrite IH]. Qed.

(** One group of the duration grammar: digits and a one-byte unit. *)
Lemma durationGroup_digits orig s (c : ascii) rest unit :
  nonEmpty s = true -> allDigits s = true ->
  isDigit c = false -> Ascii.eqb c "." = false ->
  unitMap (String c "") = Some unit -> 0 < unit ->
  match rest with String c' _ => isDigit c' = true | EmptyString => True end ->
  decimalValue s 0 * unit <= 2 ^ 63 ->
  durationGroup orig (s ++ String c rest) = inr (decimalValue s 0 * unit, rest).
Proof.
  intros Hne Hd Hc Hdot Hunit Hupos Hrest Hv.
  pose proof (decimalValue_ge s 0 Hd ltac:(lia)) as Hge.
  assert (Hle : decimalValue s 0 <= 2 ^ 63) by nia.
  destruct s as [|c0 s']; [discriminate|].
  pose proof Hd as Hd'. cbn [allDigits] in Hd'. apply andb_true_iff in Hd'.
  destruct Hd' as [Hc0 _].
  change (String c0 s' ++ String c rest) with (String c0 (s' ++ String c rest)).
  unfold durationGroup.
  rewrite Hc0, orb_true_r. cbn [negb].
  change (String c0 (s' ++ String c rest)) with (String c0 s' ++ String c rest).
  unfold leadingInt.
  rewrite (leadingIntLoop_digits (String c0 s') (String c rest) 0 Hd Hc ltac:(lia) Hle).
  assert (Hpre : Nat.eqb (String.length (String c0 s' ++ String c rest))
                   (String.length (String c rest)) = false).
  { apply Nat.eqb_neq. rewrite length_append. cbn [String.length]. lia. }
  rewrite Hpre. unfold fractionPart. rewrite Hdot. cbn [negb andb].
  assert (Hspan : unitSpan (String c rest) = (String c "", rest)).
  { cbn [unitSpan]. rewrite Hdot, Hc. cbn [orb].
    destruct rest as [|c' r']; cbn [unitSpan]; [reflexivity|].
    rewrite Hrest, orb_true_r. reflexivity. }
  rewrite Hspan. cbn [nonEmpty negb]. rewrite Hunit.
  replace (2 ^ 63 / unit <? decimalValue (String c0 s') 0) with false.
  - reflexivity.
  - symmetry. apply Z.ltb_ge. apply Z.div_le_lower_bound; lia.
Qed.

Lemma digits_head s :
  nonEmpty s = true -> allDigits s = true ->
  exists c s', s = String c s' /\ isDigit c = true.
Proof.
  destruct s as [|c s']; [discriminate|]. intros _ H.
  cbn [allDigits] in H. apply andb_true_iff in H. destruct H as [Hc _].
  exists c, s'. auto.
Qed.

(** Hours and minutes, as in [3h00m]: the duration is what the digits
    say. *)
Lemma ParseDuration_hours_minutes hs ms :
  nonEmpty hs = true -> allDigits hs = true ->
  nonEmpty ms = true -> allDigits ms = true ->
  decimalValue hs 0 * Hour + decimalValue ms 0 * Minute < 2 ^ 63 ->
  ParseDuration (hs ++ "h" ++ ms ++ "m")
  = (decimalValue hs 0 * Hour + decimalValue ms 0 * Minute, None).
Proof.
  intros Hhn Hhd Hmn Hmd Hv.
  pose proof (decimalValue_ge hs 0 Hhd ltac:(lia)) as Hhge.
  pose proof (decimalValue_ge ms 0 Hmd ltac:(lia)) as Hmge.
  change Hour with 3600000000000 in *. change Minute with 60000000000 in *.
  set (vh := decimalValue hs 0) in *. set (vm := decimalValue ms 0) in *.
  destruct (digits_head ms Hmn Hmd) as (cm & ms' & Ems & Hcm).
  assert (G1 : forall orig,
             durationGroup orig (hs ++ String "h" (ms ++ "m"))
             = inr (vh * 3600000000000, ms ++ "m")).
  { intros orig.
    apply (durationGroup_digits orig hs "h" (ms ++ "m") 3600000000000
             Hhn Hhd eq_refl eq_refl eq_refl eq_refl); [|lia].
    rewrite Ems. cbn [append]. exact Hcm. }
  assert (G2 : forall orig,
             durationGroup orig (ms ++ String "m" "")
             = inr (vm * 60000000000, "")).
  { intros orig.
    apply (durationGroup_digits orig ms "m" "" 60000000000
             Hmn Hmd eq_refl eq_refl eq_refl eq_refl); [exact I | lia]. }
  destruct (digits_head hs Hhn Hhd) as (ch & hs' & Ehs & Hch).
  destruct (isDigit_not_punct ch Hch) as (Em & Ep & _ & _).
  change (hs ++ "h" ++ ms ++ "m") with (hs ++ String "h" (ms ++ String "m" "")).
  set (orig := hs ++ String "h" (ms ++ String "m" "")).
  assert (Eorig : orig = String ch (hs' ++ String "h" (ms ++ String "m" "")))
    by (subst orig; rewrite Ehs; reflexivity).
  unfold ParseDuration.
  assert (Esign : afterSign orig = orig).
  { rewrite Eorig. cbn [afterSign]. rewrite Em, Ep. reflexivity. }
  rewrite Esign.
  assert (Ezero : String.eqb orig "0" = false).
  { rewrite Eorig. cbn [String.eqb].
    destruct hs'; cbn [append String.eqb]; apply andb_false_r || reflexivity
      || (destruct (Ascii.eqb ch "0"); reflexivity). }
  rewrite Ezero.
  assert (Ene : nonEmpty orig = true) by (rewrite Eorig; reflexivity).
  rewrite Ene. cbn [negb].
  assert (Efuel : exists f, String.length orig = S (S f)).
  { rewrite Eorig. cbn [String.length]. rewrite length_append. cbn [String.length].
    exists (String.length hs' + String.length (ms ++ "m"))%nat. lia. }
  destruct Efuel as [f Ef]. rewrite Ef.
  assert (L : durationLoop (S (S f)) orig orig 0
              = Total (vh * 3600000000000 + vm * 60000000000)).
  { rewrite Eorig at 2. cbn [durationLoop]. rewrite <- Eorig.
    unfold orig at 2. rewrite G1.
    replace ((0 + vh * 3600000000000) mod 2 ^ 64) with (vh * 3600000000000)
      by (rewrite Z.mod_small; lia).
    replace (2 ^ 63 <? vh * 3600000000000) with false
      by (symmetry; apply Z.ltb_ge; lia).
    rewrite Ems. cbn [append durationLoop].
    change (String cm (ms' ++ "m")) with (String cm ms' ++ String "m" "").
    rewrite <- Ems, G2.
    replace ((vh * 3600000000000 + vm * 60000000000) mod 2 ^ 64)
      with (vh * 3600000000000 + vm * 60000000000)
      by (rewrite Z.mod_small; lia).
    replace (2 ^ 63 <? vh * 3600000000000 + vm * 60000000000) with false
      by (symmetry; apply Z.ltb_ge; lia).
    destruct f; reflexivity. }
  rewrite L. rewrite Eorig at 1. rewrite Em.
  replace (2 ^ 63 - 1 <? vh * 3600000000000 + vm * 60000000000) with false
    by (symmetry; apply Z.ltb_ge; lia).
  reflexivity.
Qed.

Lemma commaFree_append s t :
  commaFree s = true -> commaFree t = true -> commaFree (s ++ t) = true.
Proof.
  induction s as [|c s IH]; cbn [append commaFree]; [auto|].
  intros H Ht. apply andb_true_iff in H. destruct H as [-> Hs]. cbn [andb]. auto.
Qed.

Lemma hours_minutes_commaFree hs ms :
  allDigits hs = true -> allDigits ms = true ->
  commaFree (hs ++ "h" ++ ms ++ "m") = true.
Proof.
  intros Hh Hm. apply commaFree_append; [apply allDigits_commaFree, Hh|].
  apply (commaFree_append "h"); [reflexivity|].
  apply commaFree_append; [apply allDigits_commaFree, Hm | reflexivity].
Qed.

(** X9. The documented record format means what it says: for digit
    strings count, hours and minutes (leading zeros allowed) that denote a
    positive count and a positive duration within 64 bits, parsePackage
    returns on count,HhMm the number count and the duration of H hours and
    M minutes, and parseTraining does so with any comma-free label in
    between, which it returns unchanged. *)
Theorem documented_format_parses :
  forall (count label hours minutes : string),
    nonEmpty count = true -> allDigits count = true ->
    nonEmpty hours = true -> allDigits hours = true ->
    nonEmpty minutes = true -> allDigits minutes = true ->
    commaFree label = true ->
    0 < decimalValue count 0 < 2 ^ 63 ->
    0 < decimalValue hours 0 * Hour + decimalValue minutes 0 * Minute < 2 ^ 63 ->
    parsePackage (count ++ "," ++ hours ++ "h" ++ minutes ++ "m")
    = (decimalValue count 0,
       decimalValue hours 0 * Hour + decimalValue minutes 0 * Minute, None) /\
    parseTraining (count ++ "," ++ label ++ "," ++ hours ++ "h" ++ minutes ++ "m")
    = (decimalValue count 0, label,
       decimalValue hours 0 * Hour + decimalValue minutes 0 * Minute, None).
Proof.
  intros count label hours minutes Hcn Hcd Hhn Hhd Hmn Hmd Hl Hc Hv.
  pose proof (allDigits_commaFree count Hcd) as Hcf.
  pose proof (hours_minutes_commaFree hours minutes Hhd Hmd) as Hsf.
  unfold parsePackage, parseTraining.
  rewrite (Split_two count _ Hcf Hsf), (Split_three count label _ Hcf Hl Hsf).
  rewrite (Atoi_digits count Hcn Hcd ltac:(lia)).
  replace (decimalValue count 0 <=? 0) with false by (symmetry; apply Z.leb_gt; lia).
  rewrite (ParseDuration_hours_minutes hours minutes Hhn Hhd Hmn Hmd (proj2 Hv)).
  replace (decimalValue hours 0 * Hour + decimalValue minutes 0 * Minute <=? 0)
    with false by (symmetry; apply Z.leb_gt; exact (proj1 Hv)).
  split; reflexivity.
Qed.

Lemma documented_format_parses_witness :
  parsePackage ("0678" ++ "," ++ "0" ++ "h" ++ "50" ++ "m")
  = (678, 0 * Hour + 50 * Minute, None) /\
  parseTraining ("0678" ++ "," ++ walking ++ "," ++ "0" ++ "h" ++ "50" ++ "m")
  = (678, walking, 0 * Hour + 50 * Minute, None).
Proof.
  apply (documented_format_parses "0678" walking "0" "50");
    vm_compute; first [reflexivity | split; reflexivity].
Defined.

(** *** Decimal rendering *)

Lemma string_of_uint_allDigits d :
  allDigits (NilEmpty.string_of_uint d) = true.
Proof. induction d; cbn [NilEmpty.string_of_uint allDigits]; auto. Qed.

Lemma string_of_uint_value_acc d : forall acc,
  decimalValue (NilEmpty.string_of_uint d) (Z.pos acc)
  = Z.pos (Pos.of_uint_acc d acc).
Proof.
  induction d; intros acc; cbn [NilEmpty.string_of_uint decimalValue Pos.of_uint_acc];
    try reflexivity;
    match goal with
    | |- decimalValue _ ?a = _ =>
        match goal with
        | |- _ = Z.pos (Pos.of_uint_acc _ ?b) =>
            replace a with (Z.pos b)
              by (match goal with
                  | |- context [digitVal ?c] =>
                      let v := eval vm_compute in (digitVal c) in
                      change (digitVal c) with v
                  end; lia)
        end
    end; apply IHd.
Qed.

Lemma string_of_uint_value d :
  decimalValue (NilEmpty.string_of_uint d) 0 = Z.of_N (Pos.of_uint d).
Proof.
  induction d; cbn [NilEmpty.string_of_uint decimalValue Pos.of_uint];
    try reflexivity; try exact IHd;
    match goal with
    | |- decimalValue _ ?a = Z.of_N (N.pos (Pos.of_uint_acc _ ?b)) =>
        change a with (Z.pos b); apply string_of_uint_value_acc
    end.
Qed.

Lemma string_of_uint_nonnil d :
  d <> Decimal.Nil ->
  NilZero.string_of_uint d = NilEmpty.string_of_uint d /\
  nonEmpty (NilEmpty.string_of_uint d) = true.
Proof. destruct d; [contradiction|..]; intros _; split; reflexivity. Qed.

(** The verb [%d] on a number that is not negative gives its digits. *)
Lemma verb_d_digits n :
  0 <= n ->
  nonEmpty (fmt.verb_d n) = true /\ allDigits (fmt.verb_d n) = true /\
  decimalValue (fmt.verb_d n) 0 = n.
Proof.
  intros Hn. destruct n as [|p|p]; [repeat split| |lia].
  unfold fmt.verb_d. cbn [Z.to_int NilZero.string_of_int].
  destruct (string_of_uint_nonnil _ (DecimalPos.Unsigned.to_uint_nonnil p)) as [-> Hne].
  split; [exact Hne|]. split; [apply string_of_uint_allDigits|].
  rewrite string_of_uint_value, DecimalPos.Unsigned.of_to. reflexivity.
Qed.

(** X10. Parsing inverts formatting: for a count 0 < steps < 2^63 and
    hours and minutes that are not negative and make a positive duration
    within 64 bits, the record written with the verb [%d] as
    steps,HhMm parses back to exactly these steps and that duration, in
    both record forms. *)
Theorem format_then_parse_round_trip :
  forall (steps hours minutes : Z) (label : string),
    0 < steps < 2 ^ 63 -> 0 <= hours -> 0 <= minutes ->
    0 < hours * Hour + minutes * Minute < 2 ^ 63 ->
    commaFree label = true ->
    parsePackage (fmt.verb_d steps ++ "," ++ fmt.verb_d hours ++ "h"
                  ++ fmt.verb_d minutes ++ "m")
    = (steps, hours * Hour + minutes * Minute, None) /\
    parseTraining (fmt.verb_d steps ++ "," ++ label ++ "," ++ fmt.verb_d hours
                   ++ "h" ++ fmt.verb_d minutes ++ "m")
    = (steps, label, hours * Hour + minutes * Minute, None).
Proof.
  intros steps hours minutes label Hs Hh Hm Hv Hl.
  destruct (verb_d_digits steps ltac:(lia)) as (Hcn & Hcd & Hcv).
  destruct (verb_d_digits hours Hh) as (Hhn & Hhd & Hhv).
  destruct (verb_d_digits minutes Hm) as (Hmn & Hmd & Hmv).
  pose proof (allDigits_commaFree _ Hcd) as Hcf.
  pose proof (hours_minutes_commaFree _ _ Hhd Hmd) as Hsf.
  unfold parsePackage, parseTraining.
  rewrite (Split_two _ _ Hcf Hsf), (Split_three _ label _ Hcf Hl Hsf).
  rewrite (Atoi_digits _ Hcn Hcd) by (rewrite Hcv; lia).
  rewrite Hcv.
  replace (steps <=? 0) with false by (symmetry; apply Z.leb_gt; lia).
  rewrite (ParseDuration_hours_minutes _ _ Hhn Hhd Hmn Hmd)
    by (rewrite Hhv, Hmv; exact (proj2 Hv)).
  rewrite Hhv, Hmv.
  replace (hours * Hour + minutes * Minute <=? 0) with false
    by (symmetry; apply Z.leb_gt; exact (proj1 Hv)).
  split; reflexivity.
Qed.

Lemma format_then_parse_round_trip_witness :
  parsePackage "678,0h50m" = (678, 0 * Hour + 50 * Minute, None) /\
  parseTraining "678,Бег,0h50m" = (678, running, 0 * Hour + 50 * Minute, None).
Proof.
  apply (format_then_parse_round_trip 678 0 50 running);
    vm_compute; first [reflexivity | discriminate | split; reflexivity].
Defined.

(** ** Non-negative metrics *)

(** *** Rounding keeps a positive magnitude *)

Lemma Zdigits2_div_pow2_exact m n :
  0 < m -> 0 <= n < Zdigits2 m ->
  0 < m / 2 ^ n /\ Zdigits2 (m / 2 ^ n) = Zdigits2 m - n.
Proof.
  intros Hm Hn. destruct m as [|p|p]; try lia.
  cbn [Zdigits2] in *. rewrite digits2_pos_log2 in *.
  assert (Hpow : 2 ^ n <= 2 ^ Z.log2 (Z.pos p)) by (apply Z.pow_le_mono_r; lia).
  destruct (Z.log2_spec (Z.pos p) ltac:(lia)) as [Hlo _].
  assert (Hq : 0 < Z.pos p / 2 ^ n).
  { apply Z.div_str_pos. split; [apply Z.pow_pos_nonneg; lia | lia]. }
  split; [exact Hq|].
  destruct (Z.pos p / 2 ^ n) as [|q|q] eqn:E; try lia.
  cbn [Zdigits2]. rewrite digits2_pos_log2, <- E, <- Z.shiftr_div_pow2 by lia.
  rewrite Z.log2_shiftr by lia. lia.
Qed.

Lemma shr_fexp_between m e l L K :
  0 < m -> e <= 971 -> L <= Zdigits2 m + e <= K -> -1073 <= L -> K <= 1024 ->
  let '(mrs, e') := shr_fexp prec emax m e l in
  0 < shr_m mrs /\ e' <= 971 /\ L <= Zdigits2 (shr_m mrs) + e' <= K.
Proof.
  intros Hm He HK HL HKr. unfold shr_fexp, shr.
  assert (Hr : shr_m (shr_record_of_loc m l) = m)
    by (destruct l as [|[]]; reflexivity).
  rewrite fexp_binary64.
  destruct (Z.max (Zdigits2 m + e - 53) (-1074) - e) as [|n|n] eqn:En.
  - rewrite Hr. lia.
  - rewrite iter_shr_1_m by lia. rewrite Hr.
    destruct (Zdigits2_div_pow2_exact m (Z.pos n) Hm ltac:(lia)) as [Hq Hd].
    rewrite Hd. lia.
  - rewrite Hr. lia.
Qed.

Lemma binary_round_aux_between mx ex lx L K :
  0 < mx -> ex <= 971 -> L <= Zdigits2 mx + ex <= K -> -1073 <= L -> K <= 1023 ->
  sf_between L (K + 1) (binary_round_aux prec emax false mx ex lx).
Proof.
  intros Hm He HK HL HKr. unfold binary_round_aux.
  pose proof (shr_fexp_between mx ex lx L K Hm He HK HL ltac:(lia)) as H1.
  destruct (shr_fexp prec emax mx ex lx) as [mrs1 e1].
  destruct H1 as (Hm1 & He1 & HK1).
  set (m1 := round_nearest_even (shr_m mrs1) (loc_of_shr_record mrs1)).
  assert (Hm1' : 0 < m1 /\ Zdigits2 (shr_m mrs1) <= Zdigits2 m1
                 <= Zdigits2 (shr_m mrs1) + 1).
  { subst m1. destruct (round_nearest_even_cases (shr_m mrs1) (loc_of_shr_record mrs1))
      as [->| ->]; [lia|].
    split; [lia|]. split; [apply Zdigits2_mono; lia | apply Zdigits2_succ; lia]. }
  pose proof (shr_fexp_between m1 e1 loc_Exact L (K + 1) ltac:(lia) He1
                ltac:(lia) HL ltac:(lia)) as H2.
  destruct (shr_fexp prec emax m1 e1 loc_Exact) as [mrs2 e2].
  destruct H2 as (Hm2 & He2 & HK2).
  destruct (shr_m mrs2) as [|p|p] eqn:Ep; try lia.
  replace (e2 <=? emax - prec) with true by (symmetry; apply Z.leb_le; exact He2).
  cbn [sf_between]. cbn [Zdigits2] in HK2. lia.
Qed.

Lemma binary_round_between mx ex L K :
  ex <= 971 -> L <= Z.pos (digits2_pos mx) + ex <= K -> -1073 <= L -> K <= 1023 ->
  sf_between L (K + 1) (binary_round prec emax false mx ex).
Proof.
  intros He HK HL HKr. unfold binary_round.
  pose proof (shl_align_spec mx ex (fexp prec emax (Z.pos (digits2_pos mx) + ex))) as H.
  destruct (shl_align mx ex (fexp prec emax (Z.pos (digits2_pos mx) + ex))) as [mz ez].
  apply binary_round_aux_between; cbn [Zdigits2]; lia.
Qed.

Lemma float64_of_int_between n :
  0 < n < 2 ^ 63 -> sf_between 1 64 (Prim2SF (float64_of_int n)).
Proof.
  intros Hn. rewrite float64_of_int_spec by lia.
  destruct n as [|p|p]; try lia. cbn [binary_normalize].
  assert (Hd : 1 <= Z.pos (digits2_pos p) <= 63).
  { split; [lia|]. apply (Zdigits2_le (Z.pos p) 63); lia. }
  apply (binary_round_between p 0 1 63); lia.
Qed.

Lemma sf_between_weaken L L' K K' x :
  L' <= L -> K <= K' -> sf_between L K x -> sf_between L' K' x.
Proof. destruct x as [| | |[] m e]; cbn [sf_between]; intuition lia. Qed.

Lemma sf_between_positive L K x : sf_between L K x -> sf_positive x.
Proof. destruct x as [| | |[] m e]; cbn [sf_between sf_positive]; tauto. Qed.

Lemma Zdigits2_div_lower a b :
  0 <= a -> 0 < b -> Zdigits2 b < Zdigits2 a ->
  0 < a / b /\ Zdigits2 a - Zdigits2 b <= Zdigits2 (a / b) <= Zdigits2 a.
Proof.
  intros Ha0 Hb Hd.
  assert (Ha : 0 < a).
  { destruct a; cbn [Zdigits2] in Hd; pose proof (Zdigits2_nonneg b); lia. }
  pose proof (Zdigits2_gt b ltac:(lia)) as Hbu.
  assert (Hal : 2 ^ (Zdigits2 a - 1) <= a).
  { destruct a as [|p|p]; try lia. cbn [Zdigits2]. rewrite digits2_pos_log2.
    replace (Z.log2 (Z.pos p) + 1 - 1) with (Z.log2 (Z.pos p)) by lia.
    apply Z.log2_spec. lia. }
  pose proof (Zdigits2_nonneg b) as Hb0.
  set (k := Zdigits2 a - 1 - Zdigits2 b) in *.
  assert (Hk : 0 <= k) by (subst k; lia).
  assert (Hq : 2 ^ k <= a / b).
  { apply Z.div_le_lower_bound; [lia|].
    replace (Zdigits2 a - 1) with (k + Zdigits2 b) in Hal by (subst k; lia).
    rewrite Z.pow_add_r in Hal by lia.
    assert (0 < 2 ^ k) by (apply Z.pow_pos_nonneg; lia). nia. }
  assert (0 < 2 ^ k) by (apply Z.pow_pos_nonneg; lia).
  split; [lia|]. split.
  - destruct (a / b) as [|q|q] eqn:E; try lia.
    cbn [Zdigits2]. rewrite digits2_pos_log2.
    assert (k <= Z.log2 (Z.pos q)) by (apply Z.log2_le_pow2; lia).
    subst k. lia.
  - apply Zdigits2_mono. split; [lia|].
    apply Z.div_le_upper_bound; [lia|]. nia.
Qed.

Lemma SFdiv_between mx ex my ey L K :
  sf_between L K (S754_finite false mx ex) ->
  -1021 <= L - (Z.pos (digits2_pos my) + ey) ->
  K - (Z.pos (digits2_pos my) + ey) <= 1024 ->
  K - ey <= 1023 ->
  sf_between (L - (Z.pos (digits2_pos my) + ey)) (K - ey + 1)
    (SFdiv prec emax (S754_finite false mx ex) (S754_finite false my ey)).
Proof.
  intros Hx HL Hd HKr. cbn [sf_between] in Hx.
  cbn [SFdiv xorb]. unfold SFdiv_core_binary. cbn [Zdigits2].
  set (d1 := Z.pos (digits2_pos mx)) in *.
  set (d2 := Z.pos (digits2_pos my)) in *.
  rewrite fexp_binary64.
  set (e' := Z.min (Z.max (d1 + ex - (d2 + ey) - 53) (-1074)) (ex - ey)).
  set (m' := match ex - ey - e' with
             | 0 => Z.pos mx
             | Z.pos _ => Z.shiftl (Z.pos mx) (ex - ey - e')
             | Z.neg _ => 0
             end).
  assert (Hs : 53 - d1 + d2 <= ex - ey - e') by (subst e'; lia).
  assert (Hs0 : 0 <= ex - ey - e') by (subst e'; lia).
  assert (Hm' : 0 <= m' /\ Zdigits2 m' = d1 + (ex - ey - e')).
  { subst m'. destruct (ex - ey - e') as [|s|s] eqn:Es.
    - cbn [Zdigits2]. lia.
    - rewrite Zdigits2_shiftl by lia. cbn [Zdigits2].
      split; [apply Z.shiftl_nonneg|]; lia.
    - lia. }
  destruct Hm' as [Hm0 Hm'].
  destruct (Z.div_eucl m' (Z.pos my)) as [q r] eqn:Ed.
  assert (Hq : q = m' / Z.pos my) by (unfold Z.div; rewrite Ed; reflexivity).
  destruct (Zdigits2_div_lower m' (Z.pos my) Hm0 ltac:(lia)
              ltac:(cbn [Zdigits2]; fold d2; lia)) as (Hq0 & Hql & Hqu).
  rewrite <- Hq in *. cbn [Zdigits2] in Hql. fold d2 in Hql.
  apply binary_round_aux_between; subst e'; lia.
Qed.

Lemma SFadd_between x y L K :
  sf_between L K x -> (y = S754_zero false \/ sf_between L K y) ->
  -1073 <= L -> K <= 1021 ->
  sf_between L (K + 2) (SFadd prec emax x y).
Proof.
  intros Hx Hy HL HKr.
  destruct x as [| | |[] mx ex]; cbn [sf_between] in Hx; try contradiction.
  destruct Hy as [-> | Hy].
  { cbn [SFadd sf_between]. lia. }
  destruct y as [| | |[] my ey]; cbn [sf_between] in Hy; try contradiction.
  cbn [SFadd cond_Zopp].
  pose proof (shl_align_spec mx ex (Z.min ex ey)) as Ha.
  pose proof (shl_align_spec my ey (Z.min ex ey)) as Hb.
  unfold shl_align in *.
  set (a := fst (match Z.min ex ey - ex with
                 | Z.neg d => (Pos.iter xO mx d, Z.min ex ey)
                 | _ => (mx, ex) end)) in *.
  set (b := fst (match Z.min ex ey - ey with
                 | Z.neg d => (Pos.iter xO my d, Z.min ex ey)
                 | _ => (my, ey) end)) in *.
  assert (Da : Z.pos (digits2_pos a) + Z.min ex ey = Z.pos (digits2_pos mx) + ex).
  { subst a. destruct (Z.min ex ey - ex) eqn:E; cbn [fst] in *; lia. }
  assert (Db : Z.pos (digits2_pos b) + Z.min ex ey = Z.pos (digits2_pos my) + ey).
  { subst b. destruct (Z.min ex ey - ey) eqn:E; cbn [fst] in *; lia. }
  clear Ha Hb.
  change (Z.pos a + Z.pos b) with (Z.pos (a + b)). cbn [binary_normalize].
  assert (Hlo : Z.pos (digits2_pos a) <= Z.pos (digits2_pos (a + b))).
  { apply (Zdigits2_mono (Z.pos a) (Z.pos (a + b))). lia. }
  pose proof (Zdigits2_add (Z.pos a) (Z.pos b) (K - Z.min ex ey)
                ltac:(lia) ltac:(lia) ltac:(cbn [Zdigits2]; lia)
                ltac:(cbn [Zdigits2]; lia) (Z.pos (a + b)) ltac:(lia)) as Hup.
  cbn [Z.abs Zdigits2] in Hup.
  replace (K + 2) with ((K + 1) + 1) by lia.
  apply binary_round_between; lia.
Qed.

(** The hours and the minutes of a positive duration are positive and
    finite. *)
Lemma Hours_positive d :
  0 < d < 2 ^ 63 -> sf_positive (Prim2SF (Hours d)).
Proof.
  intros Hd. unfold Hours. rewrite add_spec, div_spec.
  change (Prim2SF 3600000000000) with (S754_finite false 7372800000000000 (-11)).
  change Hour with 3600000000000.
  pose proof (Z.quot_rem' d 3600000000000) as Hqr.
  pose proof (Z.rem_bound_pos d 3600000000000 ltac:(lia) ltac:(lia)) as Hrem.
  assert (Hq0 : 0 <= Z.quot d 3600000000000) by (apply Z.quot_pos; lia).
  assert (Hdiv : forall n, 0 < n < 2 ^ 63 ->
            sf_between (-41) 76
              (SFdiv prec emax (Prim2SF (float64_of_int n))
                 (S754_finite false 7372800000000000 (-11)))).
  { intros n Hn. pose proof (float64_of_int_between n Hn) as Hb.
    destruct (Prim2SF (float64_of_int n)) as [| | |[] m e];
      cbn [sf_between] in Hb; try contradiction.
    apply (SFdiv_between m e 7372800000000000 (-11) 1 64);
      [exact Hb | vm_compute; discriminate | vm_compute; discriminate | lia]. }
  destruct (Z.eq_dec (Z.rem d 3600000000000) 0) as [Hr0|Hr0].
  - (* whole hours *)
    rewrite Hr0.
    change (SF64div (Prim2SF (float64_of_int 0)) _) with (S754_zero false).
    apply (sf_between_positive 1 66).
    apply (SFadd_between _ _ 1 64); [|left; reflexivity|lia|lia].
    apply float64_of_int_between. lia.
  - destruct (Z.eq_dec (Z.quot d 3600000000000) 0) as [Hh0|Hh0].
    + (* less than an hour *)
      rewrite Hh0. change (Prim2SF (float64_of_int 0)) with (S754_zero false).
      specialize (Hdiv (Z.rem d 3600000000000) ltac:(lia)).
      unfold SF64add, SF64div.
      destruct (SFdiv prec emax _ _) as [| | |[] m e];
        cbn [sf_between] in Hdiv; try contradiction.
      exact I.
    + apply (sf_between_positive (-41) 78).
      apply (SFadd_between _ _ (-41) 76); [|right|lia|lia].
      * apply (sf_between_weaken 1 (-41) 64 76); [lia | lia|].
        apply float64_of_int_between. lia.
      * apply Hdiv. lia.
Qed.

Lemma Minutes_positive d :
  0 < d < 2 ^ 63 -> sf_positive (Prim2SF (Minutes d)).
Proof.
  intros Hd. unfold Minutes. rewrite add_spec, div_spec.
  change (Prim2SF 60000000000) with (S754_finite false 7864320000000000 (-17)).
  change Minute with 60000000000.
  pose proof (Z.quot_rem' d 60000000000) as Hqr.
  pose proof (Z.rem_bound_pos d 60000000000 ltac:(lia) ltac:(lia)) as Hrem.
  assert (Hq0 : 0 <= Z.quot d 60000000000) by (apply Z.quot_pos; lia).
  assert (Hdiv : forall n, 0 < n < 2 ^ 63 ->
            sf_between (-35) 82
              (SFdiv prec emax (Prim2SF (float64_of_int n))
                 (S754_finite false 7864320000000000 (-17)))).
  { intros n Hn. pose proof (float64_of_int_between n Hn) as Hb.
    destruct (Prim2SF (float64_of_int n)) as [| | |[] m e];
      cbn [sf_between] in Hb; try contradiction.
    apply (SFdiv_between m e 7864320000000000 (-17) 1 64);
      [exact Hb | vm_compute; discriminate | vm_compute; discriminate | lia]. }
  destruct (Z.eq_dec (Z.rem d 60000000000) 0) as [Hr0|Hr0].
  - rewrite Hr0.
    change (SF64div (Prim2SF (float64_of_int 0)) _) with (S754_zero false).
    apply (sf_between_positive 1 66).
    apply (SFadd_between _ _ 1 64); [|left; reflexivity|lia|lia].
    apply float64_of_int_between. lia.
  - destruct (Z.eq_dec (Z.quot d 60000000000) 0) as [Hh0|Hh0].
    + rewrite Hh0. change (Prim2SF (float64_of_int 0)) with (S754_zero false).
      specialize (Hdiv (Z.rem d 60000000000) ltac:(lia)).
      unfold SF64add, SF64div.
      destruct (SFdiv prec emax _ _) as [| | |[] m e];
        cbn [sf_between] in Hdiv; try contradiction.
      exact I.
    + apply (sf_between_positive (-35) 84).
      apply (SFadd_between _ _ (-35) 82); [|right|lia|lia].
      * apply (sf_between_weaken 1 (-35) 64 82); [lia | lia|].
        apply float64_of_int_between. lia.
      * apply Hdiv. lia.
Qed.

(** *** Signs through products and quotients *)

Lemma binary_round_aux_nonneg m e l :
  0 <= m -> sf_nonneg (binary_round_aux prec emax false m e l).
Proof.
  intros Hm. unfold binary_round_aux.
  assert (S : forall m0 e0 l0, 0 <= m0 ->
            0 <= shr_m (fst (shr_fexp prec emax m0 e0 l0))).
  { intros m0 e0 l0 H0. unfold shr_fexp, shr.
    assert (Hr : shr_m (shr_record_of_loc m0 l0) = m0)
      by (destruct l0 as [|[]]; reflexivity).
    destruct (fexp prec emax (Zdigits2 m0 + e0) - e0) as [|n|n]; cbn [fst];
      rewrite ?iter_shr_1_m by lia; rewrite Hr; [lia | apply Z.div_pos; lia | lia]. }
  pose proof (S m e l Hm) as H1.
  destruct (shr_fexp prec emax m e l) as [mrs1 e1]. cbn [fst] in H1.
  assert (H1' : 0 <= round_nearest_even (shr_m mrs1) (loc_of_shr_record mrs1)).
  { destruct (round_nearest_even_cases (shr_m mrs1) (loc_of_shr_record mrs1))
      as [->| ->]; lia. }
  pose proof (S _ e1 loc_Exact H1') as H2.
  destruct (shr_fexp prec emax _ e1 loc_Exact) as [mrs2 e2]. cbn [fst] in H2.
  destruct (shr_m mrs2) as [|p|p]; [exact I | | lia].
  destruct (e2 <=? emax - prec); exact I.
Qed.

Lemma SFmul_nonneg x y :
  (sf_nonneg x /\ sf_positive y) \/ (sf_positive x /\ sf_nonneg y) ->
  sf_nonneg (SFmul prec emax x y).
Proof.
  intros [[Hx Hy]|[Hx Hy]];
    destruct x as [[]|[]| |[] mx ex], y as [[]|[]| |[] my ey];
    cbn [sf_nonneg sf_positive] in Hx, Hy; try contradiction;
    cbn [SFmul xorb sf_nonneg]; try exact I;
    apply binary_round_aux_nonneg; lia.
Qed.

Lemma SFdiv_nonneg x y :
  sf_nonneg x -> sf_positive y -> sf_nonneg (SFdiv prec emax x y).
Proof.
  intros Hx Hy.
  destruct x as [[]|[]| |[] mx ex], y as [[]|[]| |[] my ey];
    cbn [sf_nonneg sf_positive] in Hx, Hy; try contradiction;
    cbn [SFdiv xorb sf_nonneg]; try exact I.
  unfold SFdiv_core_binary.
  match goal with
  | |- context [Z.div_eucl ?a ?b] =>
      assert (Ha : 0 <= a);
      [|destruct (Z.div_eucl a b) as [q r] eqn:Ed;
        assert (Hq : q = a / b) by (unfold Z.div; rewrite Ed; reflexivity)]
  end.
  - match goal with
    | |- 0 <= match ?s with _ => _ end =>
        destruct s; [lia | apply Z.shiftl_nonneg; lia | lia]
    end.
  - apply binary_round_aux_nonneg. subst q. apply Z.div_pos; lia.
Qed.

Lemma nonneg_leb (x : float64) : sf_nonneg (Prim2SF x) -> (0 <=? x)%float = true.
Proof.
  rewrite leb_spec. change (Prim2SF 0) with (S754_zero false).
  destruct (Prim2SF x) as [[]|[]| |[] m e]; cbn [sf_nonneg]; try contradiction;
    reflexivity.
Qed.

Lemma positive_finite_sf (x : float64) :
  (0 <? x)%float = true -> (x <? infinity)%float = true ->
  sf_positive (Prim2SF x).
Proof.
  intros H0 Hinf. destruct (positive_finite_shape x H0 Hinf) as (m & e & ->).
  exact I.
Qed.

Lemma sf_positive_nonneg x : sf_positive x -> sf_nonneg x.
Proof. destruct x as [[]|[]| |[] m e]; cbn [sf_positive sf_nonneg]; tauto. Qed.

Lemma distance_nonneg steps height :
  0 < steps < 2 ^ 63 -> sf_positive (Prim2SF height) ->
  sf_nonneg (Prim2SF (distance steps height)).
Proof.
  intros Hs Hh. unfold distance. rewrite div_spec, !mul_spec.
  apply SFdiv_nonneg; [|exact I].
  apply SFmul_nonneg. right. split.
  - apply (sf_between_positive 1 64), float64_of_int_between, Hs.
  - apply SFmul_nonneg. left. split; [apply sf_positive_nonneg, Hh | exact I].
Qed.

Lemma meanSpeed_nonneg steps height duration :
  0 < steps < 2 ^ 63 -> 0 < duration < 2 ^ 63 -> sf_positive (Prim2SF height) ->
  sf_nonneg (Prim2SF (meanSpeed steps height duration)).
Proof.
  intros Hs Hd Hh. unfold meanSpeed.
  replace (duration <=? 0) with false by (symmetry; apply Z.leb_gt; lia).
  rewrite div_spec.
  apply SFdiv_nonneg; [apply distance_nonneg; assumption | apply Hours_positive, Hd].
Qed.

Lemma running_value_nonneg steps weight height duration :
  0 < steps < 2 ^ 63 -> 0 < duration < 2 ^ 63 ->
  sf_positive (Prim2SF weight) -> sf_positive (Prim2SF height) ->
  sf_nonneg (Prim2SF (weight * meanSpeed steps height duration
                      * Minutes duration / minInH)%float).
Proof.
  intros Hs Hd Hw Hh. rewrite div_spec, !mul_spec.
  apply SFdiv_nonneg; [|exact I].
  apply SFmul_nonneg. left. split; [|apply Minutes_positive, Hd].
  apply SFmul_nonneg. right. split; [exact Hw|].
  apply meanSpeed_nonneg; assumption.
Qed.

(** X11. On valid inputs every metric is a number that is not negative:
    for a step count and a duration that are positive and fit 64 bits and
    a finite positive weight and height, the distance, the mean speed, the
    running calories and the walking calories are all >= 0, and neither
    calorie function reports an error. *)
Theorem metrics_nonnegative :
  forall (steps : int) (weight height : float64) (duration : Duration),
    0 < steps < 2 ^ 63 -> 0 < duration < 2 ^ 63 ->
    (0 <? weight)%float = true -> (weight <? infinity)%float = true ->
    (0 <? height)%float = true -> (height <? infinity)%float = true ->
    (0 <=? distance steps height)%float = true /\
    (0 <=? meanSpeed steps height duration)%float = true /\
    snd (RunningSpentCalories steps weight height duration) = None /\
    (0 <=? fst (RunningSpentCalories steps weight height duration))%float = true /\
    snd (WalkingSpentCalories steps weight height duration) = None /\
    (0 <=? fst (WalkingSpentCalories steps weight height duration))%float = true.
Proof.
  intros steps weight height duration Hs Hd Hw Hwf Hh Hhf.
  pose proof (positive_finite_sf weight Hw Hwf) as Pw.
  pose proof (positive_finite_sf height Hh Hhf) as Ph.
  split; [apply nonneg_leb, distance_nonneg; assumption|].
  split; [apply nonneg_leb, meanSpeed_nonneg; assumption|].
  unfold RunningSpentCalories, WalkingSpentCalories.
  replace (steps <=? 0) with false by (symmetry; apply Z.leb_gt; lia).
  replace (duration <=? 0) with false by (symmetry; apply Z.leb_gt; lia).
  rewrite (positive_not_le_zero weight Hw), (positive_not_le_zero height Hh).
  cbn [fst snd].
  split; [reflexivity|].
  split; [apply nonneg_leb, running_value_nonneg; assumption|].
  split; [reflexivity|].
  apply nonneg_leb. rewrite mul_spec.
  apply SFmul_nonneg. left. split; [|exact I].
  apply running_value_nonneg; assumption.
Qed.

Lemma metrics_nonnegative_witness :
  (0 <=? distance 1000 1.75)%float = true /\
  (0 <=? meanSpeed 1000 1.75 (10 * Minute))%float = true /\
  snd (RunningSpentCalories 1000 70 1.75 (10 * Minute)) = None /\
  (0 <=? fst (RunningSpentCalories 1000 70 1.75 (10 * Minute)))%float = true /\
  snd (WalkingSpentCalories 1000 70 1.75 (10 * Minute)) = None /\
  (0 <=? fst (WalkingSpentCalories 1000 70 1.75 (10 * Minute)))%float = true.
Proof.
  apply metrics_nonnegative; vm_compute; first [reflexivity | split; reflexivity].
Defined.

Lemma parseTraining_range data steps activity d :
  parseTraining data = (steps, activity, d, None) ->
  0 < steps < 2 ^ 63 /\ 0 < d < 2 ^ 63.
Proof.
  intros H. destruct (parseTraining_ok _ _ _ _ H) as [Hs Hd]. revert H.
  unfold parseTraining.
  destruct (strings.Split data ",") as [|p0 [|p1 [|p2 [|p3 rest]]]]; try discriminate.
  destruct (strconv.Atoi p0) as [n [e|]] eqn:EA; [discriminate|].
  destruct (n <=? 0); [discriminate|].
  destruct (ParseDuration p2) as [d' [e|]] eqn:ED; [discriminate|].
  destruct (d' <=? 0); [discriminate|].
  intros H. inversion H; subst n p1 d'.
  apply Atoi_ok in EA. apply ParseDuration_range in ED. lia.
Qed.

Lemma parsePackage_range data steps d :
  parsePackage data = (steps, d, None) ->
  0 < steps < 2 ^ 63 /\ 0 < d < 2 ^ 63.
Proof.
  intros H. destruct (parsePackage_ok _ _ _ H) as [Hs Hd]. revert H.
  unfold parsePackage.
  destruct (strings.Split data ",") as [|p0 [|p1 [|p2 rest]]]; try discriminate.
  destruct (strconv.Atoi p0) as [n [e|]] eqn:EA; [discriminate|].
  destruct (n <=? 0); [discriminate|].
  destruct (ParseDuration p1) as [d' [e|]] eqn:ED; [discriminate|].
  destruct (d' <=? 0); [discriminate|].
  intros H. inversion H; subst n d'.
  apply Atoi_ok in EA. apply ParseDuration_range in ED. lia.
Qed.

Lemma calories_valid steps weight height d :
  0 < steps < 2 ^ 63 -> 0 < d < 2 ^ 63 ->
  (0 <? weight)%float = true -> (weight <? infinity)%float = true ->
  (0 <? height)%float = true -> (height <? infinity)%float = true ->
  (exists c, RunningSpentCalories steps weight height d = (c, None)
             /\ sf_nonneg (Prim2SF c)) /\
  (exists c, WalkingSpentCalories steps weight height d = (c, None)
             /\ sf_nonneg (Prim2SF c)).
Proof.
  intros Hs Hd Hw Hwf Hh Hhf.
  pose proof (positive_finite_sf weight Hw Hwf) as Pw.
  pose proof (positive_finite_sf height Hh Hhf) as Ph.
  unfold RunningSpentCalories, WalkingSpentCalories.
  replace (steps <=? 0) with false by (symmetry; apply Z.leb_gt; lia).
  replace (d <=? 0) with false by (symmetry; apply Z.leb_gt; lia).
  rewrite (positive_not_le_zero weight Hw), (positive_not_le_zero height Hh).
  split; eexists; (split; [reflexivity|]).
  - apply running_value_nonneg; assumption.
  - rewrite mul_spec. apply SFmul_nonneg. left. split; [|exact I].
    apply running_value_nonneg; assumption.
Qed.

(** The verb [%.2f] writes a minus sign only for a set sign bit. *)
Lemma roundHalfEven_nonneg num den :
  0 <= num -> 0 < den -> 0 <= fmt.roundHalfEven num den.
Proof.
  intros Hn Hd. unfold fmt.roundHalfEven. cbv zeta.
  pose proof (Z.div_pos num den Hn Hd) as Hq.
  destruct (2 * (num mod den) ?= den); [destruct (Z.even (num / den))|..]; lia.
Qed.

Lemma verb_d_unsigned n text :
  0 <= n -> minusShown (fmt.verb_d n ++ text) = false.
Proof.
  intros Hn. destruct (verb_d_digits n Hn) as (Hne & Hd & _).
  destruct (digits_head _ Hne Hd) as (c & s' & -> & Hc).
  cbn [append minusShown]. exact (proj1 (isDigit_not_punct c Hc)).
Qed.

Lemma verb_2f_unsigned (v : float64) :
  sf_nonneg (Prim2SF v) -> minusShown (fmt.verb_2f v) = false.
Proof.
  unfold fmt.verb_2f.
  destruct (Prim2SF v) as [[]|[]| |[] m e]; cbn [sf_nonneg]; try contradiction;
    intros _; try reflexivity.
  cbv zeta. change ("" ++ ?x) with x. apply verb_d_unsigned.
  apply Z.div_pos; [|lia].
  destruct (0 <=? e) eqn:Ee.
  - apply Z.leb_le in Ee. pose proof (Z.pow_nonneg 2 e ltac:(lia)). nia.
  - apply Z.leb_gt in Ee. apply roundHalfEven_nonneg; [lia|].
    apply Z.pow_pos_nonneg; lia.
Qed.

Lemma nonneg_shown (v : float64) :
  sf_nonneg (Prim2SF v) -> shownNonNegative v.
Proof.
  intros H. split; [apply nonneg_leb, H | apply verb_2f_unsigned, H].
Qed.

(** X12. With a finite positive weight and height, no number in a
    report is negative, NaN or written with a minus sign: a report of
    TrainingInfo is the template filled with the hours, the distance and
    the mean speed of the parsed record and the calories that
    RunningSpentCalories or WalkingSpentCalories returned for it, and a
    report of DayActionInfo is its template filled with the parsed steps,
    the kilometers and the calories that WalkingSpentCalories returned;
    the step count is positive and every other value is >= 0 and rendered
    without a sign. *)
Theorem reports_show_nonnegative_numbers :
  forall (data : string) (weight height : float64),
    (0 <? weight)%float = true -> (weight <? infinity)%float = true ->
    (0 <? height)%float = true -> (height <? infinity)%float = true ->
    (forall report,
       TrainingInfo data weight height = (report, None) ->
       exists steps activity d calories,
         parseTraining data = (steps, activity, d, None) /\
         ((activity = running /\
           RunningSpentCalories steps weight height d = (calories, None))
          \/ (activity = walking /\
              WalkingSpentCalories steps weight height d = (calories, None))) /\
         report = trainingText activity (Hours d) (distance steps height)
                    (meanSpeed steps height d) calories /\
         shownNonNegative (Hours d) /\
         shownNonNegative (distance steps height) /\
         shownNonNegative (meanSpeed steps height d) /\
         shownNonNegative calories) /\
    (forall report,
       fst (DayActionInfo data weight height) = report -> report <> "" ->
       exists steps d calories,
         parsePackage data = (steps, d, None) /\
         WalkingSpentCalories steps weight height d = (calories, None) /\
         report = dayText steps (float64_of_int steps * 0.65 / 1000)%float calories /\
         0 < steps /\
         shownNonNegative (float64_of_int steps * 0.65 / 1000)%float /\
         shownNonNegative calories).
Proof.
  intros data weight height Hw Hwf Hh Hhf. split.
  - intros report. unfold TrainingInfo.
    destruct (parseTraining data) as [[[steps activity] d] [e|]] eqn:Hparse;
      [discriminate|].
    destruct (parseTraining_range _ _ _ _ Hparse) as [Hs Hd].
    pose proof (positive_finite_sf height Hh Hhf) as Ph.
    destruct (calories_valid steps weight height d Hs Hd Hw Hwf Hh Hhf)
      as ((cr & Hrun & Hrn) & (cw & Hwalk & Hwn)).
    assert (Hdist : shownNonNegative (distance steps height))
      by (apply nonneg_shown, distance_nonneg; assumption).
    assert (Hspeed : shownNonNegative (meanSpeed steps height d))
      by (apply nonneg_shown, meanSpeed_nonneg; assumption).
    assert (Hhours : shownNonNegative (Hours d))
      by (apply nonneg_shown, sf_positive_nonneg, Hours_positive, Hd).
    destruct (String.eqb activity running) eqn:Er.
    + apply String.eqb_eq in Er. rewrite Hrun. intros H. inversion H; subst report.
      exists steps, activity, d, cr.
      split; [reflexivity|]. split; [left; split; [exact Er | exact Hrun]|].
      repeat (split; [first [reflexivity | assumption]|]).
      apply nonneg_shown, Hrn.
    + destruct (String.eqb activity walking) eqn:Ew; [|discriminate].
      apply String.eqb_eq in Ew. rewrite Hwalk. intros H. inversion H; subst report.
      exists steps, activity, d, cw.
      split; [reflexivity|]. split; [right; split; [exact Ew | exact Hwalk]|].
      repeat (split; [first [reflexivity | assumption]|]).
      apply nonneg_shown, Hwn.
  - intros report <- Hne. unfold DayActionInfo in *.
    destruct (parsePackage data) as [[steps d] [e|]] eqn:Hparse;
      [exfalso; apply Hne; reflexivity|].
    destruct (parsePackage_range _ _ _ Hparse) as [Hs Hd].
    destruct (calories_valid steps weight height d Hs Hd Hw Hwf Hh Hhf)
      as (_ & (cw & Hwalk & Hwn)).
    destruct (steps <=? 0); [exfalso; apply Hne; reflexivity|].
    rewrite Hwalk in Hne |- *. exists steps, d, cw.
    split; [reflexivity|]. split; [exact Hwalk|]. split; [reflexivity|].
    split; [exact (proj1 Hs)|].
    split; [|apply nonneg_shown, Hwn].
    apply nonneg_shown. rewrite div_spec, mul_spec.
    apply SFdiv_nonneg; [|exact I].
    apply SFmul_nonneg. right. split; [|exact I].
    apply (sf_between_positive 1 64), float64_of_int_between, Hs.
Qed.

Lemma reports_show_nonnegative_numbers_witness :
  exists steps activity d calories,
    parseTraining "3456,Бег,3h00m" = (steps, activity, d, None) /\
    ((activity = running /\
      RunningSpentCalories steps 75 1.8 d = (calories, None))
     \/ (activity = walking /\
         WalkingSpentCalories steps 75 1.8 d = (calories, None))) /\
    "Тип тренировки: Бег
Длительность: 3.00 ч.
Дистанция: 2.80 км.
Скорость: 0.93 км/ч
Сожгли калорий: 209.95
" = trainingText activity (Hours d) (distance steps 1.8)
      (meanSpeed steps 1.8 d) calories /\
    shownNonNegative (Hours d) /\
    shownNonNegative (distance steps 1.8) /\
    shownNonNegative (meanSpeed steps 1.8 d) /\
    shownNonNegative calories.
Proof.
  apply (proj1 (reports_show_nonnegative_numbers "3456,Бег,3h00m" 75 1.8
                  eq_refl eq_refl eq_refl eq_refl)).
  vm_compute. reflexivity.
Defined.

(** ** A duration needs a unit *)

Lemma leadingIntLoop_all_digits s : forall acc,
  allDigits s = true ->
  leadingIntLoop s acc = None \/ exists v, leadingIntLoop s acc = Some (v, "").
Proof.
  induction s as [|c rest IH]; intros acc H; cbn [leadingIntLoop].
  - right. eexists. reflexivity.
  - cbn [allDigits] in H. apply andb_true_iff in H. destruct H as [-> Hr].
    cbn [negb]. split_if; [left; reflexivity|].
    split_if; [left; reflexivity|]. apply IH, Hr.
Qed.

Lemma ParseDuration_bare_number s :
  nonEmpty s = true -> allDigits s = true ->
  ParseDuration s = (0, None) \/ snd (ParseDuration s) <> None.
Proof.
  intros Hne Hd. destruct (digits_head s Hne Hd) as (c & s' & -> & Hc).
  destruct (isDigit_not_punct c Hc) as (Em & Ep & _ & _).
  unfold ParseDuration. cbn [afterSign]. rewrite Em, Ep. cbn [orb].
  destruct (String.eqb (String c s') "0"); [left; reflexivity|].
  right. cbn [nonEmpty negb String.length durationLoop].
  assert (G : exists e, durationGroup (String c s') (String c s') = inl e).
  { unfold durationGroup. rewrite Hc, orb_true_r. cbn [negb].
    unfold leadingInt.
    destruct (leadingIntLoop_all_digits (String c s') 0 Hd) as [-> | [v ->]];
      [eexists; reflexivity|].
    cbn [fractionPart]. split_if; [eexists; reflexivity|].
    cbn [unitSpan nonEmpty negb]. eexists; reflexivity. }
  destruct G as [e ->]. discriminate.
Qed.

(** X13. A duration field made of digits only is never accepted: both
    parsers fail on a record whose last field is a bare number, whatever
    the other fields are. *)
Theorem bare_number_duration_rejected :
  forall (count label span : string),
    commaFree count = true -> commaFree label = true ->
    nonEmpty span = true -> allDigits span = true ->
    snd (parsePackage (count ++ "," ++ span)) <> None /\
    snd (parseTraining (count ++ "," ++ label ++ "," ++ span)) <> None.
Proof.
  intros count label span Hc Hl Hne Hd.
  pose proof (allDigits_commaFree span Hd) as Hs.
  unfold parsePackage, parseTraining.
  rewrite (Split_two _ _ Hc Hs), (Split_three _ _ _ Hc Hl Hs).
  destruct (strconv.Atoi count) as [n [e|]]; [split; discriminate|].
  destruct (n <=? 0); [split; discriminate|].
  destruct (ParseDuration_bare_number span Hne Hd) as [-> | Hbad].
  - split; discriminate.
  - destruct (ParseDuration span) as [d [e|]]; [split; discriminate|].
    exfalso. apply Hbad. reflexivity.
Qed.

Lemma bare_number_duration_rejected_witness :
  snd (parsePackage ("678" ++ "," ++ "50")) <> None /\
  snd (parseTraining ("678" ++ "," ++ walking ++ "," ++ "50")) <> None.
Proof.
  apply (bare_number_duration_rejected "678" walking "50"); reflexivity.
Defined.

(** ** Reports in closed form *)

(** X14. In every report the zero guard of meanSpeed and the step and
    duration checks of the calorie functions have not fired: a report of
    TrainingInfo shows the distance, the distance divided by the hours, and
    weight x speed x minutes / 60 (halved for walking); a report of
    DayActionInfo shows the fixed-step kilometers and those halved
    calories, computed from the height-based distance. *)
Theorem reports_closed_form :
  forall (data : string) (weight height : float64),
    (forall report,
       TrainingInfo data weight height = (report, None) ->
       exists steps activity d,
         parseTraining data = (steps, activity, d, None) /\
         report =
           trainingText activity (Hours d) (distance steps height)
             (distance steps height / Hours d)%float
             (if String.eqb activity running
              then (weight * (distance steps height / Hours d) * Minutes d / 60)%float
              else (weight * (distance steps height / Hours d) * Minutes d / 60
                    * 0.5)%float)) /\
    (forall report,
       fst (DayActionInfo data weight height) = report -> report <> "" ->
       exists steps d,
         parsePackage data = (steps, d, None) /\
         report =
           dayText steps (float64_of_int steps * 0.65 / 1000)%float
             (weight * (distance steps height / Hours d) * Minutes d / 60
              * 0.5)%float).
Proof.
  intros data weight height. split.
  - intros report. unfold TrainingInfo.
    destruct (parseTraining data) as [[[steps activity] d] [e|]] eqn:Hparse;
      [discriminate|].
    destruct (parseTraining_ok _ _ _ _ Hparse) as [Hs Hd].
    apply Z.leb_gt in Hs, Hd.
    unfold RunningSpentCalories, WalkingSpentCalories, meanSpeed.
    rewrite Hs, Hd.
    destruct (String.eqb activity running) eqn:Er.
    + destruct (weight <=? 0)%float; [discriminate|].
      intros H. inversion H. exists steps, activity, d. rewrite Er.
      split; reflexivity.
    + destruct (String.eqb activity walking); [|discriminate].
      destruct (weight <=? 0)%float; [discriminate|].
      destruct (height <=? 0)%float; [discriminate|].
      intros H. inversion H. exists steps, activity, d. rewrite Er.
      split; reflexivity.
  - intros report <- Hne. unfold DayActionInfo in *.
    destruct (parsePackage data) as [[steps d] [e|]] eqn:Hparse;
      [exfalso; apply Hne; reflexivity|].
    destruct (parsePackage_ok _ _ _ Hparse) as [Hs Hd].
    apply Z.leb_gt in Hs, Hd.
    unfold WalkingSpentCalories, meanSpeed in *. rewrite Hs, Hd in *.
    destruct (weight <=? 0)%float; [exfalso; apply Hne; reflexivity|].
    destruct (height <=? 0)%float; [exfalso; apply Hne; reflexivity|].
    exists steps, d. split; reflexivity.
Qed.

Lemma reports_closed_form_witness :
  exists steps d,
    parsePackage "678,0h50m" = (steps, d, None) /\
    "Количество шагов: 678.
Дистанция составила 0.44 км.
Вы сожгли 20.02 ккал.
" = dayText steps (float64_of_int steps * 0.65 / 1000)%float
      (75 * (distance steps 1.75 / Hours d) * Minutes d / 60 * 0.5)%float.
Proof.
  apply (proj2 (reports_closed_form "678,0h50m" 75 1.75)).
  - vm_compute. reflexivity.
  - discriminate.
Defined.

(** ** Minus signs *)

Lemma Atoi_minus_nonpos body n :
  strconv.Atoi (String "-" body) = (n, None) -> n <= 0.
Proof.
  intros H. apply Atoi_ok in H. destruct H as [_ [b [_ [Hd [[E _]|[[E _]|[E ->]]]]]]].
  - subst b. cbn in Hd. discriminate.
  - discriminate.
  - pose proof (decimalValue_ge b 0 Hd ltac:(lia)). lia.
Qed.

Lemma ParseDuration_minus_nonpos body d :
  ParseDuration (String "-" body) = (d, None) -> d <= 0.
Proof.
  unfold ParseDuration.
  destruct (String.eqb (afterSign (String "-" body)) "0"); [intros H; inversion H; lia|].
  destruct (negb (nonEmpty (afterSign (String "-" body)))); [discriminate|].
  destruct (durationLoop _ _ (afterSign (String "-" body)) 0) as [t|e|] eqn:EL;
    try discriminate.
  apply durationLoop_range in EL; [|lia].
  change (Ascii.eqb "-" "-") with true. cbv iota.
  intros H. inversion H. lia.
Qed.

(** X15. A minus sign is never accepted: a record whose count field or
    whose duration field starts with [-] is rejected by both parsers,
    whatever follows the sign, so no negative number passes as a wrapped
    positive one. *)
Theorem minus_sign_rejected :
  forall (count label span : string),
    commaFree count = true -> commaFree label = true -> commaFree span = true ->
    (snd (parsePackage (String "-" count ++ "," ++ span)) <> None /\
     snd (parseTraining (String "-" count ++ "," ++ label ++ "," ++ span)) <> None) /\
    (snd (parsePackage (count ++ "," ++ String "-" span)) <> None /\
     snd (parseTraining (count ++ "," ++ label ++ "," ++ String "-" span)) <> None).
Proof.
  intros count label span Hc Hl Hs.
  assert (Hc' : commaFree (String "-" count) = true) by (cbn; exact Hc).
  assert (Hs' : commaFree (String "-" span) = true) by (cbn; exact Hs).
  unfold parsePackage, parseTraining.
  rewrite (Split_two _ _ Hc' Hs), (Split_three _ _ _ Hc' Hl Hs).
  rewrite (Split_two _ _ Hc Hs'), (Split_three _ _ _ Hc Hl Hs').
  split.
  - destruct (strconv.Atoi (String "-" count)) as [n [e|]] eqn:Ea; [split; discriminate|].
    apply Atoi_minus_nonpos in Ea. apply Z.leb_le in Ea. rewrite Ea.
    split; discriminate.
  - destruct (strconv.Atoi count) as [n [e|]]; [split; discriminate|].
    destruct (n <=? 0); [split; discriminate|].
    destruct (ParseDuration (String "-" span)) as [d [e|]] eqn:Ed; [split; discriminate|].
    apply ParseDuration_minus_nonpos in Ed. apply Z.leb_le in Ed. rewrite Ed.
    split; discriminate.
Qed.

Lemma minus_sign_rejected_witness :
  (snd (parsePackage (String "-" "678" ++ "," ++ "0h50m")) <> None /\
   snd (parseTraining (String "-" "678" ++ "," ++ walking ++ "," ++ "0h50m")) <> None) /\
  (snd (parsePackage ("678" ++ "," ++ String "-" "0h50m")) <> None /\
   snd (parseTraining ("678" ++ "," ++ walking ++ "," ++ String "-" "0h50m")) <> None).
Proof.
  apply (minus_sign_rejected "678" walking "0h50m"); reflexivity.
Defined.

(** ** The parsers against the grammar of the specification *)

(** [strconv.Atoi] accepts exactly the integers that fit 64 bits. *)
Lemma parseUintLoop_never_syntax s : forall acc,
  allDigits s = true -> strconv.parseUintLoop s acc <> inl false.
Proof.
  induction s as [|c rest IH]; intros acc H; cbn [strconv.parseUintLoop].
  - discriminate.
  - cbn [allDigits] in H. apply andb_true_iff in H. destruct H as [Hc Hr].
    rewrite Hc. cbn [negb].
    split_if; [discriminate|]. split_if; [discriminate|]. apply IH, Hr.
Qed.

Lemma Atoi_signed_digits (sign : ascii) body :
  sign = "-"%char \/ sign = "+"%char ->
  nonEmpty body = true -> allDigits body = true ->
  decimalValue body 0 <= (if Ascii.eqb sign "-" then 2 ^ 63 else 2 ^ 63 - 1) ->
  strconv.Atoi (String sign body)
  = (if Ascii.eqb sign "-" then - decimalValue body 0 else decimalValue body 0, None).
Proof.
  intros Hsign Hne Hd Hv.
  pose proof (decimalValue_ge _ 0 Hd ltac:(lia)) as Hge.
  unfold strconv.Atoi. cbv zeta.
  destruct (Nat.ltb 0 (String.length (String sign body))
            && Nat.ltb (String.length (String sign body)) 19)%bool.
  - replace (Ascii.eqb sign "-" || Ascii.eqb sign "+")%bool with true
      by (destruct Hsign as [-> | ->]; reflexivity).
    rewrite Hne. cbn [negb andb].
    rewrite (atoiLoop_digits _ 0 Hd). reflexivity.
  - unfold strconv.ParseInt. cbv zeta.
    replace (Ascii.eqb sign "+" || Ascii.eqb sign "-")%bool with true
      by (destruct Hsign as [-> | ->]; reflexivity).
    destruct body as [|c0 body']; [discriminate|].
    revert Hv. destruct (Ascii.eqb sign "-"); intros Hv;
      (rewrite (parseUintLoop_digits _ 0 Hd ltac:(lia));
       [|change strconv.maxUint64 with 18446744073709551615; lia]);
      cbn [negb andb].
    + replace (2 ^ 63 <? decimalValue (String c0 body') 0) with false
        by (symmetry; apply Z.ltb_ge; lia).
      reflexivity.
    + replace (2 ^ 63 <=? decimalValue (String c0 body') 0) with false
        by (symmetry; apply Z.leb_gt; lia).
      reflexivity.
Qed.

Lemma Atoi_integer s n :
  strconv.Atoi s = (n, None) <->
  specInteger s = Some n /\ - 2 ^ 63 <= n < 2 ^ 63.
Proof.
  split.
  - intros H. destruct (Atoi_ok s n H) as [Hr (body & Hne & Hd & Hshape)].
    split; [|exact Hr].
    destruct Hshape as [[-> ->]|[[-> ->]|[-> ->]]].
    + destruct body as [|c rest]; [discriminate|].
      pose proof Hd as Hd'. cbn [allDigits] in Hd'. apply andb_true_iff in Hd'.
      destruct (isDigit_not_punct c (proj1 Hd')) as (Em & Ep & _).
      unfold specInteger. rewrite Em, Ep, Hd. reflexivity.
    + unfold specInteger. change (Ascii.eqb "+" "-") with false.
      change (Ascii.eqb "+" "+") with true. cbv iota. rewrite Hne, Hd. reflexivity.
    + unfold specInteger. change (Ascii.eqb "-" "-") with true.
      cbv iota. rewrite Hne, Hd. reflexivity.
  - intros [Hi Hr]. destruct s as [|c rest]; [discriminate|].
    unfold specInteger in Hi.
    destruct (Ascii.eqb c "-") eqn:Em.
    + apply Ascii.eqb_eq in Em. subst c.
      destruct (nonEmpty rest && allDigits rest)%bool eqn:E; [|discriminate].
      apply andb_true_iff in E. destruct E as [Hne Hd].
      injection Hi as <-.
      rewrite (Atoi_signed_digits "-" rest (or_introl eq_refl) Hne Hd).
      * reflexivity.
      * change (Ascii.eqb "-" "-") with true. cbv iota. lia.
    + destruct (Ascii.eqb c "+") eqn:Ep.
      * apply Ascii.eqb_eq in Ep. subst c.
        destruct (nonEmpty rest && allDigits rest)%bool eqn:E; [|discriminate].
        apply andb_true_iff in E. destruct E as [Hne Hd].
        injection Hi as <-.
        rewrite (Atoi_signed_digits "+" rest (or_intror eq_refl) Hne Hd).
        -- reflexivity.
        -- change (Ascii.eqb "+" "-") with false. cbv iota. lia.
      * destruct (allDigits (String c rest)) eqn:Hd; [|discriminate].
        injection Hi as <-.
        apply Atoi_digits; [reflexivity | exact Hd | exact (proj2 Hr)].
Qed.

(** The first field as the parsers judge it: rejected, or not positive,
    exactly when it is no integer or an integer outside [(0, 2^63)]. *)
Lemma Atoi_bad_count p :
  (snd (strconv.Atoi p) <> None \/ fst (strconv.Atoi p) <= 0) <->
  match specInteger p with
  | Some n => n <= 0 \/ 2 ^ 63 <= n
  | None => True
  end.
Proof.
  destruct (strconv.Atoi p) as [n [e|]] eqn:EA; cbn [fst snd].
  - split; [intros _ | intros _; left; discriminate].
    destruct (specInteger p) as [m|] eqn:Em; [|exact I].
    destruct (Z_le_gt_dec m 0) as [|Hpos]; [left; assumption|].
    destruct (Z_lt_le_dec m (2 ^ 63)) as [Hlt|]; [|right; assumption].
    exfalso. assert (H : strconv.Atoi p = (m, None))
      by (apply Atoi_integer; split; [exact Em | lia]).
    rewrite EA in H. discriminate.
  - apply Atoi_integer in EA. destruct EA as [-> Hr]. split.
    + intros [H|H]; [exfalso; apply H; reflexivity | left; exact H].
    + intros [H|H]; [right; exact H | lia].
Qed.

Lemma Atoi_good_count p n :
  strconv.Atoi p = (n, None) -> specInteger p = Some n.
Proof. intros H. apply Atoi_integer in H. exact (proj1 H). Qed.

(** [time.ParseDuration] on the duration literals of the specification. *)
Lemma specDurationPairs_number s : forall acc t0 t,
  specDurationPairs s (Some acc) t0 = Some t ->
  exists digits (u : ascii) rest unit,
    s = digits ++ String u rest /\ allDigits digits = true /\
    isDigit u = false /\ Ascii.eqb u "." = false /\
    unitMap (String u "") = Some unit /\ (unit = Hour \/ unit = Minute) /\
    specDurationPairs rest None (t0 + decimalValue digits acc * unit) = Some t.
Proof.
  induction s as [|c r IH]; intros acc t0 t H; cbn [specDurationPairs] in H.
  - discriminate.
  - destruct (isDigit c) eqn:Hc.
    + apply IH in H.
      destruct H as (digits & u & rest & unit & -> & Hd & Hu & Hdot & Hm & Hunit & H).
      exists (String c digits), u, rest, unit.
      cbn [append allDigits decimalValue]. rewrite Hc, Hd.
      repeat split; assumption.
    + destruct (Ascii.eqb c "h") eqn:Eh.
      * apply Ascii.eqb_eq in Eh. subst c.
        exists "", "h"%char, r, Hour. repeat split; auto.
      * destruct (Ascii.eqb c "m") eqn:Emin; [|discriminate].
        apply Ascii.eqb_eq in Emin. subst c.
        exists "", "m"%char, r, Minute. repeat split; auto.
Qed.

Lemma specDurationPairs_group s t0 t :
  nonEmpty s = true -> specDurationPairs s None t0 = Some t ->
  exists digits (u : ascii) rest unit,
    s = digits ++ String u rest /\
    nonEmpty digits = true /\ allDigits digits = true /\
    isDigit u = false /\ Ascii.eqb u "." = false /\
    unitMap (String u "") = Some unit /\ (unit = Hour \/ unit = Minute) /\
    specDurationPairs rest None (t0 + decimalValue digits 0 * unit) = Some t.
Proof.
  destruct s as [|c r]; [discriminate|]. intros _ H.
  cbn [specDurationPairs] in H.
  destruct (isDigit c) eqn:Hc; [|discriminate].
  apply specDurationPairs_number in H.
  destruct H as (digits & u & rest & unit & -> & Hd & Hu & Hdot & Hm & Hunit & H).
  exists (String c digits), u, rest, unit.
  cbn [append allDigits decimalValue nonEmpty]. rewrite Hc, Hd.
  repeat split; assumption.
Qed.

Lemma specDurationPairs_head s t0 t :
  specDurationPairs s None t0 = Some t ->
  match s with String c _ => isDigit c = true | EmptyString => True end.
Proof.
  destruct s as [|c r]; [intros _; exact I|]. cbn [specDurationPairs].
  destruct (isDigit c); [reflexivity | discriminate].
Qed.

Lemma specDurationPairs_ge s : forall number t0 t,
  match number with Some v => 0 <= v | None => True end ->
  specDurationPairs s number t0 = Some t -> t0 <= t.
Proof.
  induction s as [|c r IH]; intros number t0 t Hn H; cbn [specDurationPairs] in H.
  - destruct number; [discriminate|]. injection H as <-. lia.
  - destruct (isDigit c) eqn:Hc.
    + apply IH in H; [exact H|].
      pose proof (digitVal_range c Hc). destruct number; lia.
    + destruct number as [v|]; [|discriminate].
      change Hour with 3600000000000 in H. change Minute with 60000000000 in H.
      destruct (Ascii.eqb c "h").
      * apply IH in H; [lia | exact I].
      * destruct (Ascii.eqb c "m"); [|discriminate].
        apply IH in H; [lia | exact I].
Qed.

Lemma leadingIntLoop_overflow s t : forall acc,
  allDigits s = true -> 0 <= acc <= 2 ^ 63 -> 2 ^ 63 < decimalValue s acc ->
  leadingIntLoop (s ++ t) acc = None.
Proof.
  induction s as [|c rest IH]; intros acc Hd Hacc Hv;
    cbn [append decimalValue] in Hv |- *.
  - lia.
  - cbn [allDigits] in Hd. apply andb_true_iff in Hd. destruct Hd as [Hc Hr].
    pose proof (digitVal_range c Hc) as Hdv.
    cbn [leadingIntLoop]. rewrite Hc. cbn [negb].
    split_if; [reflexivity|]. split_if; [reflexivity|].
    apply IH; [exact Hr | lia | exact Hv].
Qed.

(** One group whose value does not fit is refused. *)
Lemma durationGroup_digits_overflow orig s (c : ascii) rest unit :
  nonEmpty s = true -> allDigits s = true ->
  isDigit c = false -> Ascii.eqb c "." = false ->
  unitMap (String c "") = Some unit -> 0 < unit ->
  match rest with String c' _ => isDigit c' = true | EmptyString => True end ->
  2 ^ 63 < decimalValue s 0 * unit ->
  durationGroup orig (s ++ String c rest) = inl (invalidDuration orig).
Proof.
  intros Hne Hd Hc Hdot Hunit Hupos Hrest Hv.
  pose proof (decimalValue_ge s 0 Hd ltac:(lia)) as Hge.
  destruct s as [|c0 s']; [discriminate|].
  pose proof Hd as Hd'. cbn [allDigits] in Hd'. apply andb_true_iff in Hd'.
  destruct Hd' as [Hc0 _].
  change (String c0 s' ++ String c rest) with (String c0 (s' ++ String c rest)).
  unfold durationGroup.
  rewrite Hc0, orb_true_r. cbn [negb].
  change (String c0 (s' ++ String c rest)) with (String c0 s' ++ String c rest).
  unfold leadingInt.
  destruct (Z_le_gt_dec (decimalValue (String c0 s') 0) (2 ^ 63)) as [Hle|Hgt].
  - rewrite (leadingIntLoop_digits (String c0 s') (String c rest) 0 Hd Hc ltac:(lia) Hle).
    assert (Hpre : Nat.eqb (String.length (String c0 s' ++ String c rest))
                     (String.length (String c rest)) = false).
    { apply Nat.eqb_neq. rewrite length_append. cbn [String.length]. lia. }
    rewrite Hpre. unfold fractionPart. rewrite Hdot. cbn [negb andb].
    assert (Hspan : unitSpan (String c rest) = (String c "", rest)).
    { cbn [unitSpan]. rewrite Hdot, Hc. cbn [orb].
      destruct rest as [|c' r']; cbn [unitSpan]; [reflexivity|].
      rewrite Hrest, orb_true_r. reflexivity. }
    rewrite Hspan. cbn [nonEmpty negb]. rewrite Hunit.
    replace (2 ^ 63 / unit <? decimalValue (String c0 s') 0) with true.
    + reflexivity.
    + symmetry. apply Z.ltb_lt. apply Z.div_lt_upper_bound; lia.
  - rewrite (leadingIntLoop_overflow (String c0 s') (String c rest) 0 Hd); [reflexivity| |lia].
    lia.
Qed.

(** The loop of [ParseDuration] on the pairs of a literal: their sum
    added to the running total, or a refusal when that passes [2^63]. *)
Lemma durationLoop_literal fuel : forall orig s t0 t d0,
  (String.length s <= fuel)%nat ->
  specDurationPairs s None t0 = Some t ->
  0 <= d0 <= 2 ^ 63 ->
  durationLoop fuel orig s d0
  = if d0 + (t - t0) <=? 2 ^ 63 then Total (d0 + (t - t0))
    else Failed (invalidDuration orig).
Proof.
  induction fuel as [|fuel IH]; intros orig s t0 t d0 Hlen H Hd0.
  - destruct s; [|cbn [String.length] in Hlen; lia].
    cbn in H. injection H as <-. cbn [durationLoop].
    replace (d0 + (t0 - t0)) with d0 by lia.
    replace (d0 <=? 2 ^ 63) with true by (symmetry; apply Z.leb_le; lia).
    reflexivity.
  - destruct (nonEmpty s) eqn:Hne.
    2:{ destruct s; [|discriminate]. cbn in H. injection H as <-. cbn [durationLoop].
        replace (d0 + (t0 - t0)) with d0 by lia.
        replace (d0 <=? 2 ^ 63) with true by (symmetry; apply Z.leb_le; lia).
        reflexivity. }
    destruct (specDurationPairs_group s t0 t Hne H)
      as (digits & u & rest & unit & Es & Hdn & Hdd & Hu & Hdot & Hm & Hunit & Hrest).
    pose proof (specDurationPairs_head _ _ _ Hrest) as Hhead.
    pose proof (specDurationPairs_ge _ None _ _ I Hrest) as Hge.
    pose proof (decimalValue_ge digits 0 Hdd ltac:(lia)) as Hv0.
    assert (Hupos : 0 < unit)
      by (destruct Hunit as [-> | ->]; reflexivity).
    assert (Hlen' : (String.length rest <= fuel)%nat).
    { subst s. rewrite length_append in Hlen. cbn [String.length] in Hlen. lia. }
    assert (Es' : exists c0 s0, s = String c0 s0).
    { destruct s; [discriminate|]. eauto. }
    destruct Es' as (c0 & s0 & Es0).
    rewrite Es0. cbn [durationLoop]. rewrite <- Es0. rewrite Es.
    set (g := decimalValue digits 0 * unit) in *.
    destruct (Z_le_gt_dec g (2 ^ 63)) as [Hle|Hgt].
    + rewrite (durationGroup_digits orig digits u rest unit
                 Hdn Hdd Hu Hdot Hm Hupos Hhead Hle).
      assert (Hlt : g < 2 ^ 63).
      { subst g. destruct Hunit as [-> | ->];
          [change Hour with 3600000000000 in * | change Minute with 60000000000 in *];
          lia. }
      assert (Hg0 : 0 <= g) by (subst g; nia).
      cbv beta iota zeta. fold g.
      rewrite (Z.mod_small (d0 + g) (2 ^ 64)) by lia.
      destruct (2 ^ 63 <? d0 + g) eqn:Eover.
      * apply Z.ltb_lt in Eover.
        replace (d0 + (t - t0) <=? 2 ^ 63) with false
          by (symmetry; apply Z.leb_gt; lia).
        reflexivity.
      * apply Z.ltb_ge in Eover.
        rewrite (IH orig rest (t0 + g) t (d0 + g) Hlen' Hrest ltac:(lia)).
        replace (d0 + g + (t - (t0 + g))) with (d0 + (t - t0)) by lia.
        reflexivity.
    + rewrite (durationGroup_digits_overflow orig digits u rest unit
                 Hdn Hdd Hu Hdot Hm Hupos Hhead (Z.gt_lt _ _ Hgt)).
      replace (d0 + (t - t0) <=? 2 ^ 63) with false
        by (symmetry; apply Z.leb_gt; lia).
      reflexivity.
Qed.

(** A literal of the specification is read as the span it denotes, and
    refused exactly when that span does not fit 63 bits. *)
Lemma ParseDuration_literal s span :
  specDurationLiteral s = Some span ->
  0 <= span /\
  (span < 2 ^ 63 -> ParseDuration s = (span, None)) /\
  (2 ^ 63 <= span -> ParseDuration s = (0, Some (invalidDuration s))).
Proof.
  unfold specDurationLiteral. destruct (nonEmpty s) eqn:Hne; [|discriminate].
  intros H.
  pose proof (specDurationPairs_ge _ None _ _ I H) as Hge.
  pose proof (durationLoop_literal (String.length s) s s 0 span 0
                (le_n _) H ltac:(lia)) as Hloop.
  replace (0 + (span - 0)) with span in Hloop by lia.
  destruct (specDurationPairs_group s 0 span Hne H)
    as (digits & u & rest & unit & Es & Hdn & Hdd & _).
  destruct (digits_head digits Hdn Hdd) as (c0 & digits' & -> & Hc0).
  destruct (isDigit_not_punct c0 Hc0) as (Em & Ep & _).
  cbn [append] in Es.
  assert (Esign : afterSign s = s).
  { rewrite Es. cbn [afterSign]. rewrite Em, Ep. reflexivity. }
  assert (Ezero : String.eqb s "0" = false).
  { rewrite Es. cbn [String.eqb].
    destruct (Ascii.eqb c0 "0"); [|reflexivity].
    destruct digits'; reflexivity. }
  assert (Eneg : match s with String c _ => Ascii.eqb c "-" | EmptyString => false end
                 = false).
  { rewrite Es. exact Em. }
  split; [exact Hge|].
  unfold ParseDuration. cbv zeta. rewrite Esign, Ezero, Hne, Eneg. cbn [negb].
  rewrite Hloop. split; intros Hspan.
  - replace (span <=? 2 ^ 63) with true by (symmetry; apply Z.leb_le; lia).
    replace (2 ^ 63 - 1 <? span) with false by (symmetry; apply Z.ltb_ge; lia).
    reflexivity.
  - destruct (span <=? 2 ^ 63); [|reflexivity].
    replace (2 ^ 63 - 1 <? span) with true by (symmetry; apply Z.ltb_lt; lia).
    reflexivity.
Qed.

Lemma parseTraining_fields data p0 p1 p2 :
  strings.Split data "," = [p0; p1; p2] ->
  (snd (parseTraining data) <> None <->
     match specInteger p0 with
     | Some n => n <= 0 \/ 2 ^ 63 <= n
     | None => True
     end
     \/ snd (ParseDuration p2) <> None \/ fst (ParseDuration p2) <= 0) /\
  (snd (parseTraining data) = None ->
     exists steps,
       specInteger p0 = Some steps /\
       parseTraining data = (steps, p1, fst (ParseDuration p2), None)).
Proof.
  intros Hsplit. rewrite <- (Atoi_bad_count p0).
  unfold parseTraining. rewrite Hsplit.
  destruct (strconv.Atoi p0) as [n [e|]] eqn:EA; cbn [fst snd].
  - split; [split; [intros _; left; left; discriminate | discriminate]|].
    discriminate.
  - apply Atoi_good_count in EA.
    destruct (n <=? 0) eqn:En; cbn [fst snd].
    + apply Z.leb_le in En.
      split; [split; [intros _; left; right; exact En | discriminate]|].
      discriminate.
    + apply Z.leb_gt in En.
      destruct (ParseDuration p2) as [d [e|]]; cbn [fst snd].
      * split; [split; [intros _; right; left; discriminate | discriminate]|].
        discriminate.
      * destruct (d <=? 0) eqn:Ed; cbn [fst snd].
        -- apply Z.leb_le in Ed.
           split; [split; [intros _; right; right; exact Ed | discriminate]|].
           discriminate.
        -- apply Z.leb_gt in Ed. split.
           ++ split; [intros H; exfalso; apply H; reflexivity|].
              intros [[H|H]|[H|H]]; first [lia | exfalso; apply H; reflexivity].
           ++ intros _. exists n. split; [exact EA | reflexivity].
Qed.

Lemma parsePackage_fields data p0 p1 :
  strings.Split data "," = [p0; p1] ->
  (snd (parsePackage data) <> None <->
     match specInteger p0 with
     | Some n => n <= 0 \/ 2 ^ 63 <= n
     | None => True
     end
     \/ snd (ParseDuration p1) <> None \/ fst (ParseDuration p1) <= 0) /\
  (snd (parsePackage data) = None ->
     exists steps,
       specInteger p0 = Some steps /\
       parsePackage data = (steps, fst (ParseDuration p1), None)).
Proof.
  intros Hsplit. rewrite <- (Atoi_bad_count p0).
  unfold parsePackage. rewrite Hsplit.
  destruct (strconv.Atoi p0) as [n [e|]] eqn:EA; cbn [fst snd].
  - split; [split; [intros _; left; left; discriminate | discriminate]|].
    discriminate.
  - apply Atoi_good_count in EA.
    destruct (n <=? 0) eqn:En; cbn [fst snd].
    + apply Z.leb_le in En.
      split; [split; [intros _; left; right; exact En | discriminate]|].
      discriminate.
    + apply Z.leb_gt in En.
      destruct (ParseDuration p1) as [d [e|]]; cbn [fst snd].
      * split; [split; [intros _; right; left; discriminate | discriminate]|].
        discriminate.
      * destruct (d <=? 0) eqn:Ed; cbn [fst snd].
        -- apply Z.leb_le in Ed.
           split; [split; [intros _; right; right; exact Ed | discriminate]|].
           discriminate.
        -- apply Z.leb_gt in Ed. split.
           ++ split; [intros H; exfalso; apply H; reflexivity|].
              intros [[H|H]|[H|H]]; first [lia | exfalso; apply H; reflexivity].
           ++ intros _. exists n. split; [exact EA | reflexivity].
Qed.

Lemma parseTraining_field_count data (l : list string) :
  List.length l <> 3%nat -> strings.Split data "," = l ->
  snd (parseTraining data) = Some (errors.New "bad data format").
Proof.
  intros Hl El. unfold parseTraining. rewrite El.
  destruct l as [|p0 [|p1 [|p2 [|p3 rest]]]]; cbn [List.length] in Hl;
    first [reflexivity | lia].
Qed.

Lemma parsePackage_field_count data (l : list string) :
  List.length l <> 2%nat -> strings.Split data "," = l ->
  snd (parsePackage data) = Some (errors.New "bad data format").
Proof.
  intros Hl El. unfold parsePackage. rewrite El.
  destruct l as [|p0 [|p1 [|p2 rest]]]; cbn [List.length] in Hl;
    first [reflexivity | lia].
Qed.

(** A duration field that is a literal of the specification, as the
    parsers judge it. *)
Lemma ParseDuration_bad_literal p span :
  specDurationLiteral p = Some span ->
  ((snd (ParseDuration p) <> None \/ fst (ParseDuration p) <= 0) <->
   span <= 0 \/ 2 ^ 63 <= span) /\
  (snd (ParseDuration p) = None -> fst (ParseDuration p) = span).
Proof.
  intros H. destruct (ParseDuration_literal p span H) as (H0 & Hin & Hout).
  destruct (Z_lt_le_dec span (2 ^ 63)) as [Hlt|Hge].
  - rewrite (Hin Hlt). cbn [fst snd]. split; [|reflexivity]. split.
    + intros [Hx|Hx]; [exfalso; apply Hx; reflexivity | left; exact Hx].
    + intros [Hx|Hx]; [right; exact Hx | lia].
  - rewrite (Hout Hge). cbn [fst snd]. split; [|discriminate]. split.
    + intros _. right. exact Hge.
    + intros _. left. discriminate.
Qed.

(** C4. Each record parser fails exactly when the number of
    comma-separated fields is not the expected one (3 for parseTraining,
    2 for parsePackage), or the first field is not an integer (an optional
    sign and decimal digits), or that integer is <= 0 or does not fit 63
    bits, or time.ParseDuration rejects the last field or gives a span
    <= 0; otherwise it returns that integer, the span and, for
    parseTraining, the middle field as it stands. When the last field is a
    duration literal of the specification, pairs of an integer and an hour
    or minute marker, the parser fails exactly when the integer or the span
    the literal denotes is <= 0 or does not fit 63 bits, and otherwise
    returns that integer and that span: time.ParseDuration reads such a
    literal as the span it denotes and rejects it only out of range. *)
Theorem parsers_fail_exactly_on_bad_fields :
  (forall data : string,
     let fields := strings.Split data "," in
     let badCount :=
       match specInteger (nth 0 fields "") with
       | Some n => n <= 0 \/ 2 ^ 63 <= n
       | None => True
       end in
     (snd (parseTraining data) <> None <->
        List.length fields <> 3%nat \/ badCount
        \/ snd (ParseDuration (nth 2 fields "")) <> None
        \/ fst (ParseDuration (nth 2 fields "")) <= 0) /\
     (snd (parseTraining data) = None ->
        exists steps,
          specInteger (nth 0 fields "") = Some steps /\
          parseTraining data
          = (steps, nth 1 fields "", fst (ParseDuration (nth 2 fields "")), None)) /\
     (snd (parsePackage data) <> None <->
        List.length fields <> 2%nat \/ badCount
        \/ snd (ParseDuration (nth 1 fields "")) <> None
        \/ fst (ParseDuration (nth 1 fields "")) <= 0) /\
     (snd (parsePackage data) = None ->
        exists steps,
          specInteger (nth 0 fields "") = Some steps /\
          parsePackage data = (steps, fst (ParseDuration (nth 1 fields "")), None))) /\
  (forall (data count label literal : string) (n span : Z),
     specInteger count = Some n -> specDurationLiteral literal = Some span ->
     (strings.Split data "," = [count; label; literal] ->
      (snd (parseTraining data) <> None <->
         n <= 0 \/ 2 ^ 63 <= n \/ span <= 0 \/ 2 ^ 63 <= span) /\
      (snd (parseTraining data) = None ->
         parseTraining data = (n, label, span, None))) /\
     (strings.Split data "," = [count; literal] ->
      (snd (parsePackage data) <> None <->
         n <= 0 \/ 2 ^ 63 <= n \/ span <= 0 \/ 2 ^ 63 <= span) /\
      (snd (parsePackage data) = None ->
         parsePackage data = (n, span, None)))) /\
  (forall (literal : string) (span : Z),
     specDurationLiteral literal = Some span ->
     0 <= span /\
     (span < 2 ^ 63 -> ParseDuration literal = (span, None)) /\
     (2 ^ 63 <= span -> ParseDuration literal = (0, Some (invalidDuration literal)))).
Proof.
  split; [|split; [|exact ParseDuration_literal]].
  - intros data fields badCount. subst badCount fields.
    destruct (strings.Split data ",") as [|p0 [|p1 [|p2 [|p3 rest]]]] eqn:Hsplit.
    3: { (* two fields *)
      destruct (parsePackage_fields data p0 p1 Hsplit) as [Hiff Hok].
      pose proof (parseTraining_field_count data [p0; p1]
                    ltac:(cbn [List.length]; lia) Hsplit) as H3.
      cbn [nth List.length]. rewrite H3.
      split; [split; [intros _; left; lia | discriminate]|].
      split; [discriminate|].
      split; [|exact Hok].
      rewrite Hiff. split; [intros H; right; exact H|].
      intros [H|H]; [exfalso; apply H; reflexivity | exact H]. }
    3: { (* three fields *)
      destruct (parseTraining_fields data p0 p1 p2 Hsplit) as [Hiff Hok].
      pose proof (parsePackage_field_count data [p0; p1; p2]
                    ltac:(cbn [List.length]; lia) Hsplit) as H2.
      cbn [nth List.length]. rewrite H2.
      split.
      { rewrite Hiff. split; [intros H; right; exact H|].
        intros [H|H]; [exfalso; apply H; reflexivity | exact H]. }
      split; [exact Hok|].
      split; [split; [intros _; left; lia | discriminate]|].
      discriminate. }
    all: match type of Hsplit with
         | _ = ?l =>
             pose proof (parseTraining_field_count data l
                           ltac:(cbn [List.length]; lia) Hsplit) as H3;
             pose proof (parsePackage_field_count data l
                           ltac:(cbn [List.length]; lia) Hsplit) as H2
         end;
      rewrite H3, H2; cbn [List.length];
      (split; [split; [intros _; left; lia | discriminate]|]);
      (split; [discriminate|]);
      (split; [split; [intros _; left; lia | discriminate]|]);
      discriminate.
  - intros data count label literal n span Hcount Hlit.
    destruct (ParseDuration_bad_literal literal span Hlit) as [Hbad Hval].
    split; intros Hsplit.
    + destruct (parseTraining_fields data count label literal Hsplit) as [Hiff Hok].
      rewrite Hcount in Hiff. split.
      * rewrite Hiff, Hbad. tauto.
      * intros Hnone. destruct (Hok Hnone) as (steps & Hsteps & Hres).
        rewrite Hcount in Hsteps. injection Hsteps as <-.
        rewrite Hres. rewrite Hval; [reflexivity|].
        destruct (snd (ParseDuration literal)) eqn:E; [|reflexivity].
        exfalso. assert (Hf : snd (parseTraining data) <> None).
        { apply Hiff. right. left. discriminate. }
        apply Hf, Hnone.
    + destruct (parsePackage_fields data count literal Hsplit) as [Hiff Hok].
      rewrite Hcount in Hiff. split.
      * rewrite Hiff, Hbad. tauto.
      * intros Hnone. destruct (Hok Hnone) as (steps & Hsteps & Hres).
        rewrite Hcount in Hsteps. injection Hsteps as <-.
        rewrite Hres. rewrite Hval; [reflexivity|].
        destruct (snd (ParseDuration literal)) eqn:E; [|reflexivity].
        exfalso. assert (Hf : snd (parsePackage data) <> None).
        { apply Hiff. right. left. discriminate. }
        apply Hf, Hnone.
Qed.

Lemma parsers_fail_exactly_on_bad_fields_witness :
  parseTraining "3456,Ходьба,3h00m" = (3456, walking, 3 * Hour, None) /\
  parsePackage "678,0h50m" = (678, 50 * Minute, None) /\
  ParseDuration "1h30m" = (Hour + 30 * Minute, None).
Proof.
  destruct parsers_fail_exactly_on_bad_fields as (_ & Hfields & Hlit).
  destruct (Hfields "3456,Ходьба,3h00m" "3456" walking "3h00m" 3456 (3 * Hour)
              eq_refl eq_refl) as [H3 _].
  destruct (Hfields "678,0h50m" "678" "" "0h50m" 678 (50 * Minute)
              eq_refl eq_refl) as [_ H2].
  destruct (Hlit "1h30m" (Hour + 30 * Minute) eq_refl) as (_ & Hspan & _).
  split; [apply (H3 eq_refl); vm_compute; reflexivity|].
  split; [apply (H2 eq_refl); vm_compute; reflexivity|].
  apply Hspan. vm_compute. reflexivity.
Defined.

(** C4 as stated fails in both directions when an integer and a
    duration literal are what the specification says they are: a duration
    with a fraction, with a unit of seconds or with a plus sign is no
    literal of the specification and yet the record is accepted, and a
    positive integer of twenty digits before a literal of one hour is
    rejected. *)
Lemma parsers_differ_from_specified_grammar :
  (specDurationLiteral "1.5h" = None /\
   parsePackage "678,1.5h" = (678, 5400000000000, None)) /\
  (specDurationLiteral "90s" = None /\
   parseTraining "3456,Бег,90s" = (3456, running, 90000000000, None)) /\
  (specDurationLiteral "+1h" = None /\
   parsePackage "678,+1h" = (678, Hour, None)) /\
  (specInteger "99999999999999999999" = Some 99999999999999999999 /\
   specDurationLiteral "1h" = Some Hour /\
   0 < Hour /\
   snd (parseTraining "99999999999999999999,Бег,1h")
   = Some (wrapError "failed to extract steps: %w"
             (strconv.rangeError "Atoi" "99999999999999999999"))).
Proof. vm_compute. repeat split. Qed.
